(** * Attentiveness monitor: a shallow embedding of the state machine

    The development follows the Python sources file by file:

    - [FacePresence]   utils/face_presence.py    (FacePresenceDetector)
    - [Emergency]      utils/emergency_wakeup.py (EmergencyWakeup)
    - [Logger]         utils/activity_logger.py  (ActivityLogger)
    - [Feedback]       utils/ai_feedback.py      (AIFeedback)
    - section Geometry utils/eye_tracking.py, utils/yawn_detection.py
                       (EyeTracker, YawnDetector: the extractors)
    - [LogStats]       utils/activity_logger.py  (get_log_stats)
    - [Eye], [Yawn]    utils/eye_tracking.py, utils/yawn_detection.py
                       (the drowsiness and yawn tests, the read-outs)
    - [MultipleFaces]  utils/multiple_faces.py   (MultipleFaceDetector)
    - [Monitor]        master_controller_gui.py  (AttentivenessMonitor)

    Conventions.  Python floats (clock readings, EAR, MAR, thresholds) are
    rationals [Q]; rounding is not modelled.  Every call of [time.time()] is
    an explicit argument of the function that makes it, named after the
    place of the call.  Python strings are [string]; [None] is [option].
    Mutation of [self] is explicit state passing: a method returns the new
    object (and its result, when it has one).  Calls into Qt, pygame, pyttsx3
    and the CSV file are recorded in traces held by the object that makes
    them. *)

From Stdlib Require Import QArith Qminmax Qabs ZArith List String Bool Arith Lia Lqa.
Import ListNotations.
Open Scope string_scope.
Open Scope Q_scope.

(** ** Comparisons on floats *)

Definition Qleb (x y : Q) : bool := Qle_bool x y.
Definition Qltb (x y : Q) : bool := negb (Qle_bool y x).

(** ** utils/face_presence.py *)

Module FacePresence.

Record FacePresenceDetector := mk {
  short_absence_threshold : Q;
  long_absence_threshold : Q;
  face_lost_time : option Q;
  last_face_detected_time : Q
}.

(** [__init__]; [now] is the reading of [time.time()] at line 17. *)
Definition init (short long now : Q) : FacePresenceDetector :=
  mk short long None now.

Definition default (now : Q) : FacePresenceDetector := init 3.0 10.0 now.

(** The camera image: [None] after a failed read, otherwise a picture on
    which MediaPipe's face detection (a black box) finds [detections]
    faces. *)
Inductive image :=
| NoImage
| Picture (detections : nat).

(** [cv2.cvtColor] raises on [None]; on a picture it keeps the content. *)
Definition cvtColor (im : image) : option nat :=
  match im with
  | NoImage => None
  | Picture d => Some d
  end.

(** [_handle_no_face]; [now] is the reading at line 63. *)
Definition _handle_no_face (self : FacePresenceDetector) (now : Q)
  : FacePresenceDetector * string :=
  let self1 :=
    match face_lost_time self with
    | None => mk (short_absence_threshold self) (long_absence_threshold self)
                 (Some now) (last_face_detected_time self)
    | Some _ => self
    end in
  let absence_duration :=
    match face_lost_time self1 with
    | Some t0 => now - t0
    | None => 0
    end in
  if Qleb (long_absence_threshold self1) absence_duration then
    (self1, "Not Awake")
  else if Qleb (short_absence_threshold self1) absence_duration then
    (self1, "Inactive (Face Missing)")
  else
    (self1, "Active").

(** [check_face_presence]; [now] is the reading at line 45 and
    [now_handle] the one taken inside [_handle_no_face].  The result is
    [None] when the call raises. *)
Definition check_face_presence (self : FacePresenceDetector) (im : image)
           (now now_handle : Q) : option (FacePresenceDetector * string) :=
  match im with
  | NoImage => Some (_handle_no_face self now_handle)
  | _ =>
    match cvtColor im with
    | None => None
    | Some detections =>
      if (0 <? detections)%nat then
        Some (mk (short_absence_threshold self) (long_absence_threshold self)
                 None now, "Active")
      else Some (_handle_no_face self now_handle)
    end
  end.

Definition reset (self : FacePresenceDetector) (now : Q) : FacePresenceDetector :=
  mk (short_absence_threshold self) (long_absence_threshold self) None now.

(** A feed: one image and the two clock readings per frame.  [feed] returns
    the statuses in frame order and the final detector; a raising call ends
    the feed with [None]. *)
Fixpoint feed (self : FacePresenceDetector) (frames : list (image * Q * Q))
  : option (list string * FacePresenceDetector) :=
  match frames with
  | [] => Some ([], self)
  | (im, now, now_handle) :: rest =>
    match check_face_presence self im now now_handle with
    | None => None
    | Some (self', status) =>
      match feed self' rest with
      | None => None
      | Some (statuses, final) => Some (status :: statuses, final)
      end
    end
  end.

(** Feeds built from the clock readings [(now, now_handle)] of each frame:
    pictures on which no face is found, and failed camera reads. *)
Definition absent_feed (readings : list (Q * Q)) : list (image * Q * Q) :=
  map (fun r => (Picture 0, fst r, snd r)) readings.

Definition none_feed (readings : list (Q * Q)) : list (image * Q * Q) :=
  map (fun r => (NoImage, fst r, snd r)) readings.

(** The if-chain at the end of [_handle_no_face], on its own. *)
Definition absence_code (short long elapsed : Q) : string :=
  if Qleb long elapsed then "Not Awake"
  else if Qleb short elapsed then "Inactive (Face Missing)"
  else "Active".

(** Severity order of the three statuses the detector returns. *)
Definition rank (status : string) : nat :=
  if String.eqb status "Not Awake" then 2
  else if String.eqb status "Inactive (Face Missing)" then 1
  else 0.

(** The status expected after [elapsed] seconds of absence. *)
Definition absence_status (short long elapsed : Q) (status : string) : Prop :=
  (elapsed < short -> status = "Active") /\
  (short <= elapsed /\ elapsed < long -> status = "Inactive (Face Missing)") /\
  (long <= elapsed -> status = "Not Awake").

(** [get_absence_duration]; [now] is the reading at line 89. *)
Definition get_absence_duration (self : FacePresenceDetector) (now : Q) : Q :=
  match face_lost_time self with
  | None => 0.0
  | Some t0 => now - t0
  end.

(** [get_time_since_last_detection]; [now] is the reading at line 98. *)
Definition get_time_since_last_detection (self : FacePresenceDetector) (now : Q)
  : Q :=
  now - last_face_detected_time self.

(** [is_face_present]: the image is tested for [None] before
    [cv2.cvtColor] sees it. *)
Definition is_face_present (self : FacePresenceDetector) (im : image) : bool :=
  match im with
  | NoImage => false
  | Picture detections => (0 <? detections)%nat
  end.

(** The dictionary [get_status_info] returns; [now] is the reading at line
    153 and [now_absence] the one inside [get_absence_duration]. *)
Record status_info := mk_info {
  face_present : bool;
  absence_duration : Q;
  time_since_last_detection : Q;
  short_threshold : Q;
  long_threshold : Q
}.

Definition get_status_info (self : FacePresenceDetector) (now now_absence : Q)
  : status_info :=
  mk_info (match face_lost_time self with None => true | Some _ => false end)
          (get_absence_duration self now_absence)
          (now - last_face_detected_time self)
          (short_absence_threshold self) (long_absence_threshold self).

(** The module-level [check_face_presence(image)]: a new detector for each
    call.  [now_init] is the reading in [__init__]. *)
Definition check_face_presence_standalone (im : image)
           (now_init now now_handle : Q) : option string :=
  let detector := default now_init in
  match check_face_presence detector im now now_handle with
  | Some (_, status) => Some status
  | None => None
  end.

(** The module-level [is_face_present(image)]. *)
Definition is_face_present_standalone (im : image) (now_init : Q) : bool :=
  let detector := default now_init in
  is_face_present detector im.

End FacePresence.

(** ** utils/emergency_wakeup.py *)

Module Emergency.

(** What the escalator does to the outside world. *)
Inductive effect :=
| Stdout (text : string)
| FlashSignal (color : string)      (* flash_signal.emit *)
| TimerStart (ms : nat)             (* QTimer.start *)
| TimerStop                         (* QTimer.stop; deleteLater *)
| ThreadStart (name : string)       (* threading.Thread(...).start *)
| MixerStop                         (* pygame.mixer.stop *)
| TtsStop.                          (* tts_engine.stop *)

(** A thread object is [Some alive]; a timer object is [Some interval]. *)
Record EmergencyWakeup := mk {
  is_emergency_active : bool;
  flash_timer : option nat;
  flash_count : nat;
  siren_thread : option bool;
  tts_thread : option bool;
  pygame_initialized : bool;
  tts_engine : bool;
  effects : list effect
}.

(** [__init__]; whether pygame and pyttsx3 initialise is an input. *)
Definition init (pygame_ok tts_ok : bool) : EmergencyWakeup :=
  mk false None 0 None None pygame_ok tts_ok [].

Definition emit (e : effect) (self : EmergencyWakeup) : EmergencyWakeup :=
  mk (is_emergency_active self) (flash_timer self) (flash_count self)
     (siren_thread self) (tts_thread self) (pygame_initialized self)
     (tts_engine self) (effects self ++ [e]).

Definition play_siren (self : EmergencyWakeup) : EmergencyWakeup :=
  match siren_thread self with
  | Some true => self
  | _ =>
    emit (ThreadStart "siren")
      (mk (is_emergency_active self) (flash_timer self) (flash_count self)
          (Some true) (tts_thread self) (pygame_initialized self)
          (tts_engine self) (effects self))
  end.

Definition start_screen_flash (self : EmergencyWakeup) : EmergencyWakeup :=
  let self1 :=
    match flash_timer self with
    | Some _ => emit TimerStop self
    | None => self
    end in
  emit (TimerStart 500)
    (mk (is_emergency_active self1) (Some 500%nat) 0
        (siren_thread self1) (tts_thread self1) (pygame_initialized self1)
        (tts_engine self1) (effects self1)).

Definition speak_wake_up_message (self : EmergencyWakeup) : EmergencyWakeup :=
  match tts_thread self with
  | Some true => self
  | _ =>
    emit (ThreadStart "tts")
      (mk (is_emergency_active self) (flash_timer self) (flash_count self)
          (siren_thread self) (Some true) (pygame_initialized self)
          (tts_engine self) (effects self))
  end.

Definition trigger_emergency (self : EmergencyWakeup) : EmergencyWakeup :=
  if is_emergency_active self then self
  else
    let self1 :=
      emit (Stdout "EMERGENCY WAKE-UP PROTOCOL ACTIVATED!")
        (mk true (flash_timer self) 0 (siren_thread self) (tts_thread self)
            (pygame_initialized self) (tts_engine self) (effects self)) in
    speak_wake_up_message (start_screen_flash (play_siren self1)).

(** The timer callback. *)
Definition flash_screen (self : EmergencyWakeup) : EmergencyWakeup :=
  if negb (is_emergency_active self) then
    match flash_timer self with
    | Some _ =>
      emit TimerStop
        (mk (is_emergency_active self) None (flash_count self)
            (siren_thread self) (tts_thread self) (pygame_initialized self)
            (tts_engine self) (effects self))
    | None => self
    end
  else
    let color := if Nat.even (flash_count self) then "red" else "blue" in
    let self1 := emit (FlashSignal color) self in
    mk (is_emergency_active self1) (flash_timer self1) (S (flash_count self1))
       (siren_thread self1) (tts_thread self1) (pygame_initialized self1)
       (tts_engine self1) (effects self1).

Definition stop_emergency (self : EmergencyWakeup) : EmergencyWakeup :=
  if negb (is_emergency_active self) then self
  else
    let self1 :=
      mk false (flash_timer self) (flash_count self) (siren_thread self)
         (tts_thread self) (pygame_initialized self) (tts_engine self)
         (effects self) in
    let self2 :=
      match flash_timer self1 with
      | Some _ =>
        emit TimerStop
          (mk (is_emergency_active self1) None (flash_count self1)
              (siren_thread self1) (tts_thread self1)
              (pygame_initialized self1) (tts_engine self1) (effects self1))
      | None => self1
      end in
    let self3 := emit (FlashSignal "normal") self2 in
    let self4 := if pygame_initialized self3 then emit MixerStop self3 else self3 in
    let self5 := if tts_engine self4 then emit TtsStop self4 else self4 in
    emit (Stdout "Emergency protocol stopped.") self5.

(** The calls the rest of the program makes on the escalator: the monitor
    triggers and stops it, the flash timer calls [flash_screen]. *)
Inductive call := Trigger | Stop | Flash.

Definition step (self : EmergencyWakeup) (c : call) : EmergencyWakeup :=
  match c with
  | Trigger => trigger_emergency self
  | Stop => stop_emergency self
  | Flash => flash_screen self
  end.

Definition calls (self : EmergencyWakeup) (cs : list call) : EmergencyWakeup :=
  fold_left step cs self.

Definition is_timer_start (e : effect) : bool :=
  match e with TimerStart _ => true | _ => false end.

Definition is_timer_stop (e : effect) : bool :=
  match e with TimerStop => true | _ => false end.

(** How many timers were started, and how many stopped. *)
Definition timer_starts (self : EmergencyWakeup) : nat :=
  List.length (filter is_timer_start (effects self)).

Definition timer_stops (self : EmergencyWakeup) : nat :=
  List.length (filter is_timer_stop (effects self)).

(** The colours sent through [flash_signal], in order. *)
Definition flashes (self : EmergencyWakeup) : list string :=
  flat_map (fun e => match e with FlashSignal color => [color] | _ => [] end)
           (effects self).

(** What holds of the escalator between any two calls. *)
Definition settled (self : EmergencyWakeup) : Prop :=
  (is_emergency_active self = true <-> flash_timer self <> None) /\
  timer_starts self
  = (timer_stops self + if is_emergency_active self then 1 else 0)%nat /\
  (is_emergency_active self = false -> last (flashes self) "normal" = "normal").

End Emergency.

(** ** utils/activity_logger.py *)

Module Logger.

(** The description column.  The source builds it with f-strings; the
    formatted numbers are kept as numbers. *)
Inductive description :=
| StatusChanged (old_status new_status : string)
| DetectionSession (action : string)
| ReturnedToActive (total_inactive_duration : Q)
| ProtocolTriggered (inactive_duration : Q)
| InactiveFor (threshold : Q).

(** One CSV row, without the wall-clock columns.  [inactive_duration] is
    [None] for the dash. *)
Record row := mk_row {
  status : string;
  descr : description;
  duration : Q;
  ear_value : Q;
  mar_value : Q;
  inactive_duration : option Q
}.

Record ActivityLogger := mk {
  last_inactive_start : option Q;
  rows : list row
}.

Definition init : ActivityLogger := mk None [].

Definition log_event (self : ActivityLogger) (status : string)
           (description : description) (duration ear_value mar_value : Q)
           (inactive_duration : option Q) : ActivityLogger :=
  mk (last_inactive_start self)
     (rows self ++ [mk_row status description duration ear_value mar_value
                           inactive_duration]).

Definition inactive_statuses : list string :=
  ["Drowsy"; "Yawning"; "Inactive (Face Missing)"; "Not Awake";
   "Multiple Persons Detected"; "Inactive"].

Definition _is_inactive_status (status : string) : bool :=
  existsb (String.eqb status) inactive_statuses.

Definition log_status_change (self : ActivityLogger)
           (old_status new_status : string) (ear mar current_time : Q)
  : ActivityLogger :=
  let description := StatusChanged old_status new_status in
  let '(start, inactive_duration) :=
    if _is_inactive_status old_status && String.eqb new_status "Active" then
      match last_inactive_start self with
      | Some t0 => (None, Some (current_time - t0))
      | None => (None, None)
      end
    else if String.eqb old_status "Active" && _is_inactive_status new_status then
      (Some current_time, None)
    else if _is_inactive_status old_status && _is_inactive_status new_status then
      (last_inactive_start self, None)
    else if negb (_is_inactive_status old_status)
            && negb (_is_inactive_status new_status) then
      (None, None)
    else (last_inactive_start self, None) in
  log_event (mk start (rows self)) new_status description 0 ear mar
            inactive_duration.

Definition log_detection_session (self : ActivityLogger) (action : string)
  : ActivityLogger :=
  let self1 :=
    if String.eqb action "started" then mk None (rows self)
    else if String.eqb action "stopped" then mk None (rows self)
    else self in
  log_event self1 "System" (DetectionSession action) 0 0.0 0.0 None.

Definition log_inactive_to_active_transition (self : ActivityLogger)
           (total_inactive_duration ear mar : Q) : ActivityLogger :=
  let self1 :=
    log_event self "Active" (ReturnedToActive total_inactive_duration) 0
              ear mar (Some total_inactive_duration) in
  mk None (rows self1).

Definition reset_inactive_tracking (self : ActivityLogger) : ActivityLogger :=
  mk None (rows self).

(** [log_emergency] *)
Definition log_emergency (self : ActivityLogger) (inactive_duration : Q)
  : ActivityLogger :=
  log_event self "Emergency" (ProtocolTriggered inactive_duration)
            inactive_duration 0.0 0.0 (Some inactive_duration).

(** [get_current_inactive_duration]; [now] is the reading at line 134. *)
Definition get_current_inactive_duration (self : ActivityLogger) (now : Q) : Q :=
  match last_inactive_start self with
  | Some t0 => now - t0
  | None => 0
  end.

(** [clear_logs].  It calls [initialize_log_file], which writes the header
    (and with it an empty file) only when the log file does not exist; the
    file exists from [__init__] on, so no row is touched. *)
Definition clear_logs (self : ActivityLogger) : ActivityLogger :=
  mk None (rows self).

(** The calls made on a logger.  [log_status_change] is always called with
    its clock reading. *)
Inductive call :=
| LogEvent (status : string) (description : description)
           (duration ear_value mar_value : Q) (inactive_duration : option Q)
| LogStatusChange (old_status new_status : string) (ear mar current_time : Q)
| LogEmergency (inactive_duration : Q)
| LogDetectionSession (action : string)
| LogInactiveToActive (total_inactive_duration ear mar : Q)
| ResetInactiveTracking
| ClearLogs.

Definition step (self : ActivityLogger) (c : call) : ActivityLogger :=
  match c with
  | LogEvent status description duration ear_value mar_value inactive_duration =>
    log_event self status description duration ear_value mar_value
              inactive_duration
  | LogStatusChange old_status new_status ear mar current_time =>
    log_status_change self old_status new_status ear mar current_time
  | LogEmergency inactive_duration => log_emergency self inactive_duration
  | LogDetectionSession action => log_detection_session self action
  | LogInactiveToActive total_inactive_duration ear mar =>
    log_inactive_to_active_transition self total_inactive_duration ear mar
  | ResetInactiveTracking => reset_inactive_tracking self
  | ClearLogs => clear_logs self
  end.

Definition calls (self : ActivityLogger) (cs : list call) : ActivityLogger :=
  fold_left step cs self.

(** Whether a call writes a row. *)
Definition writes_row (c : call) : bool :=
  match c with
  | ResetInactiveTracking | ClearLogs => false
  | _ => true
  end.

(** Successive status changes as [update_status] reports them: the old
    status of each call is the new status of the call before.  Every change
    comes with its clock reading; EAR and MAR are left at their default
    0.0. *)
Fixpoint log_changes (self : ActivityLogger) (old_status : string)
         (changes : list (string * Q)) : ActivityLogger :=
  match changes with
  | [] => self
  | (new_status, current_time) :: rest =>
    log_changes (log_status_change self old_status new_status 0.0 0.0
                                   current_time)
                new_status rest
  end.

End Logger.

(** ** utils/ai_feedback.py *)

Module Feedback.

Record AIFeedback := mk {
  tts_engine : bool;
  speech_queue : list (string * string);
  is_speaking : bool;
  last_spoken_status : option string;
  last_speech_time : Q;
  min_speech_interval : Q
}.

(** [__init__]; whether pyttsx3 initialises is an input. *)
Definition init (tts_ok : bool) : AIFeedback :=
  mk tts_ok [] false None 0 3.0.

Definition status_messages : list (string * list string) :=
  [ ("Active",
     ["Great! You're staying focused.";
      "Good attention level detected.";
      "Keep up the good work!";
      "Excellent focus maintained."]);
    ("Yawning",
     ["I notice you're yawning. Try to stay alert.";
      "You seem tired. Take a deep breath.";
      "Yawning detected. Please stay focused.";
      "Feeling sleepy? Try to stay awake."]);
    ("Drowsy",
     ["You appear drowsy. Please stay awake.";
      "Low eye activity detected. Please focus.";
      "Drowsiness alert! Please pay attention.";
      "Your eyes seem heavy. Please stay alert."]);
    ("Inactive (Face Missing)",
     ["I can't see your face. Please position yourself properly.";
      "Face not detected. Please come back to the camera.";
      "Please ensure you're visible to the camera.";
      "Please return to your position."]);
    ("Face Missing",
     ["I can't see your face. Please position yourself properly.";
      "Face not detected. Please come back to the camera.";
      "Please ensure you're visible to the camera.";
      "Please return to your position."]);
    ("Multiple Persons Detected",
     ["Multiple people detected. Please ensure only one person is monitoring.";
      "Too many faces in view. Please clear the area.";
      "Single user mode required.";
      "Only one person should be in view."]);
    ("Multiple Faces",
     ["Multiple people detected. Please ensure only one person is monitoring.";
      "Too many faces in view. Please clear the area.";
      "Single user mode required.";
      "Only one person should be in view."]);
    ("Looking Away",
     ["I notice you're looking away. Please focus on your studies.";
      "Please look at the screen.";
      "Your attention seems to be elsewhere.";
      "Please redirect your attention to your work."]);
    ("Distracted",
     ["You seem distracted. Please focus.";
      "Please pay attention to your studies.";
      "Your attention level is low.";
      "Please concentrate on your work."]);
    ("Not Awake",
     ["You've been away too long. Please return.";
      "Extended absence detected. Please come back.";
      "Long inactivity period. Please focus.";
      "Please wake up and return to your studies."]);
    ("Fake Presence",
     ["Artificial presence detected. Please use live video only.";
      "Static image detected. Please show live movement.";
      "Spoofing attempt detected.";
      "Please ensure live video feed."]);
    ("Emergency",
     ["Emergency alert! Please wake up immediately!";
      "Attention required! You've been inactive too long!";
      "Wake up! Please return to your studies!";
      "Critical alert! Please focus on your work!"]);
    ("Inactive",
     ["You seem inactive. Please engage with your studies.";
      "No activity detected. Please stay focused.";
      "Please remain active and attentive.";
      "Activity level is low. Please concentrate."]) ].

(** [dict.get(key, default)] on an association list. *)
Fixpoint get {A} (d : list (string * A)) (key : string) (default : A) : A :=
  match d with
  | [] => default
  | (k, v) :: rest => if String.eqb k key then v else get rest key default
  end.

Definition critical_statuses : list string :=
  ["Emergency"; "Not Awake"; "Fake Presence"; "Drowsy"].

Definition is_critical (status : string) : bool :=
  existsb (String.eqb status) critical_statuses.

Definition priority_of (status : string) : string :=
  if is_critical status then "high" else "normal".

Definition same_status (last : option string) (status : string) : bool :=
  match last with
  | Some s => String.eqb s status
  | None => false
  end.

(** [speak_status]; [now] is the reading at line 165 and [pick] the index
    [random.choice] draws.  The queue is unbounded, so [put] never fails. *)
Definition speak_status (self : AIFeedback) (status : string) (now : Q)
           (pick : nat) : AIFeedback :=
  if negb (tts_engine self) then self
  else if same_status (last_spoken_status self) status
          && Qltb (now - last_speech_time self) (min_speech_interval self)
  then self
  else if is_speaking self && negb (is_critical status) then self
  else
    let messages := get status_messages status [("Status update: " ++ status)%string] in
    let message :=
      if (1 <? List.length messages)%nat
      then nth (pick mod List.length messages) messages ""
      else nth 0 messages "" in
    let priority := priority_of status in
    let queue := if String.eqb priority "high" then [] else speech_queue self in
    mk (tts_engine self) (queue ++ [(message, priority)]) (is_speaking self)
       (Some status) now (min_speech_interval self).

(** One round of [_speech_worker]: [worker_get] takes the next request off
    the queue and starts speaking, [worker_done] is the return of
    [runAndWait]. *)
Definition worker_get (self : AIFeedback) : AIFeedback :=
  match speech_queue self with
  | [] => self
  | _ :: rest =>
    mk (tts_engine self) rest (tts_engine self) (last_spoken_status self)
       (last_speech_time self) (min_speech_interval self)
  end.

Definition worker_done (self : AIFeedback) : AIFeedback :=
  mk (tts_engine self) (speech_queue self) false (last_spoken_status self)
     (last_speech_time self) (min_speech_interval self).

(** [speak_custom_message] *)
Definition speak_custom_message (self : AIFeedback) (message priority : string)
  : AIFeedback :=
  if negb (tts_engine self) then self
  else
    mk (tts_engine self) (speech_queue self ++ [(message, priority)])
       (is_speaking self) (last_spoken_status self) (last_speech_time self)
       (min_speech_interval self).

(** [speak_head_pose_feedback] *)
Definition speak_head_pose_feedback (self : AIFeedback)
           (head_direction : string) (attention_score : Q) : AIFeedback :=
  if Qltb attention_score 50 then
    let message :=
      if String.eqb head_direction "Left" then
        "Please look forward, not to the left."
      else if String.eqb head_direction "Right" then
        "Please look forward, not to the right."
      else if String.eqb head_direction "Up" then
        "Please look at your screen, not upward."
      else if String.eqb head_direction "Down" then
        "Please look up at your screen."
      else "Please focus your attention forward." in
    speak_custom_message self message "normal"
  else self.

Definition _clear_speech_queue (self : AIFeedback) : AIFeedback :=
  mk (tts_engine self) [] (is_speaking self) (last_spoken_status self)
     (last_speech_time self) (min_speech_interval self).

Definition is_currently_speaking (self : AIFeedback) : bool := is_speaking self.

Definition get_queue_size (self : AIFeedback) : nat :=
  List.length (speech_queue self).

Definition reset_speech_timing (self : AIFeedback) : AIFeedback :=
  mk (tts_engine self) (speech_queue self) (is_speaking self) None 0
     (min_speech_interval self).

(** The calls made on the sink, and the rounds of its worker thread. *)
Inductive call :=
| SpeakStatus (status : string) (now : Q) (pick : nat)
| SpeakCustomMessage (message priority : string)
| SpeakHeadPoseFeedback (head_direction : string) (attention_score : Q)
| ResetSpeechTiming
| ClearSpeechQueue
| WorkerGet
| WorkerDone.

Definition step (self : AIFeedback) (c : call) : AIFeedback :=
  match c with
  | SpeakStatus status now pick => speak_status self status now pick
  | SpeakCustomMessage message priority =>
    speak_custom_message self message priority
  | SpeakHeadPoseFeedback head_direction attention_score =>
    speak_head_pose_feedback self head_direction attention_score
  | ResetSpeechTiming => reset_speech_timing self
  | ClearSpeechQueue => _clear_speech_queue self
  | WorkerGet => worker_get self
  | WorkerDone => worker_done self
  end.

Definition calls (self : AIFeedback) (cs : list call) : AIFeedback :=
  fold_left step cs self.

(** Whether [speak_status] goes on to queue a message: the engine is there,
    the status is not a repetition inside the interval, and the sink is not
    speaking unless the status is critical. *)
Definition accepts (self : AIFeedback) (status : string) (now : Q) : bool :=
  tts_engine self
  && negb (same_status (last_spoken_status self) status
           && Qltb (now - last_speech_time self) (min_speech_interval self))
  && negb (is_speaking self && negb (is_critical status)).

End Feedback.

(** ** utils/eye_tracking.py and utils/yawn_detection.py *)

(** A landmark is a pixel position [[x, y]]. *)
Definition point : Type := (Z * Z)%type.

(** [gather landmarks points] is the loop that fills [eye_coords] (or
    [mouth_coords]): [None] when it meets an index that is not below
    [len(landmarks)], which is where the source returns early. *)
Fixpoint gather (landmarks : list point) (points : list nat) : option (list point) :=
  match points with
  | [] => Some []
  | point_idx :: rest =>
    if (point_idx <? List.length landmarks)%nat then
      match nth_error landmarks point_idx, gather landmarks rest with
      | Some p, Some coords => Some (p :: coords)
      | _, _ => None
      end
    else None
  end.

(** [sum(history) / len(history)] *)
Definition mean (history : list Q) : Q :=
  fold_left Qplus history 0 / inject_Z (Z.of_nat (List.length history)).

(** [history.append(x)] followed by [pop(0)] when more than [window] values
    are held. *)
Definition push (window : nat) (history : list Q) (x : Q) : list Q :=
  let history1 := (history ++ [x])%list in
  if (window <? List.length history1)%nat then tl history1 else history1.

(** [dict.get(key, 0)] on the head-pose dictionary. *)
Fixpoint pose_get (head_pose_data : list (string * Q)) (key : string) : Q :=
  match head_pose_data with
  | [] => 0
  | (k, v) :: rest => if String.eqb k key then v else pose_get rest key
  end.

Section Geometry.

(** [norm a b] stands for [np.linalg.norm(a - b)], the Euclidean distance
    of two landmarks. *)
Variable norm : point -> point -> Q.

Record EyeTracker := mk_eye {
  left_eye_points : list nat;
  right_eye_points : list nat;
  ear_history : list Q;
  eye_last_ear : Q
}.

Definition eye_init : EyeTracker :=
  mk_eye [33; 160; 158; 133; 153; 144]%nat [362; 385; 387; 263; 373; 380]%nat
         [] 0.3.

(** The body of the [try] in [_calculate_single_eye_ear], after the
    coordinates are gathered; [None] is an [IndexError]. *)
Definition single_eye_ratio (self : EyeTracker) (eye_coords : list point)
  : option Q :=
  match nth_error eye_coords 0, nth_error eye_coords 1, nth_error eye_coords 2,
        nth_error eye_coords 3, nth_error eye_coords 4, nth_error eye_coords 5
  with
  | Some p0, Some p1, Some p2, Some p3, Some p4, Some p5 =>
    let vertical_dist1 := norm p1 p5 in
    let vertical_dist2 := norm p2 p4 in
    let horizontal_dist := norm p0 p3 in
    if Qltb 0.5 horizontal_dist then
      let ear := (vertical_dist1 + vertical_dist2) / (2.0 * horizontal_dist) in
      Some (Qmax 0.0 (Qmin 1.0 ear))
    else Some (eye_last_ear self)
  | _, _, _, _, _, _ => None
  end.

(** [_calculate_single_eye_ear]; the [except] branch is the case [None] of
    [single_eye_ratio]. *)
Definition _calculate_single_eye_ear (self : EyeTracker)
           (landmarks : list point) (eye_points : list nat) : Q :=
  match gather landmarks eye_points with
  | None => 0.25
  | Some eye_coords =>
    if (List.length eye_coords <? 6)%nat then 0.25
    else
      match single_eye_ratio self eye_coords with
      | Some ear => ear
      | None => 0.25
      end
  end.

Definition _compensate_for_head_pose (ear : Q) (head_pose_data : list (string * Q))
  : Q :=
  let pitch := pose_get head_pose_data "pitch" in
  let yaw := pose_get head_pose_data "yaw" in
  let ear1 :=
    if Qltb 10 pitch then ear * 1.1
    else if Qltb pitch (-10) then ear * 0.95
    else ear in
  if Qltb 20 (Qabs yaw) then ear1 * 1.05 else ear1.

(** The sample [calculate_ear] appends to [ear_history].  [head_pose_data]
    is true when it is neither [None] nor the empty dictionary. *)
Definition ear_sample (self : EyeTracker) (landmarks : list point)
           (head_pose_data : option (list (string * Q))) : Q :=
  let left_ear := _calculate_single_eye_ear self landmarks (left_eye_points self) in
  let right_ear := _calculate_single_eye_ear self landmarks (right_eye_points self) in
  let ear := (left_ear + right_ear) / 2.0 in
  match head_pose_data with
  | Some (kv :: more) => _compensate_for_head_pose ear (kv :: more)
  | _ => ear
  end.

(** [calculate_ear].  On these types no statement of its [try] body can
    raise (the single-eye helper catches its own errors and the window is
    never empty when it is averaged), so the [except] branch does not
    appear. *)
Definition calculate_ear (self : EyeTracker) (landmarks : list point)
           (head_pose_data : option (list (string * Q))) : EyeTracker * Q :=
  let ear := ear_sample self landmarks head_pose_data in
  let history := push 8 (ear_history self) ear in
  let smoothed_ear := mean history in
  (mk_eye (left_eye_points self) (right_eye_points self) history smoothed_ear,
   smoothed_ear).

Record YawnDetector := mk_yawn {
  mouth_points : list nat;
  mar_history : list Q;
  yawn_last_mar : Q
}.

Definition yawn_init : YawnDetector :=
  mk_yawn [13; 14; 78; 308; 18; 175]%nat [] 0.0.

(** The sample [calculate_mar] appends to [mar_history]; [None] is an
    [IndexError]. *)
Definition mar_sample (self : YawnDetector) (mouth_coords : list point)
  : option Q :=
  match nth_error mouth_coords 0, nth_error mouth_coords 1,
        nth_error mouth_coords 2, nth_error mouth_coords 3,
        nth_error mouth_coords 4, nth_error mouth_coords 5
  with
  | Some p0, Some p1, Some p2, Some p3, Some p4, Some p5 =>
    let vertical_dist1 := norm p0 p4 in
    let vertical_dist2 := norm p1 p5 in
    let horizontal_dist := norm p2 p3 in
    if Qltb 1.0 horizontal_dist then
      Some ((vertical_dist1 + vertical_dist2) / (2.0 * horizontal_dist))
    else Some (yawn_last_mar self)
  | _, _, _, _, _, _ => None
  end.

(** [calculate_mar]; the [except] branch is the case [None] of
    [mar_sample]. *)
Definition calculate_mar (self : YawnDetector) (landmarks : list point)
  : YawnDetector * Q :=
  match gather landmarks (mouth_points self) with
  | None => (self, yawn_last_mar self)
  | Some mouth_coords =>
    if (List.length mouth_coords <? 6)%nat then (self, yawn_last_mar self)
    else
      match mar_sample self mouth_coords with
      | None => (self, yawn_last_mar self)
      | Some mar =>
        let history := push 10 (mar_history self) mar in
        let smoothed_mar := mean history in
        (mk_yawn (mouth_points self) history smoothed_mar, smoothed_mar)
      end
  end.

End Geometry.

(** *** Feeds of landmark frames *)

(** The last [n] elements of a list (all of it when it is shorter). *)
Definition last_n {A : Type} (n : nat) (l : list A) : list A :=
  skipn (List.length l - n) l.

(** The indices the two extractors read. *)
Definition required_points : list nat :=
  (left_eye_points eye_init ++ right_eye_points eye_init
   ++ mouth_points yawn_init)%list.

(** A landmark frame is valid when it holds every required index. *)
Definition valid_landmarks (landmarks : list point) : bool :=
  forallb (fun point_idx => (point_idx <? List.length landmarks)%nat)
          required_points.

(** Whether a call of [calculate_ear] is made without head-pose data
    ([None] or an empty dictionary), as the monitor makes it. *)
Definition uncompensated (head_pose_data : option (list (string * Q))) : bool :=
  match head_pose_data with
  | Some (_ :: _) => false
  | _ => true
  end.

Section Feeds.

Variable norm : point -> point -> Q.

(** [calculate_ear] on successive frames (landmarks and head-pose data):
    the tracker at the end, and the samples appended on the way. *)
Fixpoint ear_feed (self : EyeTracker)
         (frames : list (list point * option (list (string * Q))))
  : EyeTracker :=
  match frames with
  | [] => self
  | (landmarks, head_pose_data) :: rest =>
    ear_feed (fst (calculate_ear norm self landmarks head_pose_data)) rest
  end.

Fixpoint ear_samples (self : EyeTracker)
         (frames : list (list point * option (list (string * Q))))
  : list Q :=
  match frames with
  | [] => []
  | (landmarks, head_pose_data) :: rest =>
    ear_sample norm self landmarks head_pose_data
    :: ear_samples (fst (calculate_ear norm self landmarks head_pose_data)) rest
  end.

(** The sample [calculate_mar] appends for a frame, if it appends one. *)
Definition mar_appended (self : YawnDetector) (landmarks : list point)
  : option Q :=
  match gather landmarks (mouth_points self) with
  | None => None
  | Some mouth_coords =>
    if (List.length mouth_coords <? 6)%nat then None
    else mar_sample norm self mouth_coords
  end.

Fixpoint mar_feed (self : YawnDetector) (frames : list (list point))
  : YawnDetector :=
  match frames with
  | [] => self
  | landmarks :: rest => mar_feed (fst (calculate_mar norm self landmarks)) rest
  end.

Fixpoint mar_samples (self : YawnDetector) (frames : list (list point))
  : list Q :=
  match frames with
  | [] => []
  | landmarks :: rest =>
    let later := mar_samples (fst (calculate_mar norm self landmarks)) rest in
    match mar_appended self landmarks with
    | Some mar => mar :: later
    | None => later
    end
  end.

End Feeds.

(** *** Statistics *)

(** [min(xs)] and [max(xs)] on a list of floats that is not empty. *)
Definition Qlist_min (x : Q) (rest : list Q) : Q := fold_left Qmin rest x.
Definition Qlist_max (x : Q) (rest : list Q) : Q := fold_left Qmax rest x.

Module LogStats.

Section Reading.

(** [one_decimal x] stands for [float(f"{x:.1f}")]: the inactive durations
    are written to the file with one decimal and read back from it. *)
Variable one_decimal : Q -> Q.

(** [float_mean xs] stands for [sum(xs) / len(xs)] as Python computes it on
    a list of floats that is not empty.  The sum is rounded at every
    addition, so the quotient is not the exact mean and need not lie
    between the least and the largest value ([0.1, 0.1, 0.1] gives
    0.10000000000000002); nothing is assumed of it. *)
Variable float_mean : list Q -> Q.

(** [status_counts.get(status, 0)] on a dictionary in insertion order. *)
Fixpoint count_get (status_counts : list (string * nat)) (status : string)
  : nat :=
  match status_counts with
  | [] => 0
  | (k, v) :: rest => if String.eqb k status then v else count_get rest status
  end.

(** [status_counts[status] = v] *)
Fixpoint count_set (status_counts : list (string * nat)) (status : string)
         (v : nat) : list (string * nat) :=
  match status_counts with
  | [] => [(status, v)]
  | (k, old) :: rest =>
    if String.eqb k status then (k, v) :: rest
    else (k, old) :: count_set rest status v
  end.

Record inactive_stats := mk_inactive {
  total_inactive_periods : nat;
  average_inactive_duration : Q;
  max_inactive_duration : Q;
  min_inactive_duration : Q
}.

(** The dictionary [get_log_stats] returns: [{"total_events": 0}] for a log
    without rows, the four entries otherwise ([None] is the empty
    dictionary of [inactive_duration_stats]). *)
Inductive log_stats :=
| NoEvents
| Stats (total_events : nat) (status_counts : list (string * nat))
        (inactive_duration_stats : option inactive_stats)
        (latest_entry : Logger.row).

(** One round of the loop over the rows: the count of the row's status
    goes up, and the row's duration is collected unless it is the dash. *)
Definition tally_row (acc : list (string * nat) * list Q) (row : Logger.row)
  : list (string * nat) * list Q :=
  let '(status_counts, inactive_durations) := acc in
  let status := Logger.status row in
  let status_counts :=
    count_set status_counts status (count_get status_counts status + 1) in
  match Logger.inactive_duration row with
  | Some d => (status_counts, (inactive_durations ++ [one_decimal d])%list)
  | None => (status_counts, inactive_durations)
  end.

(** The loop: the counts and the durations collected. *)
Definition tally (rows : list Logger.row) : list (string * nat) * list Q :=
  fold_left tally_row rows ([], []).

(** [get_log_stats], on a log file that can be read. *)
Definition get_log_stats (self : Logger.ActivityLogger) : log_stats :=
  let rows := Logger.rows self in
  match rows with
  | [] => NoEvents
  | first :: _ =>
    let '(status_counts, inactive_durations) := tally rows in
    let total_events := List.length rows in
    let inactive_stats :=
      match inactive_durations with
      | [] => None
      | d :: more =>
        Some (mk_inactive (List.length inactive_durations)
                          (float_mean inactive_durations)
                          (Qlist_max d more) (Qlist_min d more))
      end in
    Stats total_events status_counts inactive_stats (last rows first)
  end.

End Reading.

End LogStats.

(** *** The drowsiness test of utils/eye_tracking.py *)

Module Eye.

(** [EyeTracker] with the fields of its drowsiness test; [tracker] holds the
    fields the extractor uses. *)
Record state := mk {
  tracker : EyeTracker;
  ear_threshold : Q;
  consecutive_frames : nat;
  drowsy_frame_count : nat;
  stable_drowsy_count : nat;
  stable_threshold : nat
}.

Definition init : state := mk eye_init 0.22 4 0 0 3.

Definition last_ear (self : state) : Q := eye_last_ear (tracker self).

(** [if ear is None: ear = self.last_ear] *)
Definition or_last (self : state) (ear : option Q) : Q :=
  match ear with
  | Some e => e
  | None => last_ear self
  end.

Definition set_counts (self : state) (drowsy stable : nat) : state :=
  mk (tracker self) (ear_threshold self) (consecutive_frames self) drowsy stable
     (stable_threshold self).

Definition is_drowsy (self : state) (ear : option Q) (head_turned_away : bool)
  : state * bool :=
  let ear := or_last self ear in
  if head_turned_away then (set_counts self 0 0, false)
  else
    let self1 :=
      if Qltb ear (ear_threshold self) then
        set_counts self (drowsy_frame_count self + 1) (stable_drowsy_count self + 1)
      else set_counts self 0 0 in
    (self1,
     (consecutive_frames self1 <=? drowsy_frame_count self1)%nat
     && (stable_threshold self1 <=? stable_drowsy_count self1)%nat).

Definition get_drowsiness_level (self : state) (ear : option Q) : nat :=
  let ear := or_last self ear in
  if Qleb 0.28 ear then 0
  else if Qleb 0.24 ear then 20
  else if Qleb 0.20 ear then 40
  else if Qleb 0.16 ear then 60
  else if Qleb 0.12 ear then 80
  else 100.

Definition reset_state (self : state) : state :=
  mk (mk_eye (left_eye_points (tracker self)) (right_eye_points (tracker self))
             [] 0.3)
     (ear_threshold self) (consecutive_frames self) 0 0 (stable_threshold self).

Definition get_eye_status (self : state) : string :=
  let ear := last_ear self in
  let drowsiness := get_drowsiness_level self None in
  if (80 <=? drowsiness)%nat then "Eyes Closed"
  else if (60 <=? drowsiness)%nat then "Very Drowsy"
  else if (40 <=? drowsiness)%nat then "Moderately Drowsy"
  else if (20 <=? drowsiness)%nat then "Slightly Drowsy"
  else if Qleb 0.35 ear then "Wide Awake"
  else "Normal".

(** [is_reliable_measurement]; [None] is the default argument. *)
Definition is_reliable_measurement (self : state)
           (head_pose_data : option (list (string * Q))) : bool :=
  match head_pose_data with
  | None => true
  | Some data =>
    let pitch := Qabs (pose_get data "pitch") in
    let yaw := Qabs (pose_get data "yaw") in
    if Qltb 30 pitch || Qltb 35 yaw then false else true
  end.

Section Readouts.

(** [float_mean xs] stands for [sum(xs) / len(xs)] as Python computes it on
    a list of floats that is not empty.  The sum is rounded at every
    addition, so the quotient is not the exact mean and need not lie
    between the least and the largest value ([0.1, 0.1, 0.1] gives
    0.10000000000000002); nothing is assumed of it. *)
Variable float_mean : list Q -> Q.

Definition get_average_ear (self : state) : Q :=
  match ear_history (tracker self) with
  | [] => 0.0
  | _ :: _ => float_mean (ear_history (tracker self))
  end.

(** The dictionary of [get_eye_statistics]; [min_ear] and [max_ear] are
    [None] when the keys are absent. *)
Record eye_statistics := mk_statistics {
  average_ear : Q;
  current_ear : Q;
  drowsiness_level : nat;
  measurements_count : nat;
  min_ear : option Q;
  max_ear : option Q
}.

Definition get_eye_statistics (self : state) : eye_statistics :=
  match ear_history (tracker self) with
  | [] => mk_statistics 0.0 (last_ear self) 0 0 None None
  | x :: rest =>
    mk_statistics (get_average_ear self) (last_ear self)
                  (get_drowsiness_level self None)
                  (List.length (ear_history (tracker self)))
                  (Some (Qlist_min x rest)) (Some (Qlist_max x rest))
  end.

End Readouts.

Section Calls.

Variable norm : point -> point -> Q.

(** [calculate_ear] on the whole object. *)
Definition calculate_ear (self : state) (landmarks : list point)
           (head_pose_data : option (list (string * Q))) : state * Q :=
  let '(tracker', ear) :=
    calculate_ear norm (tracker self) landmarks head_pose_data in
  (mk tracker' (ear_threshold self) (consecutive_frames self)
      (drowsy_frame_count self) (stable_drowsy_count self)
      (stable_threshold self), ear).

Inductive call :=
| CalculateEar (landmarks : list point)
               (head_pose_data : option (list (string * Q)))
| IsDrowsy (ear : option Q) (head_turned_away : bool)
| ResetState.

Definition step (self : state) (c : call) : state :=
  match c with
  | CalculateEar landmarks head_pose_data =>
    fst (calculate_ear self landmarks head_pose_data)
  | IsDrowsy ear head_turned_away => fst (is_drowsy self ear head_turned_away)
  | ResetState => reset_state self
  end.

Definition calls (self : state) (cs : list call) : state :=
  fold_left step cs self.

End Calls.

(** [is_drowsy] on successive EAR values, head not turned: the tracker at
    the end and the answers in order. *)
Fixpoint is_drowsy_run (self : state) (ears : list Q) : state * list bool :=
  match ears with
  | [] => (self, [])
  | ear :: rest =>
    let '(self1, answer) := is_drowsy self (Some ear) false in
    let '(self2, answers) := is_drowsy_run self1 rest in
    (self2, answer :: answers)
  end.

(** What holds of the tracker between any two calls: the parameters are
    those of [__init__], the two counters agree, the window holds at most 8
    values and [last_ear] is its mean unless it is empty. *)
Definition steady (self : state) : Prop :=
  ear_threshold self = 0.22 /\
  consecutive_frames self = 4%nat /\
  stable_threshold self = 3%nat /\
  drowsy_frame_count self = stable_drowsy_count self /\
  (List.length (ear_history (tracker self)) <= 8)%nat /\
  (ear_history (tracker self) <> [] ->
   last_ear self = mean (ear_history (tracker self))).

End Eye.

(** *** The yawn test of utils/yawn_detection.py *)

Module Yawn.

(** An entry of [yawn_events]. *)
Record event := mk_event {
  start_frame : nat;
  max_mar : Q;
  duration : nat
}.

(** [YawnDetector] with the fields of its yawn test; [detector] holds the
    fields the extractor uses. *)
Record state := mk {
  detector : YawnDetector;
  mar_threshold : Q;
  yawn_consecutive_frames : nat;
  max_yawn_duration : nat;
  yawn_frame_count : nat;
  is_yawning : bool;
  yawn_start_time : option nat;
  yawn_events : list event;
  stable_yawn_count : nat;
  stable_threshold : nat
}.

Definition init : state := mk yawn_init 0.65 4 45 0 false None [] 0 3.

Definition last_mar (self : state) : Q := yawn_last_mar (detector self).

(** [if mar is None: mar = self.last_mar] *)
Definition or_last (self : state) (mar : option Q) : Q :=
  match mar with
  | Some x => x
  | None => last_mar self
  end.

(** [if self.yawn_events: self.yawn_events[-1]['duration'] = duration] *)
Definition set_last_duration (events : list event) (d : nat) : list event :=
  match events with
  | [] => []
  | first :: _ =>
    let e := last events first in
    (removelast events ++ [mk_event (start_frame e) (max_mar e) d])%list
  end.

(** The state with its four changing fields of the yawn test replaced. *)
Definition with_test (self : state) (count : nat) (yawning : bool)
           (start : option nat) (events : list event) (stable : nat) : state :=
  mk (detector self) (mar_threshold self) (yawn_consecutive_frames self)
     (max_yawn_duration self) count yawning start events stable
     (stable_threshold self).

Definition detect_yawn (self : state) (mar : option Q) (head_turned_away : bool)
  : state * bool :=
  let mar := or_last self mar in
  if head_turned_away then
    (with_test self 0 (if is_yawning self then false else is_yawning self)
               (yawn_start_time self) (yawn_events self)
               (stable_yawn_count self),
     false)
  else
    let self1 :=
      if Qltb (mar_threshold self) mar then
        let count := (yawn_frame_count self + 1)%nat in
        let stable := (stable_yawn_count self + 1)%nat in
        if (yawn_consecutive_frames self <=? count)%nat
           && (stable_threshold self <=? stable)%nat
           && negb (is_yawning self)
        then
          let frame := List.length (mar_history (detector self)) in
          with_test self count true (Some frame)
                    (yawn_events self ++ [mk_event frame mar 0]) stable
        else
          with_test self count (is_yawning self) (yawn_start_time self)
                    (yawn_events self) stable
      else
        if is_yawning self && (0 <? yawn_frame_count self)%nat then
          with_test self 0 false (yawn_start_time self)
                    (set_last_duration (yawn_events self) (yawn_frame_count self))
                    0
        else
          with_test self 0 (is_yawning self) (yawn_start_time self)
                    (yawn_events self) 0 in
    let self2 :=
      if (max_yawn_duration self1 <? yawn_frame_count self1)%nat then
        with_test self1 0 false (yawn_start_time self1) (yawn_events self1) 0
      else self1 in
    (self2, is_yawning self2).

Definition get_yawn_intensity (self : state) (mar : option Q) : nat :=
  let mar := or_last self mar in
  if Qleb mar 0.25 then 0
  else if Qleb mar 0.4 then 20
  else if Qleb mar 0.55 then 40
  else if Qleb mar 0.7 then 60
  else if Qleb mar 0.9 then 80
  else 100.

Definition get_average_mar (self : state) : Q :=
  match mar_history (detector self) with
  | [] => 0.0
  | _ :: _ => mean (mar_history (detector self))
  end.

Definition is_mouth_open (self : state) (mar : option Q) : bool :=
  Qltb 0.4 (or_last self mar).

Definition get_mouth_status (self : state) : string :=
  let mar := last_mar self in
  if is_yawning self then
    let intensity := get_yawn_intensity self None in
    if (80 <=? intensity)%nat then "Strong Yawn"
    else if (60 <=? intensity)%nat then "Moderate Yawn"
    else "Mild Yawn"
  else if Qltb 0.5 mar then "Wide Open"
  else if Qltb 0.35 mar then "Open"
  else if Qltb 0.25 mar then "Slightly Open"
  else "Closed".

Definition reset_state (self : state) : state :=
  mk (mk_yawn (mouth_points (detector self)) [] 0.0)
     (mar_threshold self) (yawn_consecutive_frames self)
     (max_yawn_duration self) 0 false None [] 0 (stable_threshold self).

(** [is_false_positive_likely]; [None] is the default argument. *)
Definition is_false_positive_likely (self : state)
           (head_pose_data : option (list (string * Q))) : bool :=
  match head_pose_data with
  | None => false
  | Some data =>
    let pitch := Qabs (pose_get data "pitch") in
    let yaw := Qabs (pose_get data "yaw") in
    if Qltb 25 pitch || Qltb 30 yaw then true else false
  end.

(** The dictionary of [get_yawn_statistics]; [recent_yawns] is [None] when
    the key is absent.  Durations and intensities are integers, their
    averages are quotients. *)
Record yawn_statistics := mk_statistics {
  total_yawns : nat;
  average_duration : Q;
  highest_mar : Q;                    (* the entry 'max_mar' *)
  average_intensity : Q;
  recent_yawns : option (list event)
}.

Definition of_nat (n : nat) : Q := inject_Z (Z.of_nat n).

Definition get_yawn_statistics (self : state) : yawn_statistics :=
  match yawn_events self with
  | [] => mk_statistics 0 0 0 0 None
  | first :: others =>
    let total_yawns := List.length (yawn_events self) in
    let durations :=
      filter (fun d => (0 <? d)%nat) (map duration (yawn_events self)) in
    let avg_duration :=
      match durations with
      | [] => 0
      | _ :: _ => mean (map of_nat durations)
      end in
    let max_mar := Qlist_max (max_mar first) (map max_mar others) in
    let avg_intensity :=
      mean (map (fun e => of_nat (get_yawn_intensity self (Some (Yawn.max_mar e))))
                (yawn_events self)) in
    mk_statistics total_yawns avg_duration max_mar avg_intensity
                  (Some (last_n 5 (yawn_events self)))
  end.

Section Calls.

Variable norm : point -> point -> Q.

(** [calculate_mar] on the whole object. *)
Definition calculate_mar (self : state) (landmarks : list point)
  : state * Q :=
  let '(detector', mar) := calculate_mar norm (detector self) landmarks in
  (mk detector' (mar_threshold self) (yawn_consecutive_frames self)
      (max_yawn_duration self) (yawn_frame_count self) (is_yawning self)
      (yawn_start_time self) (yawn_events self) (stable_yawn_count self)
      (stable_threshold self), mar).

Inductive call :=
| CalculateMar (landmarks : list point)
| DetectYawn (mar : option Q) (head_turned_away : bool)
| ResetState.

Definition step (self : state) (c : call) : state :=
  match c with
  | CalculateMar landmarks => fst (calculate_mar self landmarks)
  | DetectYawn mar head_turned_away => fst (detect_yawn self mar head_turned_away)
  | ResetState => reset_state self
  end.

Definition calls (self : state) (cs : list call) : state :=
  fold_left step cs self.

End Calls.

(** [detect_yawn] on successive MAR values, head not turned: the detector
    at the end and the answers in order. *)
Fixpoint detect_yawn_run (self : state) (mars : list Q) : state * list bool :=
  match mars with
  | [] => (self, [])
  | mar :: rest =>
    let '(self1, answer) := detect_yawn self (Some mar) false in
    let '(self2, answers) := detect_yawn_run self1 rest in
    (self2, answer :: answers)
  end.

(** What an entry of [yawn_events] satisfies: it was confirmed by a MAR
    above the threshold, and its duration is still 0 or the length of a
    yawn. *)
Definition recorded (e : event) : Prop :=
  0.65 < max_mar e /\ (duration e = 0 \/ 4 <= duration e <= 45)%nat.

(** What holds of the detector between any two calls: the parameters are
    those of [__init__], a yawn is on exactly from a frame count of 4, the
    frame count is at most 45 and at most the stability count, and every
    event is [recorded]. *)
Definition steady (self : state) : Prop :=
  mar_threshold self = 0.65 /\
  yawn_consecutive_frames self = 4%nat /\
  max_yawn_duration self = 45%nat /\
  stable_threshold self = 3%nat /\
  is_yawning self = (4 <=? yawn_frame_count self)%nat /\
  (yawn_frame_count self <= 45)%nat /\
  (yawn_frame_count self <= stable_yawn_count self)%nat /\
  Forall recorded (yawn_events self).

End Yawn.

(** *** Concrete pictures *)

(** A stand-in for [np.linalg.norm] on pixel positions: the Euclidean
    distance rounded down to a thousandth of a pixel, exact when the
    distance is a whole number of thousandths. *)
Definition pixel_norm (a b : point) : Q :=
  let dx := (fst a - fst b)%Z in
  let dy := (snd a - snd b)%Z in
  Z.sqrt (1000000 * (dx * dx + dy * dy)) # 1000.

(** [n] landmarks, at [default] except where [placed] says otherwise. *)
Fixpoint lookup_point (placed : list (nat * point)) (default : point) (i : nat)
  : point :=
  match placed with
  | [] => default
  | (j, p) :: rest => if (i =? j)%nat then p else lookup_point rest default i
  end.

Definition place (placed : list (nat * point)) (default : point) (n : nat)
  : list point :=
  map (lookup_point placed default) (seq 0 n).

(** A face mesh of 468 landmarks.  Both eyes are 40 pixels wide and opened
    [2 * a] pixels, so that their ratio is [a / 20]; the mouth is 80 pixels
    wide and opened [2 * b] pixels, so that its ratio is [b / 40]. *)
Definition face (a b : Z) : list point :=
  place [ (33%nat, (100, 200)); (133%nat, (140, 200));
          (160%nat, (110, 200 - a)); (144%nat, (110, 200 + a));
          (158%nat, (130, 200 - a)); (153%nat, (130, 200 + a));
          (362%nat, (260, 200)); (263%nat, (300, 200));
          (385%nat, (270, 200 - a)); (380%nat, (270, 200 + a));
          (387%nat, (290, 200 - a)); (373%nat, (290, 200 + a));
          (78%nat, (160, 300)); (308%nat, (240, 300));
          (13%nat, (200, 300 - b)); (18%nat, (200, 300 + b));
          (14%nat, (200, 300 - b)); (175%nat, (200, 300 + b)) ]%Z
        (200, 250)%Z 468.

(** ** utils/multiple_faces.py *)

Module MultipleFaces.

Definition check_multiple_faces (im : FacePresence.image) : option string :=
  match im with
  | FacePresence.NoImage => None
  | FacePresence.Picture num_faces =>
    if (1 <? num_faces)%nat then Some "Multiple Persons Detected" else None
  end.

End MultipleFaces.

(** ** master_controller_gui.py *)

Module Monitor.

(** The fields of [AttentivenessMonitor] that the frame pipeline reads or
    writes.  [spoken] lists the statuses passed to
    [ai_feedback.speak_status], in call order; [cap] is [None] or the
    capture object with its [isOpened()].  Widgets and drawing are left
    out. *)
Record AttentivenessMonitor := mk {
  activity_logger : Logger.ActivityLogger;
  spoken : list string;
  eye_tracker : EyeTracker;
  yawn_detector : YawnDetector;
  face_presence_detector : FacePresence.FacePresenceDetector;
  emergency_wakeup : Emergency.EmergencyWakeup;
  cap : option bool;
  detection_active : bool;
  current_status : string;
  last_active_time : Q;
  inactive_start_time : option Q;
  emergency_triggered : bool;
  inactivity_threshold : Q;
  previous_status : string;
  last_ear : Q;
  last_mar : Q;
  drowsy_counter : nat;
  yawn_counter : nat;
  drowsy_threshold : nat;
  yawn_threshold : nat
}.

Definition set_activity_logger (v : Logger.ActivityLogger) (m : AttentivenessMonitor)
  : AttentivenessMonitor :=
  mk v (spoken m) (eye_tracker m) (yawn_detector m)
     (face_presence_detector m) (emergency_wakeup m) (cap m)
     (detection_active m) (current_status m) (last_active_time m)
     (inactive_start_time m) (emergency_triggered m)
     (inactivity_threshold m) (previous_status m) (last_ear m) (last_mar m)
     (drowsy_counter m) (yawn_counter m) (drowsy_threshold m)
     (yawn_threshold m).

Definition set_spoken (v : list string) (m : AttentivenessMonitor)
  : AttentivenessMonitor :=
  mk (activity_logger m) v (eye_tracker m) (yawn_detector m)
     (face_presence_detector m) (emergency_wakeup m) (cap m)
     (detection_active m) (current_status m) (last_active_time m)
     (inactive_start_time m) (emergency_triggered m)
     (inactivity_threshold m) (previous_status m) (last_ear m) (last_mar m)
     (drowsy_counter m) (yawn_counter m) (drowsy_threshold m)
     (yawn_threshold m).

Definition set_eye_tracker (v : EyeTracker) (m : AttentivenessMonitor)
  : AttentivenessMonitor :=
  mk (activity_logger m) (spoken m) v (yawn_detector m)
     (face_presence_detector m) (emergency_wakeup m) (cap m)
     (detection_active m) (current_status m) (last_active_time m)
     (inactive_start_time m) (emergency_triggered m)
     (inactivity_threshold m) (previous_status m) (last_ear m) (last_mar m)
     (drowsy_counter m) (yawn_counter m) (drowsy_threshold m)
     (yawn_threshold m).

Definition set_yawn_detector (v : YawnDetector) (m : AttentivenessMonitor)
  : AttentivenessMonitor :=
  mk (activity_logger m) (spoken m) (eye_tracker m) v
     (face_presence_detector m) (emergency_wakeup m) (cap m)
     (detection_active m) (current_status m) (last_active_time m)
     (inactive_start_time m) (emergency_triggered m)
     (inactivity_threshold m) (previous_status m) (last_ear m) (last_mar m)
     (drowsy_counter m) (yawn_counter m) (drowsy_threshold m)
     (yawn_threshold m).

Definition set_face_presence_detector (v : FacePresence.FacePresenceDetector) (m : AttentivenessMonitor)
  : AttentivenessMonitor :=
  mk (activity_logger m) (spoken m) (eye_tracker m) (yawn_detector m) v
     (emergency_wakeup m) (cap m) (detection_active m)
     (current_status m) (last_active_time m) (inactive_start_time m)
     (emergency_triggered m) (inactivity_threshold m) (previous_status m)
     (last_ear m) (last_mar m) (drowsy_counter m) (yawn_counter m)
     (drowsy_threshold m) (yawn_threshold m).

Definition set_emergency_wakeup (v : Emergency.EmergencyWakeup) (m : AttentivenessMonitor)
  : AttentivenessMonitor :=
  mk (activity_logger m) (spoken m) (eye_tracker m) (yawn_detector m)
     (face_presence_detector m) v (cap m) (detection_active m)
     (current_status m) (last_active_time m) (inactive_start_time m)
     (emergency_triggered m) (inactivity_threshold m) (previous_status m)
     (last_ear m) (last_mar m) (drowsy_counter m) (yawn_counter m)
     (drowsy_threshold m) (yawn_threshold m).

Definition set_cap (v : option bool) (m : AttentivenessMonitor)
  : AttentivenessMonitor :=
  mk (activity_logger m) (spoken m) (eye_tracker m) (yawn_detector m)
     (face_presence_detector m) (emergency_wakeup m) v (detection_active m)
     (current_status m) (last_active_time m) (inactive_start_time m)
     (emergency_triggered m) (inactivity_threshold m) (previous_status m)
     (last_ear m) (last_mar m) (drowsy_counter m) (yawn_counter m)
     (drowsy_threshold m) (yawn_threshold m).

Definition set_detection_active (v : bool) (m : AttentivenessMonitor)
  : AttentivenessMonitor :=
  mk (activity_logger m) (spoken m) (eye_tracker m) (yawn_detector m)
     (face_presence_detector m) (emergency_wakeup m) (cap m) v
     (current_status m) (last_active_time m) (inactive_start_time m)
     (emergency_triggered m) (inactivity_threshold m) (previous_status m)
     (last_ear m) (last_mar m) (drowsy_counter m) (yawn_counter m)
     (drowsy_threshold m) (yawn_threshold m).

Definition set_current_status (v : string) (m : AttentivenessMonitor)
  : AttentivenessMonitor :=
  mk (activity_logger m) (spoken m) (eye_tracker m) (yawn_detector m)
     (face_presence_detector m) (emergency_wakeup m) (cap m)
     (detection_active m) v (last_active_time m) (inactive_start_time m)
     (emergency_triggered m) (inactivity_threshold m) (previous_status m)
     (last_ear m) (last_mar m) (drowsy_counter m) (yawn_counter m)
     (drowsy_threshold m) (yawn_threshold m).

Definition set_last_active_time (v : Q) (m : AttentivenessMonitor)
  : AttentivenessMonitor :=
  mk (activity_logger m) (spoken m) (eye_tracker m) (yawn_detector m)
     (face_presence_detector m) (emergency_wakeup m) (cap m)
     (detection_active m) (current_status m) v (inactive_start_time m)
     (emergency_triggered m) (inactivity_threshold m) (previous_status m)
     (last_ear m) (last_mar m) (drowsy_counter m) (yawn_counter m)
     (drowsy_threshold m) (yawn_threshold m).

Definition set_inactive_start_time (v : option Q) (m : AttentivenessMonitor)
  : AttentivenessMonitor :=
  mk (activity_logger m) (spoken m) (eye_tracker m) (yawn_detector m)
     (face_presence_detector m) (emergency_wakeup m) (cap m)
     (detection_active m) (current_status m) (last_active_time m) v
     (emergency_triggered m) (inactivity_threshold m) (previous_status m)
     (last_ear m) (last_mar m) (drowsy_counter m) (yawn_counter m)
     (drowsy_threshold m) (yawn_threshold m).

Definition set_emergency_triggered (v : bool) (m : AttentivenessMonitor)
  : AttentivenessMonitor :=
  mk (activity_logger m) (spoken m) (eye_tracker m) (yawn_detector m)
     (face_presence_detector m) (emergency_wakeup m) (cap m)
     (detection_active m) (current_status m) (last_active_time m)
     (inactive_start_time m) v (inactivity_threshold m) (previous_status m)
     (last_ear m) (last_mar m) (drowsy_counter m) (yawn_counter m)
     (drowsy_threshold m) (yawn_threshold m).

Definition set_previous_status (v : string) (m : AttentivenessMonitor)
  : AttentivenessMonitor :=
  mk (activity_logger m) (spoken m) (eye_tracker m) (yawn_detector m)
     (face_presence_detector m) (emergency_wakeup m) (cap m)
     (detection_active m) (current_status m) (last_active_time m)
     (inactive_start_time m) (emergency_triggered m)
     (inactivity_threshold m) v (last_ear m) (last_mar m) (drowsy_counter m)
     (yawn_counter m) (drowsy_threshold m) (yawn_threshold m).

Definition set_last_ear (v : Q) (m : AttentivenessMonitor)
  : AttentivenessMonitor :=
  mk (activity_logger m) (spoken m) (eye_tracker m) (yawn_detector m)
     (face_presence_detector m) (emergency_wakeup m) (cap m)
     (detection_active m) (current_status m) (last_active_time m)
     (inactive_start_time m) (emergency_triggered m)
     (inactivity_threshold m) (previous_status m) v (last_mar m)
     (drowsy_counter m) (yawn_counter m) (drowsy_threshold m)
     (yawn_threshold m).

Definition set_last_mar (v : Q) (m : AttentivenessMonitor)
  : AttentivenessMonitor :=
  mk (activity_logger m) (spoken m) (eye_tracker m) (yawn_detector m)
     (face_presence_detector m) (emergency_wakeup m) (cap m)
     (detection_active m) (current_status m) (last_active_time m)
     (inactive_start_time m) (emergency_triggered m)
     (inactivity_threshold m) (previous_status m) (last_ear m) v
     (drowsy_counter m) (yawn_counter m) (drowsy_threshold m)
     (yawn_threshold m).

Definition set_drowsy_counter (v : nat) (m : AttentivenessMonitor)
  : AttentivenessMonitor :=
  mk (activity_logger m) (spoken m) (eye_tracker m) (yawn_detector m)
     (face_presence_detector m) (emergency_wakeup m) (cap m)
     (detection_active m) (current_status m) (last_active_time m)
     (inactive_start_time m) (emergency_triggered m)
     (inactivity_threshold m) (previous_status m) (last_ear m) (last_mar m)
     v (yawn_counter m) (drowsy_threshold m) (yawn_threshold m).

Definition set_yawn_counter (v : nat) (m : AttentivenessMonitor)
  : AttentivenessMonitor :=
  mk (activity_logger m) (spoken m) (eye_tracker m) (yawn_detector m)
     (face_presence_detector m) (emergency_wakeup m) (cap m)
     (detection_active m) (current_status m) (last_active_time m)
     (inactive_start_time m) (emergency_triggered m)
     (inactivity_threshold m) (previous_status m) (last_ear m) (last_mar m)
     (drowsy_counter m) v (drowsy_threshold m) (yawn_threshold m).

(** [__init__]; [now] is the reading at line 46, [now_presence] the one in
    [FacePresenceDetector.__init__]. *)
Definition init (pygame_ok tts_ok : bool) (now now_presence : Q)
  : AttentivenessMonitor :=
  mk Logger.init [] eye_init yawn_init (FacePresence.default now_presence)
     (Emergency.init pygame_ok tts_ok) None false "Inactive" now None false
     5.0 "Inactive" 0.0 0.0 0 0 5 3.

(** [self.ai_feedback.speak_status(status)] *)
Definition speak (status : string) (m : AttentivenessMonitor)
  : AttentivenessMonitor :=
  set_spoken (spoken m ++ [status]) m.

(** [update_status]; [now] is the reading at line 485. *)
Definition update_status (m : AttentivenessMonitor) (status : string) (now : Q)
  : AttentivenessMonitor :=
  if negb (String.eqb status (current_status m)) then
    let old_status := current_status m in
    let m1 := set_current_status status m in
    let m2 :=
      set_activity_logger
        (Logger.log_status_change (activity_logger m1) old_status status
                                  (last_ear m1) (last_mar m1) now) m1 in
    speak status m2
  else m.

Definition trigger_emergency (m : AttentivenessMonitor) : AttentivenessMonitor :=
  let m1 :=
    set_emergency_wakeup (Emergency.trigger_emergency (emergency_wakeup m)) m in
  let m2 :=
    set_activity_logger
      (Logger.log_event (activity_logger m1) "Emergency"
                        (Logger.InactiveFor (inactivity_threshold m1))
                        0 0.0 0.0 None) m1 in
  speak "Emergency Alert" m2.

(** [reset_inactivity_tracking]; [now] is the reading at line 393. *)
Definition reset_inactivity_tracking (m : AttentivenessMonitor) (now : Q)
  : AttentivenessMonitor :=
  let current_time := now in
  let m1 :=
    match inactive_start_time m with
    | Some start =>
      if negb (String.eqb (current_status m) "Active") then
        let total_inactive_duration := current_time - start in
        speak "User Active Again"
          (set_activity_logger
             (Logger.log_inactive_to_active_transition
                (activity_logger m) total_inactive_duration
                (last_ear m) (last_mar m)) m)
      else m
    | None => m
    end in
  let m2 := set_last_active_time current_time m1 in
  let m3 := set_inactive_start_time None m2 in
  let m4 := set_emergency_triggered false m3 in
  if Emergency.is_emergency_active (emergency_wakeup m4) then
    set_emergency_wakeup (Emergency.stop_emergency (emergency_wakeup m4)) m4
  else m4.

(** [handle_inactivity_tracking]; [now_reset] is the reading taken by
    [reset_inactivity_tracking] when the status is Active. *)
Definition handle_inactivity_tracking (m : AttentivenessMonitor)
           (status : string) (current_time now_reset : Q)
  : AttentivenessMonitor :=
  if negb (String.eqb status "Active") then
    let m1 :=
      match inactive_start_time m with
      | None => set_inactive_start_time (Some current_time) m
      | Some _ => m
      end in
    let inactive_duration :=
      match inactive_start_time m1 with
      | Some start => current_time - start
      | None => 0
      end in
    if Qleb (inactivity_threshold m1) inactive_duration
       && negb (emergency_triggered m1) then
      let m2 := trigger_emergency m1 in
      let m3 := set_emergency_triggered true m2 in
      speak "User Inactive Too Long" m3
    else m1
  else reset_inactivity_tracking m now_reset.

Definition determine_status_simple (m : AttentivenessMonitor) (ear mar : Q)
  : AttentivenessMonitor * string :=
  let m1 :=
    if Qltb ear 0.22 then
      set_yawn_counter 0 (set_drowsy_counter (drowsy_counter m + 1) m)
    else if Qltb 0.6 mar then
      set_drowsy_counter 0 (set_yawn_counter (yawn_counter m + 1) m)
    else
      set_yawn_counter 0 (set_drowsy_counter 0 m) in
  if (drowsy_threshold m1 <=? drowsy_counter m1)%nat then (m1, "Drowsy")
  else if (yawn_threshold m1 <=? yawn_counter m1)%nat then (m1, "Yawning")
  else (m1, "Active").

(** What one video frame brings: the number of faces the face mesh
    reports, the number of faces MediaPipe's face detection reports on the
    same picture, the pixel landmarks of the first face, and the clock
    readings of the calls made while the frame is processed. *)
Record frame := mk_frame {
  mesh_faces : nat;
  detections : nat;
  landmarks : list point;
  current_time : Q;       (* process_frame, line 291 *)
  now_presence : Q;       (* check_face_presence, line 45 *)
  now_no_face : Q;        (* _handle_no_face, line 63 *)
  now_reset : Q;          (* reset_inactivity_tracking, line 393 *)
  now_update : Q          (* update_status, line 485 *)
}.

(** The number of "Emergency" rows in the log: [trigger_emergency] writes
    one at each call. *)
Definition emergencies (m : AttentivenessMonitor) : nat :=
  List.length
    (filter (fun r => String.eqb (Logger.status r) "Emergency")
            (Logger.rows (activity_logger m))).

(** [min(xs)] and [max(xs)]: [None] when Python raises [ValueError] on an
    empty sequence. *)
Definition py_min (xs : list Z) : option Z :=
  match xs with
  | [] => None
  | x :: rest => Some (fold_left Z.min rest x)
  end.

Definition py_max (xs : list Z) : option Z :=
  match xs with
  | [] => None
  | x :: rest => Some (fold_left Z.max rest x)
  end.

(** [get_face_bounding_box]: [[min x, min y, max x, max y]], or [None] when
    the call raises. *)
Definition get_face_bounding_box (landmarks : list point)
  : option (Z * Z * Z * Z) :=
  let x_coords := map fst landmarks in
  let y_coords := map snd landmarks in
  match py_min x_coords, py_min y_coords, py_max x_coords, py_max y_coords with
  | Some x0, Some y0, Some x1, Some y1 => Some (x0, y0, x1, y1)
  | _, _, _, _ => None
  end.

Section Pipeline.

Variable norm : point -> point -> Q.

(** The single-face path from line 328 on, once the face box is drawn:
    the two extractors, the classifier, the tracker and [update_status]. *)
Definition face_tracking (m : AttentivenessMonitor) (f : frame)
  : AttentivenessMonitor :=
  let '(eye, ear) := calculate_ear norm (eye_tracker m) (landmarks f) None in
  let m1 := set_last_ear ear (set_eye_tracker eye m) in
  let '(yawn, mar) := calculate_mar norm (yawn_detector m1) (landmarks f) in
  let m2 := set_last_mar mar (set_yawn_detector yawn m1) in
  let '(m3, status) := determine_status_simple m2 ear mar in
  let m4 :=
    if String.eqb status "Active" then reset_inactivity_tracking m3 (now_reset f)
    else handle_inactivity_tracking m3 status (current_time f) (now_reset f) in
  update_status m4 status (now_update f).

(** The single-face path, lines 313 to 361.  It begins with
    [get_face_bounding_box(landmarks)] (line 325), which raises on an empty
    landmark list before any field of the monitor is written; [None] is
    that exception. *)
Definition single_face (m : AttentivenessMonitor) (f : frame)
  : option AttentivenessMonitor :=
  match get_face_bounding_box (landmarks f) with
  | None => None
  | Some face_box => Some (face_tracking m f)
  end.

Definition no_face (m : AttentivenessMonitor) (f : frame)
  : option AttentivenessMonitor :=
  match FacePresence.check_face_presence
          (face_presence_detector m) (FacePresence.Picture (detections f))
          (now_presence f) (now_no_face f) with
  | None => None
  | Some (detector, face_presence_status) =>
    let m1 := set_face_presence_detector detector m in
    let m2 :=
      handle_inactivity_tracking m1 face_presence_status (current_time f)
                                 (now_reset f) in
    let m3 :=
      if negb (String.eqb (current_status m2) "Inactive (Face Missing)")
      then speak "Face Not Detected" m2 else m2 in
    Some (update_status m3 face_presence_status (now_update f))
  end.

(** [process_frame]; [None] when a call inside raises. *)
Definition process_frame (m : AttentivenessMonitor) (f : frame)
  : option AttentivenessMonitor :=
  let multiple :=
    if (1 <? mesh_faces f)%nat then
      MultipleFaces.check_multiple_faces (FacePresence.Picture (detections f))
    else None in
  match multiple with
  | Some multiple_faces_status =>
    let m1 := update_status m multiple_faces_status (now_update f) in
    let m2 :=
      handle_inactivity_tracking m1 "Multiple Faces" (current_time f)
                                 (now_reset f) in
    Some (if negb (String.eqb (current_status m2) "Multiple Persons Detected")
          then speak "Multiple Persons Detected" m2 else m2)
  | None =>
    if (mesh_faces f =? 0)%nat then no_face m f
    else single_face m f
  end.

(** What a frame does around its call of [handle_inactivity_tracking]:
    [m_in] is the monitor at the call, [status] the status it is given and
    [m'] the monitor when [process_frame] returns. *)
Definition frame_shape (m : AttentivenessMonitor) (f : frame)
           (m_in : AttentivenessMonitor) (status : string)
           (m' : AttentivenessMonitor) : Prop :=
  let m_out :=
    handle_inactivity_tracking m_in status (current_time f) (now_reset f) in
  (inactive_start_time m_in = inactive_start_time m /\
   emergency_triggered m_in = emergency_triggered m /\
   emergency_wakeup m_in = emergency_wakeup m /\
   inactivity_threshold m_in = inactivity_threshold m /\
   emergencies m_in = emergencies m) /\
  (inactive_start_time m' = inactive_start_time m_out /\
   emergency_triggered m' = emergency_triggered m_out /\
   emergency_wakeup m' = emergency_wakeup m_out /\
   inactivity_threshold m' = inactivity_threshold m_out /\
   emergencies m' = emergencies m_out /\
   last_ear m' = last_ear m_in /\
   last_mar m' = last_mar m_in) /\
  (exists more,
      Logger.rows (activity_logger m')
      = (Logger.rows (activity_logger m_out) ++ more)%list) /\
  (exists more, spoken m' = (spoken m_out ++ more)%list) /\
  String.eqb (current_status m') "Active" = String.eqb status "Active" /\
  (String.eqb status "Active" = true ->
   current_status m_in = current_status m /\
   activity_logger m_in = activity_logger m /\
   spoken m_in = spoken m /\
   ((mesh_faces f = 0%nat /\
     last_ear m_in = last_ear m /\ last_mar m_in = last_mar m) \/
    (mesh_faces f <> 0%nat /\
     last_ear m_in = snd (calculate_ear norm (eye_tracker m) (landmarks f) None) /\
     last_mar m_in = snd (calculate_mar norm (yawn_detector m) (landmarks f))))).

(** [process_frame] on successive frames. *)
Fixpoint run (m : AttentivenessMonitor) (frames : list frame)
  : option AttentivenessMonitor :=
  match frames with
  | [] => Some m
  | f :: rest =>
    match process_frame m f with
    | Some m' => run m' rest
    | None => None
    end
  end.

(** Whether every one of the successive frames ends with a status other
    than "Active". *)
Fixpoint inactive_run (m : AttentivenessMonitor) (frames : list frame) : bool :=
  match frames with
  | [] => true
  | f :: rest =>
    match process_frame m f with
    | Some m' =>
      negb (String.eqb (current_status m') "Active") && inactive_run m' rest
    | None => false
    end
  end.

End Pipeline.

(** [self.cap and self.cap.isOpened()] *)
Definition camera_open (m : AttentivenessMonitor) : bool :=
  match cap m with
  | Some opened => opened
  | None => false
  end.

(** [open_camera]; [camera_ok] tells whether [cv2.VideoCapture(0)] opens. *)
Definition open_camera (m : AttentivenessMonitor) (camera_ok : bool)
  : AttentivenessMonitor :=
  let m1 := set_cap (Some camera_ok) m in
  if camera_ok then speak "Camera Opened" m1 else m1.

Definition close_camera (m : AttentivenessMonitor) : AttentivenessMonitor :=
  match cap m with
  | Some _ => speak "Camera Closed" (set_cap (Some false) m)
  | None => m
  end.

(** [start_detection]; [camera_ok] tells whether [cv2.VideoCapture(0)]
    opens, [now] is the reading at line 218 and [now_presence] the one in
    [FacePresenceDetector.reset]. *)
Definition start_detection (m : AttentivenessMonitor) (camera_ok : bool)
           (now now_presence : Q) : AttentivenessMonitor :=
  let opened :=
    if camera_open m then Some m
    else
      let m0 := set_cap (Some camera_ok) m in
      if camera_ok then
        Some (speak "Detection Started" (speak "Camera Opened" m0))
      else None in
  match opened with
  | None => set_cap (Some camera_ok) m
  | Some m1 =>
    let m2 := set_detection_active true m1 in
    let m3 := set_last_active_time now m2 in
    let m4 := set_inactive_start_time None m3 in
    let m5 := set_emergency_triggered false m4 in
    let m6 := set_previous_status "Inactive" m5 in
    let m7 := set_yawn_counter 0 (set_drowsy_counter 0 m6) in
    let m8 :=
      set_face_presence_detector
        (FacePresence.reset (face_presence_detector m7) now_presence) m7 in
    let m9 :=
      set_activity_logger
        (Logger.log_detection_session
           (Logger.reset_inactive_tracking (activity_logger m8)) "started") m8 in
    speak "Detection Started" m9
  end.

(** [stop_detection]; [now] is the reading inside [update_status]. *)
Definition stop_detection (m : AttentivenessMonitor) (now : Q)
  : AttentivenessMonitor :=
  let m1 := set_detection_active false m in
  let m2 :=
    set_activity_logger
      (Logger.log_detection_session (activity_logger m1) "stopped") m1 in
  let m3 := speak "Detection Stopped" m2 in
  let m4 :=
    set_emergency_wakeup (Emergency.stop_emergency (emergency_wakeup m3)) m3 in
  let m5 := set_emergency_triggered false m4 in
  update_status m5 "Inactive" now.

(** The states the monitor can be in: the buttons may be pressed in any
    order, and the timer slot [update_frame] passes a frame to
    [process_frame] while the camera is open and detection is active. *)
Inductive reachable (norm : point -> point -> Q) : AttentivenessMonitor -> Prop :=
| reach_init pygame_ok tts_ok now now_presence :
    reachable norm (init pygame_ok tts_ok now now_presence)
| reach_open m camera_ok :
    reachable norm m -> reachable norm (open_camera m camera_ok)
| reach_close m :
    reachable norm m -> reachable norm (close_camera m)
| reach_start m camera_ok now now_presence :
    reachable norm m ->
    reachable norm (start_detection m camera_ok now now_presence)
| reach_stop m now :
    reachable norm m -> reachable norm (stop_detection m now)
| reach_frame m f m' :
    reachable norm m ->
    camera_open m = true ->
    detection_active m = true ->
    process_frame norm m f = Some m' ->
    reachable norm m'.

(** [determine_status_simple] on successive frames, given the (EAR, MAR)
    pair of each; the statuses it returns, in order. *)
Fixpoint classify (m : AttentivenessMonitor) (samples : list (Q * Q))
  : list string :=
  match samples with
  | [] => []
  | (ear, mar) :: rest =>
    let '(m1, status) := determine_status_simple m ear mar in
    status :: classify m1 rest
  end.

(** [handle_inactivity_tracking] on successive frames, given the status,
    [current_time] and [now_reset] of each. *)
Fixpoint track (m : AttentivenessMonitor) (calls : list (string * Q * Q))
  : AttentivenessMonitor :=
  match calls with
  | [] => m
  | (status, current_time, now_reset) :: rest =>
    track (handle_inactivity_tracking m status current_time now_reset) rest
  end.

(** The texts the monitor passes to [ai_feedback.speak_status] from
    [__init__] until the application is closed: the literals of
    [open_camera], [close_camera], [start_detection], [stop_detection],
    [trigger_emergency], [handle_inactivity_tracking],
    [reset_inactivity_tracking] and [process_frame], and the statuses
    [update_status] is called with. *)
Definition announcements : list string :=
  ["Camera Opened"; "Camera Closed"; "Detection Started"; "Detection Stopped";
   "Emergency Alert"; "User Inactive Too Long"; "User Active Again";
   "Face Not Detected"; "Multiple Persons Detected";
   "Active"; "Drowsy"; "Yawning"; "Inactive (Face Missing)"; "Not Awake";
   "Inactive"].

Definition announced (m : AttentivenessMonitor) : Prop :=
  Forall (fun text => In text announcements) (spoken m).

End Monitor.

(** *** Sample sessions *)

(** A monitor whose detection has just been started with a working camera. *)
Definition started : Monitor.AttentivenessMonitor :=
  Monitor.start_detection (Monitor.init true true 0 0) true 1 1.

(** A frame read at time [t] (every clock reading of the frame is [t]) with
    [faces] faces, all of them seen by the face mesh and by the face
    detection, the first one being [face a b]. *)
Definition sample_frame (faces : nat) (a b : Z) (t : Q) : Monitor.frame :=
  Monitor.mk_frame faces faces (face a b) t t t t t.

(** The monitor after the frames, or where it was when a frame raised. *)
Definition after_frames (m : Monitor.AttentivenessMonitor)
           (frames : list Monitor.frame) : Monitor.AttentivenessMonitor :=
  fold_left
    (fun m f =>
       match Monitor.process_frame pixel_norm m f with
       | Some m' => m'
       | None => m
       end) frames m.

(** * Properties *)

(** [case_branches] splits the goal along every [if] and every match on an
    option it contains. *)
Ltac case_branches :=
  repeat match goal with
         | |- context [if ?c then _ else _] => destruct c
         | |- context [match ?c with Some _ => _ | None => _ end] => destruct c
         end.

(** ** Float comparisons *)

Lemma Qleb_true (x y : Q) : Qleb x y = true <-> x <= y.
Proof. apply Qle_bool_iff. Qed.

Lemma Qleb_false (x y : Q) : Qleb x y = false <-> y < x.
Proof.
  unfold Qleb. split; intro H.
  - apply Qnot_le_lt. intro Hle. apply Qle_bool_iff in Hle. congruence.
  - destruct (Qle_bool x y) eqn:E; [|reflexivity].
    apply Qle_bool_iff in E. exfalso. exact (Qlt_not_le _ _ H E).
Qed.

Lemma Qltb_true (x y : Q) : Qltb x y = true <-> x < y.
Proof.
  unfold Qltb. rewrite negb_true_iff. apply (Qleb_false y x).
Qed.

Lemma Qltb_false (x y : Q) : Qltb x y = false <-> y <= x.
Proof.
  unfold Qltb. rewrite negb_false_iff. apply (Qleb_true y x).
Qed.

(** [reflect_comparisons] turns the boolean comparisons among the hypotheses
    into inequalities. *)
Ltac reflect_comparisons :=
  repeat match goal with
         | E : Qleb _ _ = true |- _ => apply Qleb_true in E
         | E : Qleb _ _ = false |- _ => apply Qleb_false in E
         | E : Qltb _ _ = true |- _ => apply Qltb_true in E
         | E : Qltb _ _ = false |- _ => apply Qltb_false in E
         end.

(** ** The presence classifier *)

Section PresenceFacts.

Import FacePresence.

Lemma handle_no_face_running self t0 now :
  face_lost_time self = Some t0 ->
  _handle_no_face self now =
  (self, absence_code (short_absence_threshold self)
                      (long_absence_threshold self) (now - t0)).
Proof.
  intro H. unfold _handle_no_face, absence_code. rewrite H. cbn. rewrite H.
  destruct (Qleb (long_absence_threshold self) (now - t0)); [reflexivity|].
  destruct (Qleb (short_absence_threshold self) (now - t0)); reflexivity.
Qed.

Lemma handle_no_face_first self now :
  face_lost_time self = None ->
  _handle_no_face self now =
  (mk (short_absence_threshold self) (long_absence_threshold self) (Some now)
      (last_face_detected_time self),
   absence_code (short_absence_threshold self)
                (long_absence_threshold self) (now - now)).
Proof.
  intro H. unfold _handle_no_face, absence_code. rewrite H. cbn.
  destruct (Qleb (long_absence_threshold self) (now - now)); [reflexivity|].
  destruct (Qleb (short_absence_threshold self) (now - now)); reflexivity.
Qed.

Lemma absence_code_status short long elapsed :
  short <= long ->
  absence_status short long elapsed (absence_code short long elapsed).
Proof.
  intro Hsl. unfold absence_status, absence_code.
  destruct (Qleb long elapsed) eqn:El.
  - apply Qleb_true in El. repeat split; intros; try reflexivity; exfalso; lra.
  - apply Qleb_false in El. destruct (Qleb short elapsed) eqn:Es.
    + apply Qleb_true in Es. repeat split; intros; try reflexivity; exfalso; lra.
    + apply Qleb_false in Es. repeat split; intros; try reflexivity; exfalso; lra.
Qed.

Lemma absence_code_rank short long e1 e2 :
  e1 <= e2 ->
  (rank (absence_code short long e1) <= rank (absence_code short long e2))%nat.
Proof.
  intro H. unfold absence_code.
  destruct (Qleb long e1) eqn:L1; destruct (Qleb long e2) eqn:L2;
    destruct (Qleb short e1) eqn:S1; destruct (Qleb short e2) eqn:S2;
    cbn; try lia; exfalso;
    reflect_comparisons; lra.
Qed.

(** Once the timer runs, a feed of absent frames leaves it alone and
    classifies every frame by its own reading. *)
Lemma absent_feed_running readings : forall self t0,
  face_lost_time self = Some t0 ->
  feed self (absent_feed readings) =
  Some (map (fun r => absence_code (short_absence_threshold self)
                                   (long_absence_threshold self) (snd r - t0))
            readings, self).
Proof.
  induction readings as [|[now h] rest IH]; intros self t0 H; [reflexivity|].
  cbn [absent_feed map feed fst snd check_face_presence cvtColor Nat.ltb Nat.leb].
  rewrite (handle_no_face_running self t0 h H).
  fold (absent_feed rest). rewrite (IH self t0 H). reflexivity.
Qed.

Lemma absent_feed_first now h rest self :
  face_lost_time self = None ->
  feed self (absent_feed ((now, h) :: rest)) =
  Some (map (fun r => absence_code (short_absence_threshold self)
                                   (long_absence_threshold self) (snd r - h))
            ((now, h) :: rest),
        mk (short_absence_threshold self) (long_absence_threshold self)
           (Some h) (last_face_detected_time self)).
Proof.
  intro H.
  cbn [absent_feed map feed fst snd check_face_presence cvtColor Nat.ltb Nat.leb].
  rewrite (handle_no_face_first self h H).
  fold (absent_feed rest).
  rewrite (absent_feed_running rest
             (mk (short_absence_threshold self) (long_absence_threshold self)
                 (Some h) (last_face_detected_time self)) h eq_refl).
  reflexivity.
Qed.

Lemma none_feed_absent_feed readings : forall self,
  feed self (none_feed readings) = feed self (absent_feed readings).
Proof.
  induction readings as [|[now h] rest IH]; intro self; [reflexivity|].
  cbn [none_feed absent_feed map feed fst snd check_face_presence cvtColor
       Nat.ltb Nat.leb].
  destruct (_handle_no_face self h) as [self' status].
  fold (none_feed rest); fold (absent_feed rest). rewrite IH. reflexivity.
Qed.

Lemma ordered_ranks short long t0 (readings : list (Q * Q)) :
  ForallOrdPairs (fun r1 r2 => snd r1 <= snd r2) readings ->
  ForallOrdPairs (fun s1 s2 => (rank s1 <= rank s2)%nat)
    (map (fun r => absence_code short long (snd r - t0)) readings).
Proof.
  induction 1 as [|r rest Hr Hrest IH]; cbn; constructor; [|exact IH].
  rewrite Forall_map. eapply Forall_impl; [|exact Hr].
  intros r' Hle. cbv beta in Hle. apply absence_code_rank.
  unfold Qminus. apply Qplus_le_compat; [exact Hle | apply Qle_refl].
Qed.

Lemma statuses_by_reading short long t0 (readings : list (Q * Q)) :
  short <= long ->
  Forall2 (fun r status => absence_status short long (snd r - t0) status)
    readings (map (fun r => absence_code short long (snd r - t0)) readings).
Proof.
  intro Hsl. induction readings as [|r rest IH]; cbn; constructor; [|exact IH].
  apply absence_code_status. exact Hsl.
Qed.

End PresenceFacts.

(** C3.  While no face is detected, the presence classifier starts the
    absence timer on the first absent frame and keeps it; every frame is
    classified by the time elapsed since then: "Active" below the short
    threshold, "Inactive (Face Missing)" from the short threshold up to the
    long one, "Not Awake" from the long threshold on.  With a clock that does
    not run backwards the statuses never regress.  A frame on which a face is
    detected resets the timer to [None]. *)
Theorem C3_absence_progression :
  forall (self : FacePresence.FacePresenceDetector) (now h : Q)
         (rest : list (Q * Q)),
    FacePresence.face_lost_time self = None ->
    FacePresence.short_absence_threshold self
    <= FacePresence.long_absence_threshold self ->
    ForallOrdPairs (fun r1 r2 => snd r1 <= snd r2) ((now, h) :: rest) ->
    (exists statuses final,
        FacePresence.feed self (FacePresence.absent_feed ((now, h) :: rest))
        = Some (statuses, final) /\
        FacePresence.face_lost_time final = Some h /\
        Forall2 (fun r status =>
                   FacePresence.absence_status
                     (FacePresence.short_absence_threshold self)
                     (FacePresence.long_absence_threshold self)
                     (snd r - h) status)
                ((now, h) :: rest) statuses /\
        ForallOrdPairs
          (fun s1 s2 => (FacePresence.rank s1 <= FacePresence.rank s2)%nat)
          statuses) /\
    (forall (other : FacePresence.FacePresenceDetector) (faces : nat) (t t' : Q),
        exists other',
          FacePresence.check_face_presence other (FacePresence.Picture (S faces)) t t'
          = Some (other', "Active") /\
          FacePresence.face_lost_time other' = None).
Proof.
  intros self now h rest Hnone Hsl Hclock. split.
  - eexists. eexists. split; [apply absent_feed_first; exact Hnone|].
    split; [reflexivity|]. split.
    + apply statuses_by_reading. exact Hsl.
    + apply ordered_ranks. exact Hclock.
  - intros other faces t t'. eexists. split; reflexivity.
Qed.

(** C10.  A [None] image does not make [check_face_presence] raise: the call
    returns what [_handle_no_face] returns, one of the three ordinary
    statuses, and starts or continues the absence timer.  A feed of [None]
    images therefore gives the same statuses and detector as a feed of
    pictures without a face, that is the progression of C3. *)
Theorem C10_none_image_is_absence :
  forall (self : FacePresence.FacePresenceDetector) (readings : list (Q * Q)),
    (forall now h,
        FacePresence.check_face_presence self FacePresence.NoImage now h
        = Some (FacePresence._handle_no_face self h) /\
        FacePresence.face_lost_time (fst (FacePresence._handle_no_face self h))
        = Some (match FacePresence.face_lost_time self with
                | Some t0 => t0
                | None => h
                end) /\
        In (snd (FacePresence._handle_no_face self h))
           ["Active"; "Inactive (Face Missing)"; "Not Awake"]) /\
    FacePresence.feed self (FacePresence.none_feed readings)
    = FacePresence.feed self (FacePresence.absent_feed readings) /\
    (FacePresence.face_lost_time self = None ->
     FacePresence.short_absence_threshold self
     <= FacePresence.long_absence_threshold self ->
     forall now h rest,
       readings = (now, h) :: rest ->
       exists statuses final,
         FacePresence.feed self (FacePresence.none_feed readings)
         = Some (statuses, final) /\
         FacePresence.face_lost_time final = Some h /\
         Forall2 (fun r status =>
                    FacePresence.absence_status
                      (FacePresence.short_absence_threshold self)
                      (FacePresence.long_absence_threshold self)
                      (snd r - h) status)
                 readings statuses).
Proof.
  intros self readings. split; [|split].
  - intros now h. split; [reflexivity|].
    destruct (FacePresence.face_lost_time self) as [t0|] eqn:E.
    + rewrite (handle_no_face_running self t0 h E). cbn [fst snd]. split; [exact E|].
      unfold FacePresence.absence_code.
      destruct (Qleb _ _); [cbn; tauto|]. destruct (Qleb _ _); cbn; tauto.
    + rewrite (handle_no_face_first self h E). cbn [fst snd]. split; [reflexivity|].
      unfold FacePresence.absence_code.
      destruct (Qleb _ _); [cbn; tauto|]. destruct (Qleb _ _); cbn; tauto.
  - apply none_feed_absent_feed.
  - intros Hnone Hsl now h rest ->. rewrite none_feed_absent_feed.
    eexists. eexists. split; [apply absent_feed_first; exact Hnone|].
    split; [reflexivity|]. apply statuses_by_reading. exact Hsl.
Qed.

Lemma C3_absence_progression_witness :
  let self := FacePresence.default 0 in
  let readings := [(102, 102); (103, 103); (105, 105); (110, 110); (112, 112)] in
  FacePresence.face_lost_time self = None /\
  FacePresence.short_absence_threshold self
  <= FacePresence.long_absence_threshold self /\
  ForallOrdPairs (fun r1 r2 => snd r1 <= snd r2) ((100, 100) :: readings) /\
  exists statuses final,
    FacePresence.feed self (FacePresence.absent_feed ((100, 100) :: readings))
    = Some (statuses, final) /\
    FacePresence.face_lost_time final = Some 100 /\
    ForallOrdPairs
      (fun s1 s2 => (FacePresence.rank s1 <= FacePresence.rank s2)%nat) statuses.
Proof.
  intros self readings.
  assert (Hnone : FacePresence.face_lost_time self = None) by reflexivity.
  assert (Hsl : FacePresence.short_absence_threshold self
                <= FacePresence.long_absence_threshold self)
    by (apply Qle_bool_imp_le; reflexivity).
  assert (Hclock : ForallOrdPairs (fun r1 r2 => snd r1 <= snd r2)
                                  ((100, 100) :: readings))
    by (repeat constructor; apply Qle_bool_imp_le; reflexivity).
  split; [exact Hnone|]. split; [exact Hsl|]. split; [exact Hclock|].
  destruct (C3_absence_progression self 100 100 readings Hnone Hsl Hclock)
    as [[statuses [final [Hfeed [Hfinal [_ Hranks]]]]] _].
  exists statuses, final. repeat split; assumption.
Defined.

Lemma C10_none_image_is_absence_witness :
  let self := FacePresence.default 0 in
  let readings := [(100, 100); (102, 102); (103, 103); (110, 110)] in
  FacePresence.face_lost_time self = None /\
  FacePresence.short_absence_threshold self
  <= FacePresence.long_absence_threshold self /\
  exists statuses final,
    FacePresence.feed self (FacePresence.none_feed readings)
    = Some (statuses, final) /\
    FacePresence.face_lost_time final = Some 100.
Proof.
  intros self readings.
  assert (Hnone : FacePresence.face_lost_time self = None) by reflexivity.
  assert (Hsl : FacePresence.short_absence_threshold self
                <= FacePresence.long_absence_threshold self)
    by (apply Qle_bool_imp_le; reflexivity).
  split; [exact Hnone|]. split; [exact Hsl|].
  destruct (C10_none_image_is_absence self readings) as [_ [_ Hprog]].
  destruct (Hprog Hnone Hsl 100 100 _ eq_refl)
    as [statuses [final [Hfeed [Hfinal _]]]].
  exists statuses, final. split; assumption.
Defined.

(** The default detector on an eleven-second absence sampled once a second. *)
Example absence_eleven_seconds :
  FacePresence.feed (FacePresence.default 0)
    (FacePresence.absent_feed
       [(0, 0); (1, 1); (2, 2); (3, 3); (4, 4); (9, 9); (10, 10); (11, 11)])
  = Some (["Active"; "Active"; "Active"; "Inactive (Face Missing)";
           "Inactive (Face Missing)"; "Inactive (Face Missing)";
           "Not Awake"; "Not Awake"],
          FacePresence.mk 3.0 10.0 (Some 0) 0).
Proof. reflexivity. Qed.

(** ** The emergency escalator *)

Lemma stop_emergency_idle (self : Emergency.EmergencyWakeup) :
  Emergency.is_emergency_active (Emergency.stop_emergency self) = false.
Proof.
  destruct self as [active timer count siren tts pygame engine effects].
  destruct active; [|reflexivity].
  destruct timer, pygame, engine; reflexivity.
Qed.

Lemma trigger_emergency_active (self : Emergency.EmergencyWakeup) :
  Emergency.is_emergency_active (Emergency.trigger_emergency self) = true.
Proof.
  destruct self as [active timer count siren tts pygame engine effects].
  destruct active; [reflexivity|].
  destruct timer, siren as [[|]|], tts as [[|]|]; reflexivity.
Qed.

(** C7.  [stop_emergency] on an idle escalator and [trigger_emergency] on an
    active one return at their first statement: the escalator, including the
    trace of what it did to the outside world, is unchanged.  [stop_emergency]
    always leaves the escalator idle, so calling it again changes nothing. *)
Theorem C7_stop_and_trigger_noop :
  forall self : Emergency.EmergencyWakeup,
    (Emergency.is_emergency_active self = false ->
     Emergency.stop_emergency self = self) /\
    (Emergency.is_emergency_active self = true ->
     Emergency.trigger_emergency self = self) /\
    Emergency.is_emergency_active (Emergency.stop_emergency self) = false /\
    Emergency.stop_emergency (Emergency.stop_emergency self)
    = Emergency.stop_emergency self.
Proof.
  intro self. split; [|split; [|split]].
  - intro H. unfold Emergency.stop_emergency. rewrite H. reflexivity.
  - intro H. unfold Emergency.trigger_emergency. rewrite H. reflexivity.
  - apply stop_emergency_idle.
  - pose proof (stop_emergency_idle self) as H.
    unfold Emergency.stop_emergency at 1. rewrite H. reflexivity.
Qed.

Lemma C7_stop_and_trigger_noop_witness :
  let idle := Emergency.init true true in
  let active := Emergency.trigger_emergency idle in
  Emergency.is_emergency_active idle = false /\
  Emergency.stop_emergency idle = idle /\
  Emergency.is_emergency_active active = true /\
  Emergency.trigger_emergency active = active /\
  Emergency.stop_emergency (Emergency.stop_emergency active)
  = Emergency.stop_emergency active.
Proof.
  intros idle active.
  assert (Hidle : Emergency.is_emergency_active idle = false) by reflexivity.
  assert (Hactive : Emergency.is_emergency_active active = true) by reflexivity.
  split; [exact Hidle|].
  split; [exact (proj1 (C7_stop_and_trigger_noop idle) Hidle)|].
  split; [exact Hactive|].
  split; [exact (proj1 (proj2 (C7_stop_and_trigger_noop active)) Hactive)|].
  exact (proj2 (proj2 (proj2 (C7_stop_and_trigger_noop active)))).
Defined.

(** An emergency from start to stop, with the calls it makes. *)
Example emergency_round_trip :
  let active := Emergency.trigger_emergency (Emergency.init true true) in
  Emergency.effects active
  = [Emergency.Stdout "EMERGENCY WAKE-UP PROTOCOL ACTIVATED!";
     Emergency.ThreadStart "siren"; Emergency.TimerStart 500;
     Emergency.ThreadStart "tts"] /\
  Emergency.effects (Emergency.stop_emergency active)
  = (Emergency.effects active
     ++ [Emergency.TimerStop; Emergency.FlashSignal "normal";
         Emergency.MixerStop; Emergency.TtsStop;
         Emergency.Stdout "Emergency protocol stopped."])%list.
Proof. split; reflexivity. Qed.

(** ** The notification sink *)

(** C9 as the specification states it fails: a repeated "Drowsy" (a critical
    status, so of high priority) one second after the previous one is
    dropped, although the worker has already spoken the first and the sink
    is idle. *)
Lemma C9_high_priority_is_rate_limited :
  let first := Feedback.speak_status (Feedback.init true) "Drowsy" 100 0 in
  let idle := Feedback.worker_done (Feedback.worker_get first) in
  Feedback.speech_queue first
  = [("You appear drowsy. Please stay awake.", "high")] /\
  Feedback.priority_of "Drowsy" = "high" /\
  Feedback.is_speaking idle = false /\
  Feedback.speech_queue idle = [] /\
  ~ (exists message,
        In (message, "high")
           (Feedback.speech_queue (Feedback.speak_status idle "Drowsy" 101 0))).
Proof.
  cbv zeta. repeat split; try reflexivity.
  intros [message H]. vm_compute in H. exact H.
Qed.

Lemma speak_status_dropped self status now pick :
  Feedback.accepts self status now = false ->
  Feedback.speak_status self status now pick = self.
Proof.
  unfold Feedback.accepts, Feedback.speak_status. intro H.
  destruct (Feedback.tts_engine self); [|reflexivity]. cbn [negb andb] in H |- *.
  destruct (Feedback.same_status (Feedback.last_spoken_status self) status
            && Qltb (now - Feedback.last_speech_time self)
                    (Feedback.min_speech_interval self)); [reflexivity|].
  cbn [negb andb] in H.
  destruct (Feedback.is_speaking self && negb (Feedback.is_critical status));
    [reflexivity | discriminate H].
Qed.

Lemma speak_status_queued self status now pick :
  Feedback.accepts self status now = true ->
  let after := Feedback.speak_status self status now pick in
  Feedback.tts_engine after = true /\
  Feedback.last_spoken_status after = Some status /\
  Feedback.last_speech_time after = now /\
  Feedback.min_speech_interval after = Feedback.min_speech_interval self.
Proof.
  unfold Feedback.accepts, Feedback.speak_status. intro H. cbv zeta.
  destruct (Feedback.tts_engine self) eqn:Hengine; [|discriminate H].
  cbn [negb andb] in H |- *.
  destruct (Feedback.same_status (Feedback.last_spoken_status self) status
            && Qltb (now - Feedback.last_speech_time self)
                    (Feedback.min_speech_interval self)); [discriminate H|].
  cbn [negb andb] in H.
  destruct (Feedback.is_speaking self && negb (Feedback.is_critical status));
    [discriminate H|].
  cbn [Feedback.tts_engine Feedback.last_spoken_status
       Feedback.last_speech_time Feedback.min_speech_interval].
  repeat split.
Qed.

(** C9, amended.  A notification whose status equals the status of the last
    notification put on the queue is dropped when less than
    [min_speech_interval] (3 s) has passed since that queued notification,
    whatever its priority.  The interval runs from the last notification
    that was queued, not from the last one that was made: a queued
    notification silences identical ones for the interval, and a dropped
    one leaves the sink as it was, so that the next one is judged as if the
    dropped one had never come.  Otherwise, with a working engine, a
    high-priority status (Emergency, Not Awake, Fake Presence, Drowsy) is put
    on the queue after the queue is cleared, even while the sink speaks; a
    normal one is appended unless the sink speaks. *)
Theorem C9_rate_limit_before_priority :
  forall (self : Feedback.AIFeedback) (status : string) (now : Q) (pick : nat),
    (Feedback.last_spoken_status self = Some status ->
     now - Feedback.last_speech_time self < Feedback.min_speech_interval self ->
     Feedback.speak_status self status now pick = self) /\
    (Feedback.tts_engine self = true ->
     (Feedback.last_spoken_status self <> Some status \/
      Feedback.min_speech_interval self <= now - Feedback.last_speech_time self) ->
     let after := Feedback.speak_status self status now pick in
     (Feedback.is_critical status = true ->
      exists message,
        Feedback.speech_queue after = [(message, "high")] /\
        Feedback.last_spoken_status after = Some status /\
        Feedback.last_speech_time after = now) /\
     (Feedback.is_critical status = false ->
      Feedback.is_speaking self = false ->
      exists message,
        Feedback.speech_queue after
        = (Feedback.speech_queue self ++ [(message, "normal")])%list /\
        Feedback.last_spoken_status after = Some status /\
        Feedback.last_speech_time after = now) /\
     (Feedback.is_critical status = false ->
      Feedback.is_speaking self = true ->
      after = self)) /\
    (Feedback.accepts self status now = true ->
     forall (later : Q) (pick' : nat),
       later - now < Feedback.min_speech_interval self ->
       Feedback.speak_status (Feedback.speak_status self status now pick)
                             status later pick'
       = Feedback.speak_status self status now pick) /\
    (Feedback.accepts self status now = false ->
     forall (later : Q) (pick' : nat),
       Feedback.speak_status (Feedback.speak_status self status now pick)
                             status later pick'
       = Feedback.speak_status self status later pick').
Proof.
  intros self status now pick.
  assert (Hdrop : forall (sink : Feedback.AIFeedback) (t : Q) (p : nat),
             Feedback.last_spoken_status sink = Some status ->
             t - Feedback.last_speech_time sink < Feedback.min_speech_interval sink ->
             Feedback.speak_status sink status t p = sink).
  { intros sink t p Hlast Hrecent. unfold Feedback.speak_status.
    destruct (Feedback.tts_engine sink); [|reflexivity]. cbn [negb].
    rewrite Hlast. cbn [Feedback.same_status]. rewrite String.eqb_refl.
    apply Qltb_true in Hrecent. rewrite Hrecent. reflexivity. }
  split; [exact (Hdrop self now pick)|].
  split; [|split].
  2: { intros Haccepted later pick' Hsoon.
       destruct (speak_status_queued self status now pick Haccepted)
         as [_ [Hlast [Htime Hinterval]]].
       cbv zeta in Hlast, Htime, Hinterval.
       apply Hdrop; [exact Hlast | rewrite Htime, Hinterval; exact Hsoon]. }
  2: { intros Hdropped later pick'.
       rewrite (speak_status_dropped self status now pick Hdropped).
       reflexivity. }
  - intros Hengine Hfresh after.
    assert (Hgate : Feedback.same_status (Feedback.last_spoken_status self) status
                    && Qltb (now - Feedback.last_speech_time self)
                            (Feedback.min_speech_interval self) = false).
    { destruct Hfresh as [Hother | Hlate].
      - destruct (Feedback.last_spoken_status self) as [s|]; [|reflexivity].
        cbn [Feedback.same_status]. destruct (String.eqb_spec s status) as [->|];
          [congruence | reflexivity].
      - apply Qltb_false in Hlate. rewrite Hlate. apply andb_false_r. }
    subst after. unfold Feedback.speak_status.
    rewrite Hengine, Hgate. cbn [negb]. split; [|split].
    + intro Hcrit. unfold Feedback.priority_of. rewrite Hcrit.
      rewrite andb_false_r. cbn. eexists. repeat split.
    + intros Hcrit Hquiet. unfold Feedback.priority_of. rewrite Hcrit, Hquiet.
      cbn. eexists. repeat split.
    + intros Hcrit Hbusy. rewrite Hcrit, Hbusy. reflexivity.
Qed.

Lemma C9_rate_limit_before_priority_witness :
  let first := Feedback.speak_status (Feedback.init true) "Drowsy" 100 0 in
  Feedback.last_spoken_status first = Some "Drowsy" /\
  101 - Feedback.last_speech_time first < Feedback.min_speech_interval first /\
  Feedback.speak_status first "Drowsy" 101 0 = first.
Proof.
  intro first.
  assert (Hlast : Feedback.last_spoken_status first = Some "Drowsy") by reflexivity.
  assert (Hrecent : 101 - Feedback.last_speech_time first
                    < Feedback.min_speech_interval first) by reflexivity.
  split; [exact Hlast|]. split; [exact Hrecent|].
  exact (proj1 (C9_rate_limit_before_priority first "Drowsy" 101 0) Hlast Hrecent).
Defined.

(** Three identical notifications two seconds apart: the first is queued,
    the second is dropped, and the third, four seconds after the first, is
    queued although only two seconds have passed since the second. *)
Example every_other_notification_is_queued :
  let first := Feedback.speak_status (Feedback.init true) "Active" 100 0 in
  let second := Feedback.speak_status first "Active" 102 0 in
  let third := Feedback.speak_status second "Active" 104 0 in
  Feedback.get_queue_size first = 1%nat /\
  second = first /\
  Feedback.get_queue_size third = 2%nat /\
  Feedback.last_speech_time third = 104.
Proof. cbv zeta. repeat split. Qed.

(** ** The status classifier *)

Section ClassifierFacts.

Import Monitor.

Lemma determine_status_simple_drowsy m ear mar :
  ear < 0.22 ->
  determine_status_simple m ear mar =
  let m1 := set_yawn_counter 0 (set_drowsy_counter (drowsy_counter m + 1) m) in
  (m1, if (drowsy_threshold m <=? drowsy_counter m + 1)%nat then "Drowsy"
       else if (yawn_threshold m <=? 0)%nat then "Yawning" else "Active").
Proof.
  intro H. apply Qltb_true in H. unfold determine_status_simple. rewrite H.
  cbn. destruct (drowsy_threshold m <=? drowsy_counter m + 1)%nat; [reflexivity|].
  destruct (yawn_threshold m <=? 0)%nat; reflexivity.
Qed.

Lemma classify_drowsy_run samples : forall m k,
  Forall (fun s => fst s < 0.22) samples ->
  (k < List.length samples)%nat ->
  nth k (classify m samples) "" =
  if (drowsy_threshold m <=? drowsy_counter m + S k)%nat then "Drowsy"
  else if (yawn_threshold m <=? 0)%nat then "Yawning" else "Active".
Proof.
  induction samples as [|[ear mar] rest IH]; intros m k Hall Hk;
    [cbn in Hk; lia|].
  inversion Hall as [|? ? Hear Hrest]; subst. cbn [fst] in Hear.
  cbn [classify]. rewrite (determine_status_simple_drowsy m ear mar Hear).
  cbv zeta. destruct k as [|k].
  - cbn [nth]. reflexivity.
  - cbn [nth]. cbn [List.length] in Hk. rewrite IH; [|exact Hrest|lia].
    cbn. replace (drowsy_counter m + 1 + S k)%nat
      with (drowsy_counter m + S (S k))%nat by lia.
    reflexivity.
Qed.

End ClassifierFacts.

(** C4.  From a drowsy counter of zero, on a run of single-face frames whose
    EAR stays below 0.22, [determine_status_simple] returns "Drowsy" on the
    k-th frame exactly when k has reached [drowsy_threshold] (5 in the
    monitor): not on an earlier frame, and on every later one. *)
Theorem C4_drowsy_on_nth_frame :
  forall (m : Monitor.AttentivenessMonitor) (samples : list (Q * Q)) (k : nat),
    Monitor.drowsy_counter m = 0%nat ->
    Forall (fun s => fst s < 0.22) samples ->
    (k < List.length samples)%nat ->
    (nth k (Monitor.classify m samples) "" = "Drowsy"
     <-> (Monitor.drowsy_threshold m <= S k)%nat).
Proof.
  intros m samples k Hzero Hall Hk.
  rewrite (classify_drowsy_run samples m k Hall Hk), Hzero. cbn [Nat.add].
  destruct (Nat.leb_spec (Monitor.drowsy_threshold m) (S k)) as [Hle|Hlt].
  - split; [intros _; exact Hle | reflexivity].
  - split; [|lia]. destruct (Monitor.yawn_threshold m <=? 0)%nat; discriminate.
Qed.

(** Ten frames with EAR 0.15 on a fresh monitor. *)
Example ten_drowsy_frames :
  Monitor.classify (Monitor.init true true 0 0)
    (repeat (0.15, 0.1) 10)
  = ["Active"; "Active"; "Active"; "Active"; "Drowsy"; "Drowsy"; "Drowsy";
     "Drowsy"; "Drowsy"; "Drowsy"].
Proof. reflexivity. Qed.

Lemma C4_drowsy_on_nth_frame_witness :
  let m := Monitor.init true true 0 0 in
  let samples := repeat (0.15, 0.1) 10 in
  Monitor.drowsy_counter m = 0%nat /\
  Forall (fun s => fst s < 0.22) samples /\
  (4 < List.length samples)%nat /\
  (3 < List.length samples)%nat /\
  nth 4 (Monitor.classify m samples) "" = "Drowsy" /\
  nth 3 (Monitor.classify m samples) "" <> "Drowsy".
Proof.
  intros m samples.
  assert (Hzero : Monitor.drowsy_counter m = 0%nat) by reflexivity.
  assert (Hall : Forall (fun s => fst s < 0.22) samples)
    by (repeat constructor).
  assert (H4 : (4 < List.length samples)%nat) by (cbn; lia).
  assert (H3 : (3 < List.length samples)%nat) by (cbn; lia).
  split; [exact Hzero|]. split; [exact Hall|]. split; [exact H4|].
  split; [exact H3|]. split.
  - apply (proj2 (C4_drowsy_on_nth_frame m samples 4 Hzero Hall H4)). cbn. lia.
  - intro H. apply (proj1 (C4_drowsy_on_nth_frame m samples 3 Hzero Hall H3)) in H.
    cbn in H. lia.
Defined.

(** C8.  On every frame [determine_status_simple] classifies, the branch
    that increments one counter resets the other in the same call (EAR below
    0.22 for the drowsy counter, otherwise MAR above 0.6 for the yawn
    counter), and the remaining branch resets both; so after any frame at
    most one of the two counters is nonzero. *)
Theorem C8_counters_mutually_exclusive :
  forall (m : Monitor.AttentivenessMonitor) (ear mar : Q),
    let m' := fst (Monitor.determine_status_simple m ear mar) in
    (ear < 0.22 ->
     Monitor.drowsy_counter m' = S (Monitor.drowsy_counter m) /\
     Monitor.yawn_counter m' = 0%nat) /\
    (0.22 <= ear -> 0.6 < mar ->
     Monitor.yawn_counter m' = S (Monitor.yawn_counter m) /\
     Monitor.drowsy_counter m' = 0%nat) /\
    (0.22 <= ear -> mar <= 0.6 ->
     Monitor.drowsy_counter m' = 0%nat /\ Monitor.yawn_counter m' = 0%nat) /\
    (Monitor.drowsy_counter m' = 0%nat \/ Monitor.yawn_counter m' = 0%nat).
Proof.
  intros m ear mar m'. subst m'. unfold Monitor.determine_status_simple.
  destruct (Qltb ear 0.22) eqn:Eear; [|destruct (Qltb 0.6 mar) eqn:Emar].
  - apply Qltb_true in Eear.
    assert (Hd : forall x, x = (Monitor.drowsy_counter m + 1)%nat ->
                           x = S (Monitor.drowsy_counter m)) by (intros; lia).
    repeat split; intros;
      try (exfalso; lra);
      destruct (_ <=? _)%nat; try destruct (_ <=? _)%nat;
        cbn; auto.
  - apply Qltb_false in Eear. apply Qltb_true in Emar.
    assert (Hd : forall x, x = (Monitor.yawn_counter m + 1)%nat ->
                           x = S (Monitor.yawn_counter m)) by (intros; lia).
    repeat split; intros;
      try (exfalso; lra);
      destruct (_ <=? _)%nat; try destruct (_ <=? _)%nat;
        cbn; auto.
  - apply Qltb_false in Eear. apply Qltb_false in Emar.
    repeat split; intros;
      try (exfalso; lra);
      destruct (_ <=? _)%nat; try destruct (_ <=? _)%nat;
        cbn; auto.
Qed.

Lemma C8_counters_mutually_exclusive_witness :
  let m := Monitor.set_yawn_counter 2 (Monitor.init true true 0 0) in
  let m' := fst (Monitor.determine_status_simple m 0.15 0.7) in
  0.15 < 0.22 /\
  Monitor.drowsy_counter m' = 1%nat /\ Monitor.yawn_counter m' = 0%nat.
Proof.
  intros m m'.
  assert (H : 0.15 < 0.22) by reflexivity.
  split; [exact H|].
  exact (proj1 (C8_counters_mutually_exclusive m 0.15 0.7) H).
Defined.

(** ** The inactivity tracker *)

Section TrackerFacts.

Import Monitor.

(** The monitor after the escalation branch of
    [handle_inactivity_tracking]. *)
Lemma handle_open m t0 status t r :
  inactive_start_time m = Some t0 ->
  String.eqb status "Active" = false ->
  handle_inactivity_tracking m status t r =
  if Qleb (inactivity_threshold m) (t - t0) && negb (emergency_triggered m)
  then speak "User Inactive Too Long"
             (set_emergency_triggered true (trigger_emergency m))
  else m.
Proof.
  intros Hstart Hstatus. unfold handle_inactivity_tracking.
  rewrite Hstatus, Hstart. cbn [negb]. rewrite Hstart. reflexivity.
Qed.

Lemma handle_closed m status t r :
  inactive_start_time m = None ->
  String.eqb status "Active" = false ->
  handle_inactivity_tracking m status t r =
  handle_inactivity_tracking (set_inactive_start_time (Some t) m) status t r.
Proof.
  intros Hstart Hstatus. unfold handle_inactivity_tracking.
  rewrite Hstatus, Hstart. reflexivity.
Qed.

Lemma emergencies_trigger m :
  emergencies (trigger_emergency m) = S (emergencies m).
Proof.
  unfold emergencies, trigger_emergency. cbn.
  rewrite filter_app, length_app. cbn. lia.
Qed.

Lemma escalated_fields m :
  let m' := speak "User Inactive Too Long"
                  (set_emergency_triggered true (trigger_emergency m)) in
  inactive_start_time m' = inactive_start_time m /\
  inactivity_threshold m' = inactivity_threshold m /\
  emergency_triggered m' = true /\
  emergencies m' = S (emergencies m) /\
  Emergency.is_emergency_active (emergency_wakeup m') = true /\
  emergency_wakeup m' = Emergency.trigger_emergency (emergency_wakeup m).
Proof.
  cbv zeta. repeat split.
  - apply (emergencies_trigger m).
  - cbn. apply trigger_emergency_active.
Qed.

(** While the window is open, non-Active frames keep its start and the
    threshold; the flag is set once some frame has reached the threshold. *)
Lemma track_open calls : forall m t0,
  inactive_start_time m = Some t0 ->
  Forall (fun c => String.eqb (fst (fst c)) "Active" = false) calls ->
  inactive_start_time (track m calls) = Some t0 /\
  inactivity_threshold (track m calls) = inactivity_threshold m /\
  emergency_triggered (track m calls) =
  emergency_triggered m
  || existsb (fun c => Qleb (inactivity_threshold m) (snd (fst c) - t0)) calls.
Proof.
  induction calls as [|[[status t] r] rest IH]; intros m t0 Hstart Hall.
  - cbn. rewrite orb_false_r. auto.
  - inversion Hall as [|? ? Hs Hrest]; subst. cbn [fst snd] in Hs.
    cbn [track existsb fst snd]. rewrite (handle_open m t0 status t r Hstart Hs).
    destruct (Qleb (inactivity_threshold m) (t - t0)) eqn:Ecross;
      destruct (emergency_triggered m) eqn:Eflag; cbn [andb negb orb].
    + destruct (IH m t0 Hstart Hrest) as [H1 [H2 H3]].
      rewrite H1, H2, H3, Eflag. auto.
    + destruct (escalated_fields m) as [F1 [F2 [F3 _]]].
      destruct (IH _ t0 (eq_trans F1 Hstart) Hrest) as [H1 [H2 H3]].
      rewrite H1, H2, H3, F2, F3. auto.
    + destruct (IH m t0 Hstart Hrest) as [H1 [H2 H3]].
      rewrite H1, H2, H3, Eflag. auto.
    + destruct (IH m t0 Hstart Hrest) as [H1 [H2 H3]].
      rewrite H1, H2, H3, Eflag. auto.
Qed.

Lemma existsb_crossed_false thr t0 (calls : list (string * Q * Q)) :
  existsb (fun c => Qleb thr (snd (fst c) - t0)) calls = false <->
  Forall (fun c => snd (fst c) - t0 < thr) calls.
Proof.
  induction calls as [|c rest IH]; cbn.
  - split; [constructor | reflexivity].
  - rewrite orb_false_iff, IH, Qleb_false. split.
    + intros [H1 H2]. constructor; assumption.
    + intro H. inversion H; subst. split; assumption.
Qed.

Lemma reset_closes m now :
  let m' := reset_inactivity_tracking m now in
  inactive_start_time m' = None /\
  emergency_triggered m' = false /\
  Emergency.is_emergency_active (emergency_wakeup m') = false.
Proof.
  cbv zeta. unfold reset_inactivity_tracking.
  match goal with
  | |- context [if ?c then _ else _] => destruct c eqn:Eactive
  end.
  - cbn [inactive_start_time emergency_triggered emergency_wakeup
         set_emergency_wakeup].
    repeat split. apply stop_emergency_idle.
  - repeat split. exact Eactive.
Qed.

End TrackerFacts.

(** C1.  Take a run of frames whose status is not "Active", entered with the
    window closed and the flag clear, and let [t0] be the time of its first
    frame.  The first frame opens the window at [t0] and no later frame of
    the run moves it.  A frame of the run calls [trigger_emergency] exactly
    when it is the first one whose elapsed time [t - t0] has reached
    [inactivity_threshold]: that frame logs one "Emergency" row, leaves the
    escalator active and sets [emergency_triggered]; every other frame of the
    run logs no such row and leaves escalator and flag as they were.  A frame
    with status "Active" closes the window and clears the flag, after which
    the same holds for the next run. *)
Theorem C1_emergency_once_per_window :
  forall (m : Monitor.AttentivenessMonitor) (status0 : string) (t0 r0 : Q)
         (rest : list (string * Q * Q)),
    Monitor.inactive_start_time m = None ->
    Monitor.emergency_triggered m = false ->
    Forall (fun c => String.eqb (fst (fst c)) "Active" = false)
           ((status0, t0, r0) :: rest) ->
    (forall pre status t r post,
        (status0, t0, r0) :: rest = (pre ++ (status, t, r) :: post)%list ->
        let before := Monitor.track m pre in
        let after := Monitor.handle_inactivity_tracking before status t r in
        let first_crossing :=
          Monitor.inactivity_threshold m <= t - t0 /\
          Forall (fun c => snd (fst c) - t0 < Monitor.inactivity_threshold m) pre in
        Monitor.inactive_start_time before
        = match pre with [] => None | _ :: _ => Some t0 end /\
        Monitor.inactive_start_time after = Some t0 /\
        (first_crossing ->
         Monitor.emergencies after = S (Monitor.emergencies before) /\
         Monitor.emergency_wakeup after
         = Emergency.trigger_emergency (Monitor.emergency_wakeup before) /\
         Emergency.is_emergency_active (Monitor.emergency_wakeup after) = true /\
         Monitor.emergency_triggered before = false /\
         Monitor.emergency_triggered after = true) /\
        (~ first_crossing ->
         Monitor.emergencies after = Monitor.emergencies before /\
         Monitor.emergency_wakeup after = Monitor.emergency_wakeup before /\
         Monitor.emergency_triggered after = Monitor.emergency_triggered before)) /\
    (forall (any : Monitor.AttentivenessMonitor) (t r : Q),
        let closed := Monitor.handle_inactivity_tracking any "Active" t r in
        Monitor.inactive_start_time closed = None /\
        Monitor.emergency_triggered closed = false /\
        Emergency.is_emergency_active (Monitor.emergency_wakeup closed) = false).
Proof.
  intros m status0 t0 r0 rest Hclosed Hflag Hall. split.
  2:{ intros any t r. apply reset_closes. }
  intros pre status t r post Hsplit before after first_crossing.
  assert (Hstatus : String.eqb status "Active" = false).
  { rewrite Hsplit in Hall. apply Forall_app in Hall. destruct Hall as [_ Hall].
    inversion Hall; subst. assumption. }
  (* the state in which the frame finds the tracker, once the window is open *)
  assert (Hopen : exists opened,
             after = Monitor.handle_inactivity_tracking opened status t r /\
             Monitor.inactive_start_time opened = Some t0 /\
             Monitor.inactive_start_time before
             = match pre with [] => None | _ :: _ => Some t0 end /\
             Monitor.inactivity_threshold opened = Monitor.inactivity_threshold m /\
             Monitor.emergency_triggered opened = Monitor.emergency_triggered before /\
             Monitor.emergencies opened = Monitor.emergencies before /\
             Monitor.emergency_wakeup opened = Monitor.emergency_wakeup before /\
             Monitor.emergency_triggered before
             = existsb (fun c => Qleb (Monitor.inactivity_threshold m)
                                      (snd (fst c) - t0)) pre).
  { destruct pre as [|c0 pre'].
    - cbn in Hsplit. injection Hsplit as <- <- <- <-.
      exists (Monitor.set_inactive_start_time (Some t0) m).
      subst after before. cbn [Monitor.track existsb].
      split; [apply handle_closed; assumption|]. repeat split; auto.
    - cbn in Hsplit. injection Hsplit as Hc0 Hrest. subst c0.
      exists before. subst before. cbn [Monitor.track].
      assert (Hpre : Forall (fun c => String.eqb (fst (fst c)) "Active" = false) pre').
      { pose proof (Forall_inv_tail Hall) as Hr. rewrite Hrest in Hr.
        apply Forall_app in Hr. tauto. }
      assert (Hs0 : String.eqb status0 "Active" = false)
        by exact (Forall_inv Hall).
      pose (m0 := Monitor.set_inactive_start_time (Some t0) m).
      pose (m1 := Monitor.handle_inactivity_tracking m status0 t0 r0).
      assert (Hm1 : m1 = Monitor.handle_inactivity_tracking m0 status0 t0 r0)
        by (apply handle_closed; assumption).
      rewrite (handle_open m0 t0 status0 t0 r0 eq_refl Hs0) in Hm1.
      fold m1.
      assert (Hfirst : Monitor.inactive_start_time m1 = Some t0 /\
                       Monitor.inactivity_threshold m1 = Monitor.inactivity_threshold m /\
                       Monitor.emergency_triggered m1
                       = Qleb (Monitor.inactivity_threshold m) (t0 - t0)).
      { rewrite Hm1. change (Monitor.inactivity_threshold m0)
          with (Monitor.inactivity_threshold m).
        change (Monitor.emergency_triggered m0) with (Monitor.emergency_triggered m).
        rewrite Hflag. cbn [negb]. rewrite andb_true_r.
        destruct (Qleb (Monitor.inactivity_threshold m) (t0 - t0)).
        - destruct (escalated_fields m0) as [F1 [F2 [F3 _]]]. auto.
        - auto. }
      destruct Hfirst as [G1 [G2 G3]].
      destruct (track_open pre' m1 t0 G1 Hpre) as [H1 [H2 H3]].
      split; [reflexivity|]. split; [exact H1|]. split; [exact H1|].
      split; [rewrite H2; exact G2|]. repeat split.
      rewrite H3, G2, G3. reflexivity. }
  destruct Hopen as [opened [Hafter [Hstart [Hbefore [Hthr [Hfl [Hem [Hew Hseen]]]]]]]].
  rewrite (handle_open opened t0 status t r Hstart Hstatus) in Hafter.
  rewrite Hthr, Hfl in Hafter.
  split; [exact Hbefore|].
  destruct (Qleb (Monitor.inactivity_threshold m) (t - t0)) eqn:Ecross;
    destruct (Monitor.emergency_triggered before) eqn:Eflag;
    cbn [andb negb] in Hafter; rewrite Hafter.
  - (* reached, already escalated *)
    split; [exact Hstart|]. split.
    + intros [_ Hnone]. apply existsb_crossed_false in Hnone. congruence.
    + intros _. rewrite Hem, Hew, Hfl. auto.
  - (* reached for the first time *)
    destruct (escalated_fields opened) as [F1 [F2 [F3 [F4 [F5 F6]]]]].
    split; [rewrite F1; exact Hstart|]. split.
    + intros _. rewrite F4, F5, F6, F3, Hem, Hew. auto.
    + intros Hnot. exfalso. apply Hnot. split.
      * apply Qleb_true. exact Ecross.
      * apply existsb_crossed_false. symmetry. exact Hseen.
  - split; [exact Hstart|]. split.
    + intros [Hreach _]. apply Qleb_true in Hreach. congruence.
    + intros _. rewrite Hem, Hew, Hfl. auto.
  - split; [exact Hstart|]. split.
    + intros [Hreach _]. apply Qleb_true in Hreach. congruence.
    + intros _. rewrite Hem, Hew, Hfl. auto.
Qed.

Lemma C1_emergency_once_per_window_witness :
  let m := Monitor.init true true 0 0 in
  let pre := [("Drowsy", 100, 0); ("Drowsy", 103, 0)] in
  let post := [("Yawning", 106, 0)] in
  let before := Monitor.track m pre in
  let after := Monitor.handle_inactivity_tracking before "Drowsy" 105 0 in
  Monitor.inactive_start_time m = None /\
  Monitor.emergency_triggered m = false /\
  Forall (fun c => String.eqb (fst (fst c)) "Active" = false)
         (("Drowsy", 100, 0) :: ("Drowsy", 103, 0) :: ("Drowsy", 105, 0) :: post) /\
  Monitor.inactivity_threshold m <= 105 - 100 /\
  Forall (fun c => snd (fst c) - 100 < Monitor.inactivity_threshold m) pre /\
  Monitor.inactive_start_time after = Some 100 /\
  Monitor.emergencies after = S (Monitor.emergencies before) /\
  Monitor.emergency_triggered after = true.
Proof.
  intros m pre post before after.
  assert (Hclosed : Monitor.inactive_start_time m = None) by reflexivity.
  assert (Hflag : Monitor.emergency_triggered m = false) by reflexivity.
  assert (Hall : Forall (fun c => String.eqb (fst (fst c)) "Active" = false)
                   (("Drowsy", 100, 0) :: ("Drowsy", 103, 0)
                    :: ("Drowsy", 105, 0) :: post))
    by (repeat constructor).
  assert (Hreach : Monitor.inactivity_threshold m <= 105 - 100)
    by (apply Qle_bool_imp_le; reflexivity).
  assert (Hbelow : Forall (fun c => snd (fst c) - 100
                                    < Monitor.inactivity_threshold m) pre)
    by (repeat constructor).
  split; [exact Hclosed|]. split; [exact Hflag|]. split; [exact Hall|].
  split; [exact Hreach|]. split; [exact Hbelow|].
  destruct (proj1 (C1_emergency_once_per_window m "Drowsy" 100 0
                     [("Drowsy", 103, 0); ("Drowsy", 105, 0); ("Yawning", 106, 0)]
                     Hclosed Hflag Hall)
                  pre "Drowsy" 105 0 post eq_refl)
    as [_ [Hstart [Hfirst _]]].
  destruct (Hfirst (conj Hreach Hbelow)) as [Hlog [_ [_ [_ Htrig]]]].
  split; [exact Hstart|]. split; [exact Hlog | exact Htrig].
Defined.

(** A window of non-Active frames on a fresh monitor: the escalator is
    triggered by the frame at 105 s and by no other. *)
Example one_emergency_in_a_window :
  let m := Monitor.init true true 0 0 in
  map (fun calls => Monitor.emergencies (Monitor.track m calls))
      [ [("Drowsy", 100, 0)];
        [("Drowsy", 100, 0); ("Drowsy", 104.9, 0)];
        [("Drowsy", 100, 0); ("Drowsy", 104.9, 0); ("Drowsy", 105, 0)];
        [("Drowsy", 100, 0); ("Drowsy", 104.9, 0); ("Drowsy", 105, 0);
         ("Yawning", 120, 0)];
        [("Drowsy", 100, 0); ("Drowsy", 104.9, 0); ("Drowsy", 105, 0);
         ("Yawning", 120, 0); ("Active", 121, 121); ("Drowsy", 122, 0);
         ("Drowsy", 126, 0)];
        [("Drowsy", 100, 0); ("Drowsy", 104.9, 0); ("Drowsy", 105, 0);
         ("Yawning", 120, 0); ("Active", 121, 121); ("Drowsy", 122, 0);
         ("Drowsy", 126, 0); ("Drowsy", 127, 0)] ]
  = [0; 0; 1; 1; 1; 2]%nat.
Proof. reflexivity. Qed.

(** ** Return to Active *)

Section ReturnFacts.

Import Monitor.

Variable norm : point -> point -> Q.

Lemma log_status_change_rows self old_status new_status ear mar now :
  exists r,
    Logger.rows (Logger.log_status_change self old_status new_status ear mar now)
    = (Logger.rows self ++ [r])%list /\
    Logger.status r = new_status.
Proof.
  unfold Logger.log_status_change.
  destruct (Logger._is_inactive_status old_status && String.eqb new_status "Active").
  - destruct (Logger.last_inactive_start self); eexists; split; reflexivity.
  - case_branches; eexists; split; reflexivity.
Qed.

Lemma update_status_fields m status now :
  let m' := update_status m status now in
  current_status m' = status /\
  inactive_start_time m' = inactive_start_time m /\
  emergency_triggered m' = emergency_triggered m /\
  emergency_wakeup m' = emergency_wakeup m /\
  last_ear m' = last_ear m /\
  last_mar m' = last_mar m /\
  (exists more,
      Logger.rows (activity_logger m')
      = (Logger.rows (activity_logger m) ++ more)%list) /\
  (exists more, spoken m' = (spoken m ++ more)%list) /\
  inactivity_threshold m' = inactivity_threshold m /\
  (String.eqb status "Emergency" = false -> emergencies m' = emergencies m).
Proof.
  cbv zeta. unfold update_status.
  destruct (String.eqb_spec status (current_status m)) as [Heq|Hne]; cbn [negb].
  - repeat split; auto; exists []; rewrite app_nil_r; reflexivity.
  - destruct (log_status_change_rows (activity_logger m) (current_status m)
                status (last_ear m) (last_mar m) now) as [r [Hr Hs]].
    repeat split.
    + exists [r]. cbn. exact Hr.
    + eexists. cbn. reflexivity.
    + intro Hplain. unfold emergencies. cbn. rewrite Hr, filter_app, length_app.
      cbn. rewrite Hs, Hplain. cbn. lia.
Qed.

Lemma handle_keeps_status m status t r :
  current_status (handle_inactivity_tracking m status t r) = current_status m.
Proof.
  unfold handle_inactivity_tracking, reset_inactivity_tracking.
  destruct (String.eqb status "Active"); cbn [negb].
  - destruct (inactive_start_time m);
      [destruct (String.eqb (current_status m) "Active")|]; cbn [negb];
      match goal with
      | |- context [if ?c then _ else _] => destruct c
      end; reflexivity.
  - destruct (inactive_start_time m); cbn;
      match goal with
      | |- context [if ?c then _ else _] => destruct c
      end; reflexivity.
Qed.

(** The return branch of [reset_inactivity_tracking]. *)
Lemma reset_returns m now t0 :
  inactive_start_time m = Some t0 ->
  String.eqb (current_status m) "Active" = false ->
  let m' := reset_inactivity_tracking m now in
  Logger.rows (activity_logger m')
  = (Logger.rows (activity_logger m)
     ++ [Logger.mk_row "Active" (Logger.ReturnedToActive (now - t0)) 0
                       (last_ear m) (last_mar m) (Some (now - t0))])%list /\
  spoken m' = (spoken m ++ ["User Active Again"])%list /\
  current_status m' = current_status m /\
  last_ear m' = last_ear m /\
  last_mar m' = last_mar m.
Proof.
  intros Hstart Hstatus. cbv zeta. unfold reset_inactivity_tracking.
  rewrite Hstart, Hstatus. cbn [negb].
  match goal with
  | |- context [if ?c then _ else _] => destruct c
  end; repeat split.
Qed.

End ReturnFacts.

Section PipelineFacts.

Import Monitor.

Variable norm : point -> point -> Q.

Lemma face_box_raises (landmarks : list point) :
  get_face_bounding_box landmarks = None <-> landmarks = [].
Proof.
  unfold get_face_bounding_box. destruct landmarks as [|p rest]; cbn.
  - split; reflexivity.
  - split; discriminate.
Qed.

(** The single-face path returns unless the landmark list is empty. *)
Lemma single_face_returns m f m' :
  single_face norm m f = Some m' ->
  landmarks f <> [] /\ m' = face_tracking norm m f.
Proof.
  unfold single_face.
  destruct (get_face_bounding_box (landmarks f)) as [face_box|] eqn:Ebox;
    [|discriminate].
  intro H. injection H as <-. split; [|reflexivity].
  intro Hnil. apply face_box_raises in Hnil. congruence.
Qed.

Lemma determine_status_fields m ear mar :
  let m' := fst (determine_status_simple m ear mar) in
  inactive_start_time m' = inactive_start_time m /\
  emergency_triggered m' = emergency_triggered m /\
  emergency_wakeup m' = emergency_wakeup m /\
  inactivity_threshold m' = inactivity_threshold m /\
  current_status m' = current_status m /\
  activity_logger m' = activity_logger m /\
  spoken m' = spoken m /\
  last_ear m' = last_ear m /\
  last_mar m' = last_mar m.
Proof.
  cbv zeta. unfold determine_status_simple.
  destruct (Qltb ear 0.22); [|destruct (Qltb 0.6 mar)];
    (destruct (_ <=? _)%nat; [|destruct (_ <=? _)%nat]); cbn; repeat split.
Qed.

(** The two branches at the end of the single-face path are one call of
    [handle_inactivity_tracking]. *)
Lemma single_face_tracking m status t r :
  (if String.eqb status "Active" then reset_inactivity_tracking m r
   else handle_inactivity_tracking m status t r)
  = handle_inactivity_tracking m status t r.
Proof.
  unfold handle_inactivity_tracking.
  destruct (String.eqb status "Active"); reflexivity.
Qed.

Lemma handle_keeps_ear m status t r :
  last_ear (handle_inactivity_tracking m status t r) = last_ear m /\
  last_mar (handle_inactivity_tracking m status t r) = last_mar m.
Proof.
  unfold handle_inactivity_tracking, reset_inactivity_tracking.
  split;
    case_branches; reflexivity.
Qed.

Lemma determine_status_names m ear mar :
  In (snd (determine_status_simple m ear mar)) ["Drowsy"; "Yawning"; "Active"].
Proof.
  unfold determine_status_simple.
  destruct (Qltb ear 0.22); [|destruct (Qltb 0.6 mar)];
    (destruct (_ <=? _)%nat; [|destruct (_ <=? _)%nat]); cbn; tauto.
Qed.

Lemma check_face_presence_names self im now now_handle detector status :
  FacePresence.check_face_presence self im now now_handle = Some (detector, status) ->
  In status ["Active"; "Inactive (Face Missing)"; "Not Awake"].
Proof.
  unfold FacePresence.check_face_presence, FacePresence._handle_no_face.
  destruct im as [|d]; cbn [FacePresence.cvtColor];
    case_branches; intro H; injection H as _ <-; cbn; tauto.
Qed.

Lemma speak_fields text m :
  let m' := speak text m in
  inactive_start_time m' = inactive_start_time m /\
  emergency_triggered m' = emergency_triggered m /\
  emergency_wakeup m' = emergency_wakeup m /\
  inactivity_threshold m' = inactivity_threshold m /\
  emergencies m' = emergencies m /\
  last_ear m' = last_ear m /\
  last_mar m' = last_mar m /\
  activity_logger m' = activity_logger m /\
  current_status m' = current_status m.
Proof. cbv zeta. repeat split. Qed.

Lemma single_face_shape m f :
  mesh_faces f <> 0%nat ->
  exists m_in status, frame_shape norm m f m_in status (face_tracking norm m f).
Proof.
  intro Hface. unfold face_tracking.
  destruct (calculate_ear norm (eye_tracker m) (landmarks f) None)
    as [eye ear] eqn:Eear.
  destruct (calculate_mar norm
              (yawn_detector (set_last_ear ear (set_eye_tracker eye m)))
              (landmarks f)) as [yawn mar] eqn:Emar.
  set (m2 := set_last_mar mar
               (set_yawn_detector yawn (set_last_ear ear (set_eye_tracker eye m)))).
  destruct (determine_status_simple m2 ear mar) as [m3 status] eqn:Edet.
  pose proof (determine_status_fields m2 ear mar) as D.
  pose proof (determine_status_names m2 ear mar) as Hname.
  rewrite Edet in D, Hname. cbv zeta in D. cbn [fst] in D. cbn [snd] in Hname.
  destruct D as [D1 [D2 [D3 [D4 [D5 [D6 [D7 [D8 D9]]]]]]]].
  assert (Hplain : String.eqb status "Emergency" = false).
  { cbn in Hname. destruct Hname as [<-|[<-|[<-|[]]]]; reflexivity. }
  rewrite single_face_tracking.
  destruct (update_status_fields
              (handle_inactivity_tracking m3 status (current_time f) (now_reset f))
              status (now_update f))
    as [U1 [U2 [U3 [U4 [U5 [U6 [U7 [U8 [U9 U10]]]]]]]]].
  destruct (handle_keeps_ear m3 status (current_time f) (now_reset f)) as [K1 K2].
  exists m3, status. unfold frame_shape. cbv zeta.
  split.
  { rewrite D1, D2, D3, D4. unfold emergencies. rewrite D6. repeat split. }
  split; [rewrite U2, U3, U4, U5, U6, U9, (U10 Hplain), K1, K2; repeat split|].
  split; [exact U7|]. split; [exact U8|].
  split; [rewrite U1; reflexivity|].
  intros _. rewrite D5, D6, D7, D8, D9.
  split; [reflexivity|]. split; [reflexivity|]. split; [reflexivity|].
  right. cbn [yawn_detector set_last_ear set_eye_tracker] in Emar.
  rewrite Eear, Emar. split; [exact Hface|]. split; reflexivity.
Qed.

(** Every frame passes through [handle_inactivity_tracking] once. *)
Lemma process_frame_shape m f m' :
  process_frame norm m f = Some m' ->
  exists m_in status, frame_shape norm m f m_in status m'.
Proof.
  unfold process_frame.
  destruct ((1 <? mesh_faces f)%nat) eqn:Emany;
    [destruct (MultipleFaces.check_multiple_faces
                 (FacePresence.Picture (detections f))) as [mstatus|] eqn:Emult|].
  - (* more than one face *)
    intro H. injection H as <-.
    assert (Hname : mstatus = "Multiple Persons Detected").
    { unfold MultipleFaces.check_multiple_faces in Emult.
      destruct (1 <? detections f)%nat;
        [injection Emult as <-; reflexivity | discriminate]. }
    subst mstatus.
    destruct (update_status_fields m "Multiple Persons Detected" (now_update f))
      as [U1 [U2 [U3 [U4 [_ [_ [_ [_ [U9 U10]]]]]]]]].
    specialize (U10 eq_refl).
    set (m1 := update_status m "Multiple Persons Detected" (now_update f)) in *.
    exists m1, "Multiple Faces". unfold frame_shape. cbv zeta.
    destruct (handle_keeps_ear m1 "Multiple Faces" (current_time f) (now_reset f))
      as [K1 K2].
    set (m2 := handle_inactivity_tracking m1 "Multiple Faces" (current_time f)
                                          (now_reset f)) in *.
    assert (Hcur : current_status m2 = "Multiple Persons Detected").
    { unfold m2. rewrite handle_keeps_status. exact U1. }
    rewrite Hcur. cbn [String.eqb Ascii.eqb Bool.eqb negb].
    split; [repeat split; assumption|]. split; [repeat split; assumption|].
    split; [exists []; rewrite app_nil_r; reflexivity|].
    split; [exists []; rewrite app_nil_r; reflexivity|].
    split; [rewrite Hcur; reflexivity|]. discriminate.
  - (* the detector does not confirm a second face *)
    destruct (mesh_faces f =? 0)%nat eqn:Ezero;
      [apply Nat.eqb_eq in Ezero; apply Nat.ltb_lt in Emany; lia|].
    intro H. destruct (single_face_returns m f m' H) as [_ ->].
    apply single_face_shape. apply Nat.eqb_neq. exact Ezero.
  - destruct (mesh_faces f =? 0)%nat eqn:Ezero;
      [|intro H; destruct (single_face_returns m f m' H) as [_ ->];
        apply single_face_shape; apply Nat.eqb_neq; exact Ezero].
    (* no face *)
    unfold no_face.
    destruct (FacePresence.check_face_presence _ _ _ _)
      as [[detector status]|] eqn:Epresence; [|discriminate].
    pose proof (check_face_presence_names _ _ _ _ _ _ Epresence) as Hname.
    assert (Hplain : String.eqb status "Emergency" = false).
    { cbn in Hname. destruct Hname as [<-|[<-|[<-|[]]]]; reflexivity. }
    intro H. injection H as <-.
    set (m1 := set_face_presence_detector detector m).
    set (m2 := handle_inactivity_tracking m1 status (current_time f)
                                          (now_reset f)).
    set (m3 := if negb (String.eqb (current_status m2) "Inactive (Face Missing)")
               then speak "Face Not Detected" m2 else m2).
    destruct (update_status_fields m3 status (now_update f))
      as [U1 [U2 [U3 [U4 [U5 [U6 [[more7 U7] [[more8 U8] [U9 U10]]]]]]]]].
    specialize (U10 Hplain).
    destruct (handle_keeps_ear m1 status (current_time f) (now_reset f)) as [K1 K2].
    fold m2 in K1, K2.
    exists m1, status. unfold frame_shape. cbv zeta. fold m2.
    assert (Hm3 : inactive_start_time m3 = inactive_start_time m2 /\
                  emergency_triggered m3 = emergency_triggered m2 /\
                  emergency_wakeup m3 = emergency_wakeup m2 /\
                  inactivity_threshold m3 = inactivity_threshold m2 /\
                  emergencies m3 = emergencies m2 /\
                  last_ear m3 = last_ear m2 /\ last_mar m3 = last_mar m2 /\
                  activity_logger m3 = activity_logger m2 /\
                  exists more, spoken m3 = (spoken m2 ++ more)%list).
    { unfold m3. destruct (negb _); repeat split;
        solve [exists []; rewrite app_nil_r; reflexivity
              | eexists; reflexivity]. }
    destruct Hm3 as [S1 [S2 [S3 [S4 [S5 [S6 [S7 [S8 [more S9]]]]]]]]].
    split; [repeat split|].
    split; [rewrite U2, U3, U4, U5, U6, U9, U10, S1, S2, S3, S4, S5, S6, S7, K1, K2;
            repeat split|].
    split; [exists more7; rewrite U7, S8; reflexivity|].
    split; [exists (more ++ more8)%list; rewrite U8, S9, app_assoc; reflexivity|].
    split; [rewrite U1; reflexivity|].
    intros _. repeat split. left. apply Nat.eqb_eq in Ezero.
    split; [exact Ezero|]. split; reflexivity.
Qed.

Lemma handle_active m t r :
  handle_inactivity_tracking m "Active" t r = reset_inactivity_tracking m r.
Proof. reflexivity. Qed.

(** In every reachable state an open window means that the displayed
    status is not "Active". *)
Lemma window_open_not_active m :
  reachable norm m ->
  inactive_start_time m <> None ->
  String.eqb (current_status m) "Active" = false.
Proof.
  induction 1 as [pygame_ok tts_ok now now_presence
                 | m camera_ok Hm IH | m Hm IH
                 | m camera_ok now now_presence Hm IH
                 | m now Hm IH
                 | m f m' Hm IH Hcam Hdet Hframe]; intro Hopen.
  - cbn in Hopen. congruence.
  - unfold open_camera in *. destruct camera_ok; apply IH; exact Hopen.
  - unfold close_camera in *. destruct (cap m); apply IH; exact Hopen.
  - unfold start_detection in *.
    destruct (camera_open m); [cbn in Hopen; congruence|].
    destruct camera_ok; [cbn in Hopen; congruence|].
    apply IH. exact Hopen.
  - unfold stop_detection.
    match goal with
    | |- String.eqb (current_status (update_status ?x ?s ?n)) _ = _ =>
      destruct (update_status_fields x s n) as [U _]; rewrite U
    end.
    reflexivity.
  - destruct (process_frame_shape m f m' Hframe) as [m_in [status Hshape]].
    unfold frame_shape in Hshape. cbv zeta in Hshape.
    destruct Hshape as [_ [[Hstart _] [_ [_ [Hstatus _]]]]].
    rewrite Hstatus. destruct (String.eqb_spec status "Active") as [->|]; [|reflexivity].
    exfalso. apply Hopen. rewrite Hstart, handle_active.
    apply (reset_closes m_in (now_reset f)).
Qed.

Lemma existsb_crossed_frames thr t0 (frames : list frame) :
  existsb (fun g => Qleb thr (current_time g - t0)) frames = false <->
  Forall (fun g => current_time g - t0 < thr) frames.
Proof.
  induction frames as [|g rest IH]; cbn [existsb].
  - split; [constructor | reflexivity].
  - rewrite orb_false_iff, IH, Qleb_false. split.
    + intros [H1 H2]. constructor; assumption.
    + intro H. inversion H; subst. split; assumption.
Qed.

(** What a frame that ends with a status other than "Active" does to the
    tracker: [t0] is the start of the window, which the frame opens when it
    finds it closed. *)
Lemma inactive_frame_step m f m' :
  process_frame norm m f = Some m' ->
  String.eqb (current_status m') "Active" = false ->
  let t0 :=
    match inactive_start_time m with
    | Some t => t
    | None => current_time f
    end in
  let fire :=
    Qleb (inactivity_threshold m) (current_time f - t0)
    && negb (emergency_triggered m) in
  inactive_start_time m' = Some t0 /\
  inactivity_threshold m' = inactivity_threshold m /\
  (fire = true ->
   emergency_triggered m' = true /\
   emergencies m' = S (emergencies m) /\
   emergency_wakeup m' = Emergency.trigger_emergency (emergency_wakeup m)) /\
  (fire = false ->
   emergency_triggered m' = emergency_triggered m /\
   emergencies m' = emergencies m /\
   emergency_wakeup m' = emergency_wakeup m).
Proof.
  intros Hframe Hstatus t0 fire.
  destruct (process_frame_shape m f m' Hframe) as [m_in [status Hshape]].
  unfold frame_shape in Hshape. cbv zeta in Hshape.
  destruct Hshape as [[I1 [I2 [I3 [I4 I5]]]] [[O1 [O2 [O3 [O4 [O5 _]]]]]
                     [_ [_ [Hs _]]]]].
  rewrite Hstatus in Hs. symmetry in Hs.
  assert (Hout : exists opened,
             handle_inactivity_tracking m_in status (current_time f) (now_reset f)
             = (if fire
                then speak "User Inactive Too Long"
                           (set_emergency_triggered true (trigger_emergency opened))
                else opened) /\
             inactive_start_time opened = Some t0 /\
             inactivity_threshold opened = inactivity_threshold m /\
             emergency_triggered opened = emergency_triggered m /\
             emergencies opened = emergencies m /\
             emergency_wakeup opened = emergency_wakeup m).
  { subst t0 fire. rewrite <- I1, <- I2, <- I4.
    destruct (inactive_start_time m_in) as [t|] eqn:Estart.
    - exists m_in. rewrite (handle_open m_in t status _ _ Estart Hs).
      repeat split; assumption.
    - exists (set_inactive_start_time (Some (current_time f)) m_in).
      rewrite (handle_closed m_in status _ _ Estart Hs).
      rewrite (handle_open (set_inactive_start_time (Some (current_time f)) m_in)
                           (current_time f) status _ _ eq_refl Hs).
      repeat split; assumption. }
  destruct Hout as [opened [Hout [P1 [P2 [P3 [P4 P5]]]]]].
  rewrite Hout in O1, O2, O3, O4, O5.
  destruct (escalated_fields opened) as [F1 [F2 [F3 [F4 [_ F6]]]]].
  destruct fire.
  - rewrite O1, O2, O3, O4, O5, F1, F2, F3, F4, F6, P1, P2, P4, P5.
    repeat split; discriminate.
  - rewrite O1, O2, O3, O4, O5, P1, P2, P3, P4, P5.
    repeat split; discriminate.
Qed.

(** While the window is open, frames that end with a status other than
    "Active" keep its start; the flag is set once a frame has reached the
    threshold. *)
Lemma run_open pre : forall m t0 later,
  inactive_start_time m = Some t0 ->
  inactive_run norm m (pre ++ later) = true ->
  exists before,
    run norm m pre = Some before /\
    inactive_run norm before later = true /\
    inactive_start_time before = Some t0 /\
    inactivity_threshold before = inactivity_threshold m /\
    emergency_triggered before
    = emergency_triggered m
      || existsb (fun g => Qleb (inactivity_threshold m) (current_time g - t0)) pre.
Proof.
  induction pre as [|f rest IH]; intros m t0 later Hstart Hrun.
  - exists m. cbn. rewrite orb_false_r. auto.
  - cbn [app inactive_run] in Hrun. cbn [run existsb].
    destruct (process_frame norm m f) as [m'|] eqn:Eframe; [|discriminate].
    apply andb_true_iff in Hrun. destruct Hrun as [Hstatus Hrest].
    apply negb_true_iff in Hstatus.
    destruct (inactive_frame_step m f m' Eframe Hstatus) as [S1 [S2 [Sfire Scalm]]].
    rewrite Hstart in S1, Sfire, Scalm.
    destruct (IH m' t0 later S1 Hrest) as [before [R1 [R2 [R3 [R4 R5]]]]].
    exists before. split; [exact R1|]. split; [exact R2|]. split; [exact R3|].
    split; [rewrite R4; exact S2|]. rewrite R5, S2.
    destruct (Qleb (inactivity_threshold m) (current_time f - t0)) eqn:Ecross;
      destruct (emergency_triggered m) eqn:Eflag; cbn [andb negb orb] in *.
    + destruct (Scalm eq_refl) as [-> _]. reflexivity.
    + destruct (Sfire eq_refl) as [-> _]. reflexivity.
    + destruct (Scalm eq_refl) as [-> _]. reflexivity.
    + destruct (Scalm eq_refl) as [-> _]. reflexivity.
Qed.

(** The inactivity tracker inside the frame pipeline.  In a run of frames
    that end with a status other than "Active", entered with the window
    closed and the flag clear, the window starts at the time of the first
    frame, and the frame that raises the emergency is the first one whose
    elapsed time has reached the threshold. *)
Lemma frames_trigger_once m f0 rest :
  inactive_start_time m = None ->
  emergency_triggered m = false ->
  inactive_run norm m (f0 :: rest) = true ->
  forall pre f post,
    f0 :: rest = (pre ++ f :: post)%list ->
    exists before after,
      run norm m pre = Some before /\
      process_frame norm before f = Some after /\
      inactive_start_time after = Some (current_time f0) /\
      let first_crossing :=
        inactivity_threshold m <= current_time f - current_time f0 /\
        Forall (fun g => current_time g - current_time f0 < inactivity_threshold m)
               pre in
      (first_crossing ->
       emergencies after = S (emergencies before) /\
       emergency_wakeup after
       = Emergency.trigger_emergency (emergency_wakeup before) /\
       emergency_triggered before = false /\
       emergency_triggered after = true) /\
      (~ first_crossing ->
       emergencies after = emergencies before /\
       emergency_wakeup after = emergency_wakeup before /\
       emergency_triggered after = emergency_triggered before).
Proof.
  intros Hclosed Hflag Hrun pre f post Hsplit.
  assert (Hstate : exists before,
             run norm m pre = Some before /\
             inactive_run norm before (f :: post) = true /\
             match inactive_start_time before with
             | Some t => t
             | None => current_time f
             end = current_time f0 /\
             inactivity_threshold before = inactivity_threshold m /\
             emergency_triggered before
             = existsb (fun g => Qleb (inactivity_threshold m)
                                      (current_time g - current_time f0)) pre).
  { destruct pre as [|g pre'].
    - cbn in Hsplit. injection Hsplit as <- <-. exists m.
      rewrite Hclosed, Hflag. repeat split. exact Hrun.
    - cbn in Hsplit. injection Hsplit as <- Hrest. rewrite Hrest in Hrun.
      cbn [inactive_run] in Hrun. cbn [run existsb].
      destruct (process_frame norm m f0) as [m1|] eqn:Eframe; [|discriminate].
      apply andb_true_iff in Hrun. destruct Hrun as [Hstatus Hlater].
      apply negb_true_iff in Hstatus.
      destruct (inactive_frame_step m f0 m1 Eframe Hstatus) as [S1 [S2 [Sfire Scalm]]].
      rewrite Hclosed in S1, Sfire, Scalm. rewrite Hflag in Sfire, Scalm.
      cbn [negb] in Sfire, Scalm.
      rewrite andb_true_r in Sfire, Scalm.
      destruct (run_open pre' m1 (current_time f0) (f :: post) S1 Hlater)
        as [before [R1 [R2 [R3 [R4 R5]]]]].
      exists before. split; [exact R1|]. split; [exact R2|].
      split; [rewrite R3; reflexivity|]. split; [rewrite R4; exact S2|].
      rewrite R5, S2.
      destruct (Qleb (inactivity_threshold m) (current_time f0 - current_time f0)).
      + destruct (Sfire eq_refl) as [-> _]. reflexivity.
      + destruct (Scalm eq_refl) as [-> _]. reflexivity. }
  destruct Hstate as [before [Hbefore [Hlater [Ht0 [Hthr Hseen]]]]].
  cbn [inactive_run] in Hlater.
  destruct (process_frame norm before f) as [after|] eqn:Eframe; [|discriminate].
  apply andb_true_iff in Hlater. destruct Hlater as [Hstatus _].
  apply negb_true_iff in Hstatus.
  destruct (inactive_frame_step before f after Eframe Hstatus) as [S1 [_ [Sfire Scalm]]].
  rewrite Ht0 in S1, Sfire, Scalm. rewrite Hthr in Sfire, Scalm.
  exists before, after. split; [exact Hbefore|]. split; [exact Eframe|].
  split; [exact S1|]. cbv zeta.
  destruct (Qleb (inactivity_threshold m) (current_time f - current_time f0))
    eqn:Ecross;
    destruct (emergency_triggered before) eqn:Eflag; cbn [andb negb] in Sfire, Scalm.
  - destruct (Scalm eq_refl) as [C1 [C2 C3]]. split.
    + intros [_ Hnone]. apply existsb_crossed_frames in Hnone. congruence.
    + intros _. auto.
  - destruct (Sfire eq_refl) as [C1 [C2 C3]]. split.
    + intros _. auto.
    + intro Hnot. exfalso. apply Hnot. split.
      * apply Qleb_true. exact Ecross.
      * apply existsb_crossed_frames. symmetry. exact Hseen.
  - destruct (Scalm eq_refl) as [C1 [C2 C3]]. split.
    + intros [Hreach _]. apply Qleb_true in Hreach. congruence.
    + intros _. auto.
  - destruct (Scalm eq_refl) as [C1 [C2 C3]]. split.
    + intros [Hreach _]. apply Qleb_true in Hreach. congruence.
    + intros _. auto.
Qed.

End PipelineFacts.

(** C2.  Let a frame find the window open since [t0] and end with the status
    "Active".  Within that frame the log receives the row "Active", "User
    returned to active state after ...", whose duration is the reading of the
    clock in [reset_inactivity_tracking] minus [t0] and whose EAR and MAR are
    the monitor's current values: on a frame with a face, the values
    [calculate_ear] and [calculate_mar] return for this frame's landmarks;
    on a frame without a face, the values the monitor held before.  "User
    Active Again" is spoken; the window is closed, [emergency_triggered] is
    cleared and the escalator is idle when the frame returns. *)
Theorem C2_return_to_active :
  forall (norm : point -> point -> Q) (m m' : Monitor.AttentivenessMonitor)
         (f : Monitor.frame) (t0 : Q),
    Monitor.reachable norm m ->
    Monitor.inactive_start_time m = Some t0 ->
    Monitor.process_frame norm m f = Some m' ->
    Monitor.current_status m' = "Active" ->
    let total := Monitor.now_reset f - t0 in
    (exists more,
        Logger.rows (Monitor.activity_logger m')
        = (Logger.rows (Monitor.activity_logger m)
           ++ Logger.mk_row "Active" (Logger.ReturnedToActive total) 0
                            (Monitor.last_ear m') (Monitor.last_mar m')
                            (Some total)
           :: more)%list) /\
    (exists more,
        Monitor.spoken m'
        = (Monitor.spoken m ++ "User Active Again" :: more)%list) /\
    (Monitor.mesh_faces f = 0%nat \/
     Monitor.last_ear m'
     = snd (calculate_ear norm (Monitor.eye_tracker m) (Monitor.landmarks f) None)) /\
    (Monitor.mesh_faces f = 0%nat \/
     Monitor.last_mar m'
     = snd (calculate_mar norm (Monitor.yawn_detector m) (Monitor.landmarks f))) /\
    (Monitor.mesh_faces f = 0%nat ->
     Monitor.last_ear m' = Monitor.last_ear m /\
     Monitor.last_mar m' = Monitor.last_mar m) /\
    Monitor.inactive_start_time m' = None /\
    Monitor.emergency_triggered m' = false /\
    Emergency.is_emergency_active (Monitor.emergency_wakeup m') = false.
Proof.
  intros norm m m' f t0 Hreach Hopen Hframe Hactive total.
  assert (Hshown : String.eqb (Monitor.current_status m) "Active" = false)
    by (apply (window_open_not_active norm m Hreach); congruence).
  destruct (process_frame_shape norm m f m' Hframe) as [m_in [status Hshape]].
  unfold Monitor.frame_shape in Hshape. cbv zeta in Hshape.
  destruct Hshape as [[I1 _] [[O1 [O2 [O3 [_ [_ [O4 O5]]]]]] [[rows' Hrows]
                     [[spoken' Hspoken] [Hstatus Hin]]]]].
  rewrite Hactive in Hstatus. cbn in Hstatus. symmetry in Hstatus.
  destruct (Hin Hstatus) as [C1 [C2 [C3 C4]]].
  apply String.eqb_eq in Hstatus. subst status.
  rewrite handle_active in *.
  destruct (reset_returns m_in (Monitor.now_reset f) t0) as [R1 [R2 _]];
    [congruence | congruence |].
  destruct (reset_closes m_in (Monitor.now_reset f)) as [Z1 [Z2 Z3]].
  split; [|split; [|split; [|split; [|split; [|split; [|split]]]]]].
  - exists rows'. rewrite Hrows, R1, C2, O4, O5, <- app_assoc. reflexivity.
  - exists spoken'. rewrite Hspoken, R2, C3, <- app_assoc. reflexivity.
  - destruct C4 as [[C4 _]|[_ [C4 _]]];
      [left; exact C4 | right; rewrite O4; exact C4].
  - destruct C4 as [[C4 _]|[_ [_ C4]]];
      [left; exact C4 | right; rewrite O5; exact C4].
  - intro Hnone. destruct C4 as [[_ [C4 C5]]|[C4 _]]; [|contradiction].
    rewrite O4, O5. split; assumption.
  - rewrite O1. exact Z1.
  - rewrite O2. exact Z2.
  - rewrite O3. exact Z3.
Qed.

(** ** Smoothing windows *)

Lemma length_last_n {A : Type} (n : nat) (l : list A) :
  List.length (last_n n l) = Nat.min (List.length l) n.
Proof. unfold last_n. rewrite length_skipn. lia. Qed.

Lemma tl_skipn {A : Type} (n : nat) (l : list A) :
  tl (skipn n l) = skipn (S n) l.
Proof.
  revert l. induction n as [|n IH]; intros [|x l]; try reflexivity.
  cbn [skipn]. rewrite IH. destruct l; reflexivity.
Qed.

(** Appending to a full window and dropping its oldest value keeps the last
    [window] values of everything appended so far. *)
Lemma push_last_n (window : nat) (l : list Q) (x : Q) :
  (0 < window)%nat ->
  push window (last_n window l) x = last_n window (l ++ [x]).
Proof.
  intro Hw. unfold push, last_n. rewrite length_app, length_app, length_skipn.
  cbn [List.length].
  destruct (Nat.ltb_spec window (List.length l - (List.length l - window) + 1))
    as [Hfull|Hroom].
  - assert (Hlen : (window <= List.length l)%nat) by lia.
    replace (List.length l + 1 - window)%nat
      with (S (List.length l - window)) by lia.
    rewrite skipn_app.
    replace (S (List.length l - window) - List.length l)%nat with 0%nat by lia.
    change (skipn 0 [x]) with [x]. rewrite <- tl_skipn.
    destruct (skipn (List.length l - window) l) as [|y ys] eqn:E; [|reflexivity].
    apply (f_equal (@List.length Q)) in E. rewrite length_skipn in E.
    cbn in E. lia.
  - replace (List.length l - window)%nat with 0%nat by lia.
    replace (List.length l + 1 - window)%nat with 0%nat by lia.
    reflexivity.
Qed.

Lemma inject_length_succ {A : Type} (x : A) (l : list A) :
  inject_Z (Z.of_nat (List.length (x :: l)))
  == inject_Z (Z.of_nat (List.length l)) + 1.
Proof.
  cbn [List.length]. rewrite Nat2Z.inj_succ, <- Z.add_1_r, inject_Z_plus.
  reflexivity.
Qed.

Lemma sum_bounds (lo hi : Q) (l : list Q) : forall acc,
  Forall (fun x => lo <= x /\ x <= hi) l ->
  acc + lo * inject_Z (Z.of_nat (List.length l)) <= fold_left Qplus l acc /\
  fold_left Qplus l acc <= acc + hi * inject_Z (Z.of_nat (List.length l)).
Proof.
  induction l as [|x l IH]; intros acc Hall.
  - cbn [fold_left List.length]. change (inject_Z (Z.of_nat 0)) with 0.
    split; lra.
  - inversion Hall as [|? ? [Hlo Hhi] Hrest]; subst.
    cbn [fold_left]. destruct (IH (acc + x) Hrest) as [IHlo IHhi].
    rewrite (inject_length_succ x l). split; lra.
Qed.

Lemma sum_lower (lo : Q) (l : list Q) : forall acc,
  Forall (fun x => lo <= x) l ->
  acc + lo * inject_Z (Z.of_nat (List.length l)) <= fold_left Qplus l acc.
Proof.
  induction l as [|x l IH]; intros acc Hall.
  - cbn [fold_left List.length]. change (inject_Z (Z.of_nat 0)) with 0. lra.
  - inversion Hall as [|? ? Hlo Hrest]; subst.
    cbn [fold_left]. pose proof (IH (acc + x) Hrest) as IHlo.
    rewrite (inject_length_succ x l). lra.
Qed.

Lemma length_positive {A : Type} (l : list A) :
  l <> [] -> 0 < inject_Z (Z.of_nat (List.length l)).
Proof.
  intro H. destruct l as [|x l]; [congruence|].
  change 0 with (inject_Z 0). rewrite <- Zlt_Qlt. cbn [List.length]. lia.
Qed.

(** The mean of a window lies between any bounds of its values. *)
Lemma mean_bounds (lo hi : Q) (l : list Q) :
  l <> [] ->
  Forall (fun x => lo <= x /\ x <= hi) l ->
  lo <= mean l /\ mean l <= hi.
Proof.
  intros Hne Hall. unfold mean.
  pose proof (length_positive l Hne) as Hpos.
  destruct (sum_bounds lo hi l 0 Hall) as [Hlo Hhi]. split.
  - apply Qle_shift_div_l; [exact Hpos | lra].
  - apply Qle_shift_div_r; [exact Hpos | lra].
Qed.

Lemma mean_lower (lo : Q) (l : list Q) :
  l <> [] ->
  Forall (fun x => lo <= x) l ->
  lo <= mean l.
Proof.
  intros Hne Hall. unfold mean.
  pose proof (length_positive l Hne) as Hpos.
  pose proof (sum_lower lo l 0 Hall) as Hlo.
  apply Qle_shift_div_l; [exact Hpos | lra].
Qed.

Lemma push_not_nil (window : nat) (l : list Q) (x : Q) :
  (0 < window)%nat -> push window l x <> [].
Proof.
  intros Hw H. apply (f_equal (@List.length Q)) in H. unfold push in H.
  destruct (Nat.ltb_spec window (List.length (l ++ [x]))) as [Hfull|Hroom].
  - destruct (l ++ [x])%list as [|y ys] eqn:E; [cbn in Hfull; lia|].
    cbn in H, Hfull. lia.
  - rewrite length_app in H. cbn in H. lia.
Qed.

Lemma Forall_push (P : Q -> Prop) (window : nat) (l : list Q) (x : Q) :
  Forall P l -> P x -> Forall P (push window l x).
Proof.
  intros Hl Hx. unfold push.
  assert (H : Forall P (l ++ [x])) by (apply Forall_app; auto).
  destruct (window <? _)%nat; [|exact H].
  destruct (l ++ [x])%list; [exact H|]. inversion H; assumption.
Qed.

(** ** The extractors *)

Section ExtractorFacts.

Variable norm : point -> point -> Q.

Lemma clamp_unit (x : Q) : 0 <= Qmax 0.0 (Qmin 1.0 x) /\ Qmax 0.0 (Qmin 1.0 x) <= 1.
Proof.
  split.
  - apply Q.max_le_iff. left. apply Qle_bool_imp_le. reflexivity.
  - apply Q.max_lub.
    + apply Qle_bool_imp_le. reflexivity.
    + eapply Qle_trans; [apply Q.le_min_l|]. apply Qle_bool_imp_le. reflexivity.
Qed.

Lemma single_eye_unit self landmarks eye_points :
  0 <= eye_last_ear self /\ eye_last_ear self <= 1 ->
  0 <= _calculate_single_eye_ear norm self landmarks eye_points /\
  _calculate_single_eye_ear norm self landmarks eye_points <= 1.
Proof.
  intro Hlast.
  assert (Hdefault : 0 <= 0.25 /\ 0.25 <= 1)
    by (split; apply Qle_bool_imp_le; reflexivity).
  unfold _calculate_single_eye_ear.
  destruct (gather landmarks eye_points) as [eye_coords|]; [|exact Hdefault].
  destruct (List.length eye_coords <? 6)%nat; [exact Hdefault|].
  unfold single_eye_ratio.
  destruct (nth_error eye_coords 0); [|exact Hdefault].
  destruct (nth_error eye_coords 1); [|exact Hdefault].
  destruct (nth_error eye_coords 2); [|exact Hdefault].
  destruct (nth_error eye_coords 3); [|exact Hdefault].
  destruct (nth_error eye_coords 4); [|exact Hdefault].
  destruct (nth_error eye_coords 5); [|exact Hdefault].
  destruct (Qltb 0.5 _); [apply clamp_unit | exact Hlast].
Qed.

Lemma single_eye_nonneg self landmarks eye_points :
  0 <= eye_last_ear self ->
  0 <= _calculate_single_eye_ear norm self landmarks eye_points.
Proof.
  intro Hlast.
  assert (Hdefault : 0 <= 0.25) by (apply Qle_bool_imp_le; reflexivity).
  unfold _calculate_single_eye_ear.
  destruct (gather landmarks eye_points) as [eye_coords|]; [|exact Hdefault].
  destruct (List.length eye_coords <? 6)%nat; [exact Hdefault|].
  unfold single_eye_ratio.
  destruct (nth_error eye_coords 0); [|exact Hdefault].
  destruct (nth_error eye_coords 1); [|exact Hdefault].
  destruct (nth_error eye_coords 2); [|exact Hdefault].
  destruct (nth_error eye_coords 3); [|exact Hdefault].
  destruct (nth_error eye_coords 4); [|exact Hdefault].
  destruct (nth_error eye_coords 5); [|exact Hdefault].
  destruct (Qltb 0.5 _); [apply clamp_unit | exact Hlast].
Qed.

Lemma compensate_nonneg ear head_pose_data :
  0 <= ear -> 0 <= _compensate_for_head_pose ear head_pose_data.
Proof.
  intro H. unfold _compensate_for_head_pose.
  assert (H1 : 0 <= ear * 1.1) by (apply Qmult_le_0_compat; [exact H | discriminate]).
  assert (H2 : 0 <= ear * 0.95) by (apply Qmult_le_0_compat; [exact H | discriminate]).
  destruct (Qltb 10 _); [|destruct (Qltb _ (-10))];
    (destruct (Qltb 20 _); [apply Qmult_le_0_compat; [assumption | discriminate]
                           | assumption]).
Qed.

Lemma half_unit (l r : Q) :
  0 <= l /\ l <= 1 -> 0 <= r /\ r <= 1 ->
  0 <= (l + r) / 2.0 /\ (l + r) / 2.0 <= 1.
Proof.
  intros [Hl0 Hl1] [Hr0 Hr1]. split.
  - apply Qle_shift_div_l; [reflexivity | lra].
  - apply Qle_shift_div_r; [reflexivity | lra].
Qed.

Lemma half_nonneg (l r : Q) : 0 <= l -> 0 <= r -> 0 <= (l + r) / 2.0.
Proof.
  intros Hl Hr. apply Qle_shift_div_l; [reflexivity | lra].
Qed.

Lemma ear_sample_nonneg self landmarks head_pose_data :
  0 <= eye_last_ear self ->
  0 <= ear_sample norm self landmarks head_pose_data.
Proof.
  intro Hlast. unfold ear_sample.
  pose proof (half_nonneg _ _
                (single_eye_nonneg self landmarks (left_eye_points self) Hlast)
                (single_eye_nonneg self landmarks (right_eye_points self) Hlast))
    as Hhalf.
  destruct head_pose_data as [[|kv more]|]; try exact Hhalf.
  apply compensate_nonneg. exact Hhalf.
Qed.

Lemma ear_sample_unit self landmarks head_pose_data :
  0 <= eye_last_ear self /\ eye_last_ear self <= 1 ->
  uncompensated head_pose_data = true ->
  0 <= ear_sample norm self landmarks head_pose_data /\
  ear_sample norm self landmarks head_pose_data <= 1.
Proof.
  intros Hlast Hplain. unfold ear_sample.
  pose proof (half_unit _ _
                (single_eye_unit self landmarks (left_eye_points self) Hlast)
                (single_eye_unit self landmarks (right_eye_points self) Hlast))
    as Hhalf.
  destruct head_pose_data as [[|kv more]|]; try exact Hhalf. discriminate.
Qed.

(** The window of [ear_feed] holds the last 8 samples. *)
Lemma ear_feed_window frames : forall self earlier,
  ear_history self = last_n 8 earlier ->
  ear_history (ear_feed norm self frames)
  = last_n 8 (earlier ++ ear_samples norm self frames).
Proof.
  induction frames as [|[landmarks pose] rest IH]; intros self earlier H.
  - cbn. rewrite app_nil_r. exact H.
  - cbn [ear_feed ear_samples].
    rewrite (IH _ (earlier ++ [ear_sample norm self landmarks pose])%list).
    + rewrite <- app_assoc. reflexivity.
    + cbn. rewrite H. apply push_last_n. lia.
Qed.

Lemma ear_samples_app self pre landmarks pose :
  ear_samples norm self (pre ++ [(landmarks, pose)])
  = (ear_samples norm self pre
     ++ [ear_sample norm (ear_feed norm self pre) landmarks pose])%list.
Proof.
  revert self. induction pre as [|[l p] rest IH]; intro self; [reflexivity|].
  cbn [app ear_samples ear_feed]. rewrite IH. reflexivity.
Qed.

Lemma length_ear_samples self frames :
  List.length (ear_samples norm self frames) = List.length frames.
Proof.
  revert self. induction frames as [|[l p] rest IH]; intro self; [reflexivity|].
  cbn [ear_samples List.length]. rewrite IH. reflexivity.
Qed.

Lemma ear_feed_nonneg frames : forall self,
  0 <= eye_last_ear self ->
  Forall (fun x => 0 <= x) (ear_history self) ->
  0 <= eye_last_ear (ear_feed norm self frames) /\
  Forall (fun x => 0 <= x) (ear_history (ear_feed norm self frames)).
Proof.
  induction frames as [|[landmarks pose] rest IH]; intros self Hlast Hhist;
    [split; assumption|].
  cbn [ear_feed]. apply IH; cbn.
  - apply mean_lower; [apply push_not_nil; lia|].
    apply Forall_push; [exact Hhist | apply ear_sample_nonneg; exact Hlast].
  - apply Forall_push; [exact Hhist | apply ear_sample_nonneg; exact Hlast].
Qed.

Lemma ear_feed_unit frames : forall self,
  0 <= eye_last_ear self /\ eye_last_ear self <= 1 ->
  Forall (fun x => 0 <= x /\ x <= 1) (ear_history self) ->
  Forall (fun fr => uncompensated (snd fr) = true) frames ->
  (0 <= eye_last_ear (ear_feed norm self frames) /\
   eye_last_ear (ear_feed norm self frames) <= 1) /\
  Forall (fun x => 0 <= x /\ x <= 1) (ear_history (ear_feed norm self frames)).
Proof.
  induction frames as [|[landmarks pose] rest IH]; intros self Hlast Hhist Hplain;
    [split; assumption|].
  inversion Hplain as [|? ? Hp Hrest]; subst. cbn [snd] in Hp.
  cbn [ear_feed]. apply IH; cbn; [| |exact Hrest].
  - apply mean_bounds; [apply push_not_nil; lia|].
    apply Forall_push; [exact Hhist | apply ear_sample_unit; assumption].
  - apply Forall_push; [exact Hhist | apply ear_sample_unit; assumption].
Qed.

End ExtractorFacts.

Section MouthFacts.

Variable norm : point -> point -> Q.
Hypothesis norm_nonneg : forall a b, 0 <= norm a b.

Lemma mar_sample_nonneg self mouth_coords mar :
  0 <= yawn_last_mar self ->
  mar_sample norm self mouth_coords = Some mar ->
  0 <= mar.
Proof.
  intros Hlast. unfold mar_sample.
  destruct (nth_error mouth_coords 0) as [p0|]; [|discriminate].
  destruct (nth_error mouth_coords 1) as [p1|]; [|discriminate].
  destruct (nth_error mouth_coords 2) as [p2|]; [|discriminate].
  destruct (nth_error mouth_coords 3) as [p3|]; [|discriminate].
  destruct (nth_error mouth_coords 4) as [p4|]; [|discriminate].
  destruct (nth_error mouth_coords 5) as [p5|]; [|discriminate].
  destruct (Qltb 1.0 (norm p2 p3)) eqn:Ewide; intro H; injection H as <-;
    [|exact Hlast].
  apply Qltb_true in Ewide.
  pose proof (norm_nonneg p0 p4). pose proof (norm_nonneg p1 p5).
  apply Qle_shift_div_l; lra.
Qed.

Lemma mar_appended_nonneg self landmarks mar :
  0 <= yawn_last_mar self ->
  mar_appended norm self landmarks = Some mar ->
  0 <= mar.
Proof.
  intros Hlast. unfold mar_appended.
  destruct (gather landmarks (mouth_points self)) as [coords|]; [|discriminate].
  destruct (List.length coords <? 6)%nat; [discriminate|].
  apply mar_sample_nonneg. exact Hlast.
Qed.

(** The two outcomes of [calculate_mar]. *)
Lemma calculate_mar_appends self landmarks mar :
  mar_appended norm self landmarks = Some mar ->
  calculate_mar norm self landmarks
  = (mk_yawn (mouth_points self) (push 10 (mar_history self) mar)
             (mean (push 10 (mar_history self) mar)),
     mean (push 10 (mar_history self) mar)).
Proof.
  unfold mar_appended, calculate_mar.
  destruct (gather landmarks (mouth_points self)) as [coords|]; [|discriminate].
  destruct (List.length coords <? 6)%nat; [discriminate|].
  intros ->. reflexivity.
Qed.

Lemma calculate_mar_skips self landmarks :
  mar_appended norm self landmarks = None ->
  calculate_mar norm self landmarks = (self, yawn_last_mar self).
Proof.
  unfold mar_appended, calculate_mar.
  destruct (gather landmarks (mouth_points self)) as [coords|]; [|reflexivity].
  destruct (List.length coords <? 6)%nat; [reflexivity|].
  intros ->. reflexivity.
Qed.

Lemma calculate_mar_points self landmarks :
  mouth_points (fst (calculate_mar norm self landmarks)) = mouth_points self.
Proof.
  destruct (mar_appended norm self landmarks) as [mar|] eqn:E.
  - rewrite (calculate_mar_appends self landmarks mar E). reflexivity.
  - rewrite (calculate_mar_skips self landmarks E). reflexivity.
Qed.

Lemma gather_all landmarks points :
  forallb (fun point_idx => (point_idx <? List.length landmarks)%nat) points = true ->
  exists coords,
    gather landmarks points = Some coords /\
    List.length coords = List.length points.
Proof.
  induction points as [|i rest IH]; intro H.
  - exists []. split; reflexivity.
  - cbn [forallb] in H. apply andb_true_iff in H. destruct H as [Hi Hrest].
    destruct (IH Hrest) as [coords [Hg Hlen]].
    cbn [gather]. rewrite Hi, Hg.
    destruct (nth_error landmarks i) as [p|] eqn:Ep.
    + exists (p :: coords). split; [reflexivity | cbn; congruence].
    + apply nth_error_None in Ep. apply Nat.ltb_lt in Hi. lia.
Qed.

(** On a valid frame a detector with the mouth model of [yawn_init]
    appends a sample. *)
Lemma valid_frame_appends self landmarks :
  mouth_points self = mouth_points yawn_init ->
  valid_landmarks landmarks = true ->
  exists mar, mar_appended norm self landmarks = Some mar.
Proof.
  intros Hpoints Hvalid. unfold valid_landmarks, required_points in Hvalid.
  rewrite !forallb_app in Hvalid.
  apply andb_true_iff in Hvalid. destruct Hvalid as [_ Hvalid].
  apply andb_true_iff in Hvalid. destruct Hvalid as [_ Hmouth].
  destruct (gather_all landmarks _ Hmouth) as [coords [Hg Hlen]].
  unfold mar_appended. rewrite Hpoints, Hg.
  destruct coords as [|p0 [|p1 [|p2 [|p3 [|p4 [|p5 [|p6 more]]]]]]];
    try discriminate Hlen.
  cbn. destruct (Qltb 1.0 (norm p2 p3)); eexists; reflexivity.
Qed.

Lemma mar_feed_window frames : forall self earlier,
  mar_history self = last_n 10 earlier ->
  mar_history (mar_feed norm self frames)
  = last_n 10 (earlier ++ mar_samples norm self frames).
Proof.
  induction frames as [|landmarks rest IH]; intros self earlier H.
  - cbn. rewrite app_nil_r. exact H.
  - cbn [mar_feed mar_samples].
    destruct (mar_appended norm self landmarks) as [mar|] eqn:E.
    + rewrite (calculate_mar_appends self landmarks mar E). cbn [fst].
      rewrite (IH _ (earlier ++ [mar])%list).
      * rewrite <- app_assoc. reflexivity.
      * cbn. rewrite H. apply push_last_n. lia.
    + rewrite (calculate_mar_skips self landmarks E). cbn [fst].
      apply IH. exact H.
Qed.

Lemma mar_feed_points frames : forall self,
  mouth_points (mar_feed norm self frames) = mouth_points self.
Proof.
  induction frames as [|landmarks rest IH]; intro self; [reflexivity|].
  cbn [mar_feed]. rewrite IH. apply calculate_mar_points.
Qed.

Lemma mar_samples_app self pre landmarks :
  mar_samples norm self (pre ++ [landmarks])
  = (mar_samples norm self pre
     ++ match mar_appended norm (mar_feed norm self pre) landmarks with
        | Some mar => [mar]
        | None => []
        end)%list.
Proof.
  revert self. induction pre as [|l rest IH]; intro self.
  - cbn. destruct (mar_appended norm self landmarks); reflexivity.
  - cbn [app mar_samples mar_feed]. rewrite IH.
    destruct (mar_appended norm self l); reflexivity.
Qed.

Lemma length_mar_samples frames : forall self,
  mouth_points self = mouth_points yawn_init ->
  Forall (fun landmarks => valid_landmarks landmarks = true) frames ->
  List.length (mar_samples norm self frames) = List.length frames.
Proof.
  induction frames as [|landmarks rest IH]; intros self Hpoints Hvalid;
    [reflexivity|].
  inversion Hvalid as [|? ? Hv Hrest]; subst.
  destruct (valid_frame_appends self landmarks Hpoints Hv) as [mar E].
  cbn [mar_samples]. rewrite E. cbn [List.length]. rewrite IH; auto.
  rewrite calculate_mar_points. exact Hpoints.
Qed.

Lemma mar_feed_nonneg frames : forall self,
  0 <= yawn_last_mar self ->
  Forall (fun x => 0 <= x) (mar_history self) ->
  0 <= yawn_last_mar (mar_feed norm self frames) /\
  Forall (fun x => 0 <= x) (mar_history (mar_feed norm self frames)).
Proof.
  induction frames as [|landmarks rest IH]; intros self Hlast Hhist;
    [split; assumption|].
  cbn [mar_feed].
  destruct (mar_appended norm self landmarks) as [mar|] eqn:E.
  - rewrite (calculate_mar_appends self landmarks mar E). cbn [fst].
    pose proof (mar_appended_nonneg self landmarks mar Hlast E) as Hmar.
    apply IH; cbn.
    + apply mean_lower; [apply push_not_nil; lia|].
      apply Forall_push; assumption.
    + apply Forall_push; assumption.
  - rewrite (calculate_mar_skips self landmarks E). cbn [fst].
    apply IH; assumption.
Qed.

End MouthFacts.

Lemma pixel_norm_nonneg (a b : point) : 0 <= pixel_norm a b.
Proof.
  unfold pixel_norm, Qle. cbn [Qnum Qden].
  rewrite Z.mul_0_l, Z.mul_1_r. apply Z.sqrt_nonneg.
Qed.

(** C5 as the specification states it fails: with head-pose compensation the
    returned EAR can leave [0,1].  On a fresh tracker, a valid frame whose
    two eye ratios are clamped to 1 and a pitch of 15 degrees give 1.1. *)
Lemma C5_compensated_ear_exceeds_one :
  valid_landmarks (face 40 8) = true /\
  snd (calculate_ear pixel_norm eye_init (face 40 8) (Some [("pitch", 15)])) == 1.1 /\
  ~ (snd (calculate_ear pixel_norm eye_init (face 40 8) (Some [("pitch", 15)])) <= 1).
Proof.
  split; [vm_compute; reflexivity|]. split.
  - vm_compute. reflexivity.
  - intro H. apply Qle_bool_iff in H. vm_compute in H. discriminate.
Qed.

(** C5, amended.  On valid landmark frames fed to fresh extractors, the EAR
    returned at the k-th frame is the arithmetic mean of the last min(k, 8)
    samples appended to the window (each the mean of the two eye ratios,
    after head-pose compensation when head-pose data is passed) and is not
    negative; it is at most 1 when no frame so far carried head-pose data.
    The MAR returned at the k-th frame is the arithmetic mean of the last
    min(k, 10) samples and is not negative. *)
Theorem C5_trailing_means :
  forall (norm : point -> point -> Q)
         (pre : list (list point * option (list (string * Q))))
         (landmarks : list point) (pose : option (list (string * Q))),
    (forall a b, 0 <= norm a b) ->
    Forall (fun fr => valid_landmarks (fst fr) = true) (pre ++ [(landmarks, pose)]) ->
    let frames := (pre ++ [(landmarks, pose)])%list in
    let k := List.length frames in
    let ear := snd (calculate_ear norm (ear_feed norm eye_init pre) landmarks pose) in
    let mar :=
      snd (calculate_mar norm (mar_feed norm yawn_init (map fst pre)) landmarks) in
    let ears := ear_samples norm eye_init frames in
    let mars := mar_samples norm yawn_init (map fst frames) in
    (List.length ears = k /\
     ear = mean (last_n 8 ears) /\
     List.length (last_n 8 ears) = Nat.min k 8 /\
     0 <= ear /\
     (Forall (fun fr => uncompensated (snd fr) = true) frames -> ear <= 1)) /\
    (List.length mars = k /\
     mar = mean (last_n 10 mars) /\
     List.length (last_n 10 mars) = Nat.min k 10 /\
     0 <= mar).
Proof.
  intros norm pre landmarks pose Hnorm Hvalid frames k ear mar ears mars.
  assert (Hlast0 : 0 <= eye_last_ear eye_init /\ eye_last_ear eye_init <= 1)
    by (split; apply Qle_bool_imp_le; reflexivity).
  assert (Hwindow : ear_history (ear_feed norm eye_init pre)
                    = last_n 8 (ear_samples norm eye_init pre))
    by (apply (ear_feed_window norm pre eye_init []); reflexivity).
  assert (Hear : ear = mean (last_n 8 ears)).
  { subst ear ears frames. rewrite ear_samples_app. cbn [calculate_ear snd].
    rewrite Hwindow, push_last_n by lia. reflexivity. }
  split.
  - assert (Hk : List.length ears = k) by apply length_ear_samples.
    split; [exact Hk|]. split; [exact Hear|].
    split; [rewrite length_last_n, Hk; reflexivity|].
    destruct (ear_feed_nonneg norm pre eye_init (proj1 Hlast0) (Forall_nil _))
      as [Hl Hh].
    split.
    + subst ear. cbn [calculate_ear snd].
      apply mean_lower; [apply push_not_nil; lia|].
      apply Forall_push; [exact Hh | apply ear_sample_nonneg; exact Hl].
    + intro Hplain. subst frames. apply Forall_app in Hplain.
      destruct Hplain as [Hpre Hfr]. inversion Hfr as [|? ? Hp _]; subst.
      cbn [snd] in Hp.
      destruct (ear_feed_unit norm pre eye_init Hlast0 (Forall_nil _) Hpre)
        as [Hl1 Hh1].
      subst ear. cbn [calculate_ear snd].
      apply (mean_bounds 0 1); [apply push_not_nil; lia|].
      apply Forall_push; [exact Hh1 | apply ear_sample_unit; assumption].
  - assert (Hvalid' : Forall (fun l => valid_landmarks l = true) (map fst frames))
      by (rewrite Forall_map; exact Hvalid).
    assert (Hk : List.length mars = k).
    { subst mars k. rewrite (length_mar_samples norm _ yawn_init eq_refl Hvalid').
      apply length_map. }
    assert (Hv : valid_landmarks landmarks = true).
    { apply Forall_app in Hvalid. destruct Hvalid as [_ Hfr].
      inversion Hfr; subst. assumption. }
    set (yawn := mar_feed norm yawn_init (map fst pre)) in *.
    assert (Hpoints : mouth_points yawn = mouth_points yawn_init)
      by apply mar_feed_points.
    destruct (valid_frame_appends norm yawn landmarks Hpoints Hv) as [sample E].
    assert (Hwindow' : mar_history yawn
                       = last_n 10 (mar_samples norm yawn_init (map fst pre)))
      by (apply (mar_feed_window norm (map fst pre) yawn_init []); reflexivity).
    assert (Last0 : 0 <= yawn_last_mar yawn_init)
      by (apply Qle_bool_imp_le; reflexivity).
    destruct (mar_feed_nonneg norm Hnorm (map fst pre) yawn_init Last0 (Forall_nil _))
      as [Hl Hh]. fold yawn in Hl, Hh.
    assert (Hmar : mar = mean (push 10 (mar_history yawn) sample)).
    { subst mar. rewrite (calculate_mar_appends norm yawn landmarks sample E).
      reflexivity. }
    split; [exact Hk|]. split.
    + rewrite Hmar. subst mars frames. rewrite map_app. cbn [map fst].
      rewrite mar_samples_app. fold yawn. rewrite E, Hwindow', push_last_n by lia.
      reflexivity.
    + split; [rewrite length_last_n, Hk; reflexivity|].
      rewrite Hmar. apply mean_lower; [apply push_not_nil; lia|].
      apply Forall_push; [exact Hh|].
      apply (mar_appended_nonneg norm Hnorm yawn landmarks sample Hl E).
Qed.

Lemma C5_trailing_means_witness :
  let pre := [(face 6 8, None); (face 5 8, None)] in
  let frames := (pre ++ [(face 3 20, None)])%list in
  (forall a b, 0 <= pixel_norm a b) /\
  Forall (fun fr => valid_landmarks (fst fr) = true) frames /\
  Forall (fun fr => uncompensated (snd fr) = true) frames /\
  snd (calculate_ear pixel_norm (ear_feed pixel_norm eye_init pre) (face 3 20) None)
  = mean (last_n 8 (ear_samples pixel_norm eye_init frames)) /\
  snd (calculate_ear pixel_norm (ear_feed pixel_norm eye_init pre) (face 3 20) None)
  <= 1.
Proof.
  intros pre frames.
  assert (Hvalid : Forall (fun fr => valid_landmarks (fst fr) = true) frames)
    by (repeat constructor).
  assert (Hplain : Forall (fun fr => uncompensated (snd fr) = true) frames)
    by (repeat constructor).
  split; [exact pixel_norm_nonneg|]. split; [exact Hvalid|]. split; [exact Hplain|].
  destruct (C5_trailing_means pixel_norm pre (face 3 20) None
                              pixel_norm_nonneg Hvalid)
    as [[_ [Hmean [_ [_ Hunit]]]] _].
  split; [exact Hmean | exact (Hunit Hplain)].
Defined.

(** Three frames with eye ratios 0.3, 0.25 and 0.15: the returned EAR values
    are the running means. *)
Example ear_running_means :
  let e1 := calculate_ear pixel_norm eye_init (face 6 8) None in
  let e2 := calculate_ear pixel_norm (fst e1) (face 5 8) None in
  let e3 := calculate_ear pixel_norm (fst e2) (face 3 8) None in
  snd e1 == 0.3 /\ snd e2 == 0.275 /\ snd e3 == (0.3 + 0.25 + 0.15) / 3.
Proof. cbv zeta. repeat split; vm_compute; reflexivity. Qed.

(** ** Missing landmarks *)

Lemma gather_missing landmarks points idx :
  In idx points ->
  (List.length landmarks <= idx)%nat ->
  gather landmarks points = None.
Proof.
  intros Hin Hshort. induction points as [|i rest IH]; [contradiction|].
  cbn [gather]. destruct (Nat.ltb_spec i (List.length landmarks)) as [Hi|Hi];
    [|reflexivity].
  destruct Hin as [->|Hin]; [lia|]. rewrite (IH Hin).
  destruct (nth_error landmarks i); reflexivity.
Qed.

(** C6 as the specification states it fails for the eye extractor.  After a
    valid frame has left the smoothed EAR at 0.4, a frame that stops at
    landmark 299 (so that the right eye and one mouth corner are missing)
    makes [calculate_ear] append a sample and return 0.3625, not the last
    known 0.4; [calculate_mar] does return its last value. *)
Lemma C6_missing_eye_landmark_not_last_value :
  let eye := fst (calculate_ear pixel_norm eye_init (face 8 8) None) in
  let yawn := fst (calculate_mar pixel_norm yawn_init (face 8 8)) in
  let cut := firstn 300 (face 8 8) in
  In 362%nat (right_eye_points eye) /\
  (List.length cut <= 362)%nat /\
  eye_last_ear eye == 0.4 /\
  snd (calculate_ear pixel_norm eye cut None) == 0.3625 /\
  ~ (snd (calculate_ear pixel_norm eye cut None) == eye_last_ear eye) /\
  List.length (ear_history (fst (calculate_ear pixel_norm eye cut None))) = 2%nat /\
  snd (calculate_mar pixel_norm yawn cut) = yawn_last_mar yawn.
Proof.
  cbv zeta. split; [cbn; tauto|].
  split; [apply Nat.leb_le; vm_compute; reflexivity|].
  split; [vm_compute; reflexivity|]. split; [vm_compute; reflexivity|].
  split; [|split; vm_compute; reflexivity].
  intro H. apply Qeq_bool_iff in H. vm_compute in H. discriminate.
Qed.

(** C6, amended.  Neither extractor raises on a landmark sequence that
    misses a required index.  [calculate_mar] returns the last smoothed MAR
    and leaves the detector as it was.  [calculate_ear] takes the default
    0.25 as the ratio of each eye with a missing index, appends the mean of
    the two eye ratios to its window and returns the new window mean. *)
Theorem C6_missing_landmarks :
  forall (norm : point -> point -> Q) (landmarks : list point),
    (forall (yawn : YawnDetector) (idx : nat),
        In idx (mouth_points yawn) ->
        (List.length landmarks <= idx)%nat ->
        calculate_mar norm yawn landmarks = (yawn, yawn_last_mar yawn)) /\
    (forall (eye : EyeTracker) (eye_points : list nat) (idx : nat),
        In idx eye_points ->
        (List.length landmarks <= idx)%nat ->
        _calculate_single_eye_ear norm eye landmarks eye_points = 0.25) /\
    (forall (eye : EyeTracker) (pose : option (list (string * Q))),
        uncompensated pose = true ->
        let left_ear :=
          _calculate_single_eye_ear norm eye landmarks (left_eye_points eye) in
        let right_ear :=
          _calculate_single_eye_ear norm eye landmarks (right_eye_points eye) in
        let history := push 8 (ear_history eye) ((left_ear + right_ear) / 2.0) in
        calculate_ear norm eye landmarks pose
        = (mk_eye (left_eye_points eye) (right_eye_points eye) history (mean history),
           mean history)).
Proof.
  intros norm landmarks. split; [|split].
  - intros yawn idx Hin Hshort. unfold calculate_mar.
    rewrite (gather_missing landmarks _ idx Hin Hshort). reflexivity.
  - intros eye eye_points idx Hin Hshort. unfold _calculate_single_eye_ear.
    rewrite (gather_missing landmarks _ idx Hin Hshort). reflexivity.
  - intros eye pose Hplain. cbv zeta. unfold calculate_ear, ear_sample.
    destruct pose as [[|kv more]|]; try reflexivity. discriminate.
Qed.

Lemma C6_missing_landmarks_witness :
  let yawn := fst (calculate_mar pixel_norm yawn_init (face 8 8)) in
  let eye := fst (calculate_ear pixel_norm eye_init (face 8 8) None) in
  let cut := firstn 300 (face 8 8) in
  In 308%nat (mouth_points yawn) /\
  In 362%nat (right_eye_points eye) /\
  (List.length cut <= 308)%nat /\
  (List.length cut <= 362)%nat /\
  calculate_mar pixel_norm yawn cut = (yawn, yawn_last_mar yawn) /\
  _calculate_single_eye_ear pixel_norm eye cut (right_eye_points eye) = 0.25.
Proof.
  intros yawn eye cut.
  assert (Hmouth : In 308%nat (mouth_points yawn)) by (cbn; tauto).
  assert (Heye : In 362%nat (right_eye_points eye)) by (cbn; tauto).
  assert (Hlen : List.length cut = 300%nat) by reflexivity.
  assert (H308 : (List.length cut <= 308)%nat) by (rewrite Hlen; lia).
  assert (H362 : (List.length cut <= 362)%nat) by (rewrite Hlen; lia).
  split; [exact Hmouth|]. split; [exact Heye|].
  split; [exact H308|]. split; [exact H362|].
  destruct (C6_missing_landmarks pixel_norm cut) as [Hmar [Hear _]].
  split.
  - exact (Hmar yawn 308%nat Hmouth H308).
  - exact (Hear eye (right_eye_points eye) 362%nat Heye H362).
Defined.

Lemma C2_return_to_active_witness :
  let started := Monitor.start_detection (Monitor.init true true 0 0) true 1 1 in
  let two_faces := Monitor.mk_frame 2 2 (face 6 8) 10 10 10 10 10 in
  let one_face := Monitor.mk_frame 1 1 (face 6 8) 12 12 12 12.5 12.6 in
  let crowded :=
    match Monitor.process_frame pixel_norm started two_faces with
    | Some m => m
    | None => started
    end in
  let back :=
    match Monitor.process_frame pixel_norm crowded one_face with
    | Some m => m
    | None => crowded
    end in
  Monitor.reachable pixel_norm crowded /\
  Monitor.inactive_start_time crowded = Some 10 /\
  Monitor.process_frame pixel_norm crowded one_face = Some back /\
  Monitor.current_status back = "Active" /\
  (exists more,
      Logger.rows (Monitor.activity_logger back)
      = (Logger.rows (Monitor.activity_logger crowded)
         ++ Logger.mk_row "Active" (Logger.ReturnedToActive (12.5 - 10)) 0
                          (Monitor.last_ear back) (Monitor.last_mar back)
                          (Some (12.5 - 10))
         :: more)%list) /\
  Monitor.last_mar back
  = snd (calculate_mar pixel_norm (Monitor.yawn_detector crowded) (face 6 8)) /\
  Monitor.inactive_start_time back = None /\
  Monitor.emergency_triggered back = false /\
  Emergency.is_emergency_active (Monitor.emergency_wakeup back) = false.
Proof.
  intros started two_faces one_face crowded back.
  assert (Hreach : Monitor.reachable pixel_norm crowded).
  { apply (Monitor.reach_frame pixel_norm started two_faces crowded).
    - apply Monitor.reach_start. apply Monitor.reach_init.
    - reflexivity.
    - reflexivity.
    - vm_compute. reflexivity. }
  assert (Hopen : Monitor.inactive_start_time crowded = Some 10)
    by (vm_compute; reflexivity).
  assert (Hframe : Monitor.process_frame pixel_norm crowded one_face = Some back)
    by (vm_compute; reflexivity).
  assert (Hactive : Monitor.current_status back = "Active")
    by (vm_compute; reflexivity).
  split; [exact Hreach|]. split; [exact Hopen|]. split; [exact Hframe|].
  split; [exact Hactive|].
  destruct (C2_return_to_active pixel_norm crowded back one_face 10
                                Hreach Hopen Hframe Hactive)
    as [Hrow [_ [_ [Hmar [_ [Hclosed [Hflag Hidle]]]]]]].
  split; [exact Hrow|].
  split; [destruct Hmar as [Hnone|Hmar]; [discriminate Hnone | exact Hmar]|].
  split; [exact Hclosed|]. split; [exact Hflag | exact Hidle].
Defined.

(** Five seconds without a return: the emergency is raised once; the frame
    that shows one open-eyed face stops it and closes the window. *)
Example emergency_then_return :
  let started := Monitor.start_detection (Monitor.init true true 0 0) true 1 1 in
  let frames :=
    [ Monitor.mk_frame 2 2 (face 6 8) 10 10 10 10 10;
      Monitor.mk_frame 2 2 (face 6 8) 13 13 13 13 13;
      Monitor.mk_frame 2 2 (face 6 8) 15 15 15 15 15;
      Monitor.mk_frame 2 2 (face 6 8) 16 16 16 16 16;
      Monitor.mk_frame 1 1 (face 6 8) 17 17 17 17 17 ] in
  let states :=
    fold_left
      (fun acc f =>
         match acc with
         | [] => []
         | m :: _ =>
           match Monitor.process_frame pixel_norm m f with
           | Some m' => m' :: acc
           | None => acc
           end
         end) frames [started] in
  map (fun m => (Monitor.emergencies m,
                 Emergency.is_emergency_active (Monitor.emergency_wakeup m),
                 Monitor.inactive_start_time m))
      (rev states)
  = [ (0%nat, false, None); (0%nat, false, Some 10); (0%nat, false, Some 10);
      (1%nat, true, Some 10); (1%nat, true, Some 10); (1%nat, false, None) ].
Proof. vm_compute. reflexivity. Qed.

(** The monitor passes a frame to [check_face_presence] only when the face
    mesh finds no face in it, so a frame with a face leaves the detector's
    timer alone: after an absent frame at 10 s and a frame with one face at
    11 s, the absent frame at 100 s is classified by the 90 s since the
    first one. *)
Example absence_timer_between_mesh_faces :
  let started := Monitor.start_detection (Monitor.init true true 0 0) true 1 1 in
  let frames :=
    [ Monitor.mk_frame 0 0 [] 10 10 10 10 10;
      Monitor.mk_frame 1 1 (face 6 8) 11 11 11 11 11;
      Monitor.mk_frame 0 0 [] 100 100 100 100 100 ] in
  let states :=
    fold_left
      (fun acc f =>
         match acc with
         | [] => []
         | m :: _ =>
           match Monitor.process_frame pixel_norm m f with
           | Some m' => m' :: acc
           | None => acc
           end
         end) frames [started] in
  map (fun m => (Monitor.current_status m,
                 FacePresence.face_lost_time (Monitor.face_presence_detector m)))
      (rev states)
  = [ ("Inactive", None); ("Active", Some 10); ("Active", Some 10);
      ("Not Awake", Some 10) ].
Proof. vm_compute. reflexivity. Qed.

(** Ten frames of one face with eyes at a ratio of 0.15: the displayed status
    turns to "Drowsy" at the fifth frame and stays. *)
Example ten_closed_eye_frames :
  let started := Monitor.start_detection (Monitor.init true true 0 0) true 1 1 in
  let frames :=
    map (fun i => let t := inject_Z (Z.of_nat i) in
                  Monitor.mk_frame 1 1 (face 3 8) t t t t t)
        (seq 1 10) in
  let states :=
    fold_left
      (fun acc f =>
         match acc with
         | [] => []
         | m :: _ =>
           match Monitor.process_frame pixel_norm m f with
           | Some m' => m' :: acc
           | None => acc
           end
         end) frames [started] in
  map (fun m => (Monitor.drowsy_counter m, Monitor.current_status m))
      (tl (rev states))
  = [ (1%nat, "Active"); (2%nat, "Active"); (3%nat, "Active"); (4%nat, "Active");
      (5%nat, "Drowsy"); (6%nat, "Drowsy"); (7%nat, "Drowsy"); (8%nat, "Drowsy");
      (9%nat, "Drowsy"); (10%nat, "Drowsy") ].
Proof. vm_compute. reflexivity. Qed.

(** * Further properties of the sources *)

(** ** The monitor between frames *)

Section MonitorFacts.

Import Monitor.

Variable norm : point -> point -> Q.

(** The fields that only [process_frame]'s own statements write. *)
Lemma handle_keeps_detectors m status t r :
  let m' := handle_inactivity_tracking m status t r in
  face_presence_detector m' = face_presence_detector m /\
  drowsy_counter m' = drowsy_counter m /\
  yawn_counter m' = yawn_counter m.
Proof.
  cbv zeta. unfold handle_inactivity_tracking, reset_inactivity_tracking.
  repeat split; case_branches; reflexivity.
Qed.

Lemma update_status_keeps_detectors m status now :
  let m' := update_status m status now in
  face_presence_detector m' = face_presence_detector m /\
  drowsy_counter m' = drowsy_counter m /\
  yawn_counter m' = yawn_counter m.
Proof.
  cbv zeta. unfold update_status. repeat split; case_branches; reflexivity.
Qed.

(** The three paths of [process_frame], each with the monitor it returns. *)
Lemma process_frame_paths m f m' :
  process_frame norm m f = Some m' ->
  ((1 < mesh_faces f)%nat /\
   let m2 :=
     handle_inactivity_tracking
       (update_status m "Multiple Persons Detected" (now_update f))
       "Multiple Faces" (current_time f) (now_reset f) in
   m' = if negb (String.eqb (current_status m2) "Multiple Persons Detected")
        then speak "Multiple Persons Detected" m2 else m2) \/
  (mesh_faces f = 0%nat /\
   exists detector status,
     FacePresence.check_face_presence
       (face_presence_detector m) (FacePresence.Picture (detections f))
       (now_presence f) (now_no_face f) = Some (detector, status) /\
     let m2 :=
       handle_inactivity_tracking (set_face_presence_detector detector m) status
                                  (current_time f) (now_reset f) in
     m' = update_status
            (if negb (String.eqb (current_status m2) "Inactive (Face Missing)")
             then speak "Face Not Detected" m2 else m2)
            status (now_update f)) \/
  (mesh_faces f <> 0%nat /\ m' = face_tracking norm m f).
Proof.
  unfold process_frame.
  destruct ((1 <? mesh_faces f)%nat) eqn:Emany;
    [destruct (MultipleFaces.check_multiple_faces
                 (FacePresence.Picture (detections f))) as [mstatus|] eqn:Emult|].
  - intro H. injection H as <-. left.
    assert (Hname : mstatus = "Multiple Persons Detected").
    { unfold MultipleFaces.check_multiple_faces in Emult.
      destruct (1 <? detections f)%nat;
        [injection Emult as <-; reflexivity | discriminate]. }
    subst mstatus. apply Nat.ltb_lt in Emany. split; [exact Emany | reflexivity].
  - apply Nat.ltb_lt in Emany.
    destruct (Nat.eqb_spec (mesh_faces f) 0) as [Hz|Hnz]; [lia|].
    intro H. destruct (single_face_returns norm m f m' H) as [_ ->].
    right. right. split; [exact Hnz | reflexivity].
  - destruct (Nat.eqb_spec (mesh_faces f) 0) as [Hz|Hnz].
    + unfold no_face.
      destruct (FacePresence.check_face_presence _ _ _ _)
        as [[detector status]|] eqn:Epresence; [|discriminate].
      intro H. injection H as <-. right. left. split; [exact Hz|].
      exists detector, status. split; reflexivity.
    + intro H. destruct (single_face_returns norm m f m' H) as [_ ->].
      right. right. split; [exact Hnz | reflexivity].
Qed.

(** The single-face path, with the classifier's result named. *)
Lemma single_face_form m f :
  exists eye ear yawn mar m3 status,
    calculate_ear norm (eye_tracker m) (landmarks f) None = (eye, ear) /\
    determine_status_simple
      (set_last_mar mar
         (set_yawn_detector yawn (set_last_ear ear (set_eye_tracker eye m))))
      ear mar = (m3, status) /\
    face_tracking norm m f
    = update_status
        (handle_inactivity_tracking m3 status (current_time f) (now_reset f))
        status (now_update f).
Proof.
  unfold face_tracking.
  destruct (calculate_ear norm (eye_tracker m) (landmarks f) None) as [eye ear].
  destruct (calculate_mar norm _ (landmarks f)) as [yawn mar].
  destruct (determine_status_simple _ ear mar) as [m3 status] eqn:Edet.
  exists eye, ear, yawn, mar, m3, status. rewrite single_face_tracking.
  repeat split. exact Edet.
Qed.

Lemma determine_status_keeps_presence m ear mar :
  face_presence_detector (fst (determine_status_simple m ear mar))
  = face_presence_detector m.
Proof.
  unfold determine_status_simple. case_branches; reflexivity.
Qed.

Lemma determine_status_exclusive m ear mar :
  let m' := fst (determine_status_simple m ear mar) in
  drowsy_counter m' = 0%nat \/ yawn_counter m' = 0%nat.
Proof.
  cbv zeta. unfold determine_status_simple.
  destruct (Qltb ear 0.22); [|destruct (Qltb 0.6 mar)];
    case_branches; cbn; auto.
Qed.

Lemma process_frame_status m f m' :
  process_frame norm m f = Some m' ->
  In (current_status m')
     ["Active"; "Drowsy"; "Yawning"; "Inactive (Face Missing)"; "Not Awake";
      "Multiple Persons Detected"].
Proof.
  intro H. destruct (process_frame_paths m f m' H)
    as [[_ Hm] | [[_ [detector [status [Hp Hm]]]] | [_ Hm]]]; cbv zeta in Hm.
  - assert (Hcur : current_status m' = "Multiple Persons Detected").
    { rewrite Hm. destruct (negb _); cbn [speak current_status set_spoken];
        rewrite handle_keeps_status;
        destruct (update_status_fields m "Multiple Persons Detected" (now_update f))
          as [U _]; exact U. }
    rewrite Hcur. cbn. tauto.
  - rewrite Hm.
    match goal with
    | |- In (current_status (update_status ?x ?s ?n)) _ =>
      destruct (update_status_fields x s n) as [U _]; rewrite U
    end.
    pose proof (check_face_presence_names _ _ _ _ _ _ Hp) as Hn.
    cbn in Hn |- *. tauto.
  - destruct (single_face_form m f)
      as [eye [ear [yawn [mar [m3 [status [_ [Hdet Hform]]]]]]]].
    rewrite Hm, Hform.
    match goal with
    | |- In (current_status (update_status ?x ?s ?n)) _ =>
      destruct (update_status_fields x s n) as [U _]; rewrite U
    end.
    match type of Hdet with
    | determine_status_simple ?x _ _ = _ =>
      pose proof (determine_status_names x ear mar) as Hn
    end.
    rewrite Hdet in Hn. cbn in Hn |- *. tauto.
Qed.


End MonitorFacts.

Section ReturnRows.

Import Monitor.

Variable norm : point -> point -> Q.

(** A change to "Active" logged while the logger tracks no inactive period
    carries no duration. *)
Lemma log_change_to_active_untracked self old_status ear mar now :
  Logger.last_inactive_start self = None ->
  Logger.log_status_change self old_status "Active" ear mar now
  = Logger.mk None
      (Logger.rows self
       ++ [Logger.mk_row "Active" (Logger.StatusChanged old_status "Active") 0
                         ear mar None]).
Proof.
  intro H. unfold Logger.log_status_change. rewrite H.
  destruct (Logger._is_inactive_status old_status) eqn:Eold; cbn [andb].
  - cbn. reflexivity.
  - destruct (String.eqb old_status "Active"); cbn; reflexivity.
Qed.

(** What [reset_inactivity_tracking] followed by [update_status] writes when
    the window is open: the return row, then the status change without a
    duration. *)
Lemma return_rows x t0 now_reset now_update (face_not_detected : bool) :
  inactive_start_time x = Some t0 ->
  String.eqb (current_status x) "Active" = false ->
  let y := reset_inactivity_tracking x now_reset in
  let z := if face_not_detected then speak "Face Not Detected" y else y in
  let m' := update_status z "Active" now_update in
  Logger.rows (activity_logger m')
  = (Logger.rows (activity_logger x)
     ++ [Logger.mk_row "Active" (Logger.ReturnedToActive (now_reset - t0)) 0
                       (last_ear x) (last_mar x) (Some (now_reset - t0));
         Logger.mk_row "Active"
                       (Logger.StatusChanged (current_status x) "Active") 0
                       (last_ear x) (last_mar x) None])%list /\
  Logger.last_inactive_start (activity_logger m') = None /\
  last_ear m' = last_ear x /\
  last_mar m' = last_mar x.
Proof.
  intros Hstart Hstatus y z m'.
  assert (Hy : activity_logger y
               = Logger.log_inactive_to_active_transition
                   (activity_logger x) (now_reset - t0) (last_ear x) (last_mar x) /\
               current_status y = current_status x /\
               last_ear y = last_ear x /\ last_mar y = last_mar x).
  { subst y. unfold reset_inactivity_tracking. rewrite Hstart, Hstatus.
    cbn [negb]. case_branches; repeat split. }
  destruct Hy as [Y1 [Y2 [Y3 Y4]]].
  assert (Hz : activity_logger z = activity_logger y /\
               current_status z = current_status y /\
               last_ear z = last_ear y /\ last_mar z = last_mar y)
    by (subst z; destruct face_not_detected; repeat split).
  destruct Hz as [Z1 [Z2 [Z3 Z4]]].
  subst m'. unfold update_status.
  rewrite Z2, Y2, String.eqb_sym, Hstatus. cbn [negb].
  cbn [speak set_spoken set_activity_logger set_current_status activity_logger
       last_ear last_mar current_status].
  rewrite Z1, Z3, Z4, Y1, Y3, Y4.
  rewrite log_change_to_active_untracked by reflexivity.
  cbn. rewrite <- app_assoc. repeat split.
Qed.

Lemma return_frame_rows m m' f t0 :
  reachable norm m ->
  inactive_start_time m = Some t0 ->
  process_frame norm m f = Some m' ->
  current_status m' = "Active" ->
  Logger.rows (activity_logger m')
  = (Logger.rows (activity_logger m)
     ++ [Logger.mk_row "Active"
                       (Logger.ReturnedToActive (now_reset f - t0)) 0
                       (last_ear m') (last_mar m') (Some (now_reset f - t0));
         Logger.mk_row "Active"
                       (Logger.StatusChanged (current_status m) "Active") 0
                       (last_ear m') (last_mar m') None])%list /\
  Logger.last_inactive_start (activity_logger m') = None.
Proof.
  intros Hreach Hopen Hframe Hactive.
  assert (Hshown : String.eqb (current_status m) "Active" = false)
    by (apply (window_open_not_active norm m Hreach); congruence).
  destruct (process_frame_paths norm m f m' Hframe)
    as [[_ Hm] | [[_ [detector [status [Hp Hm]]]] | [_ Hm]]]; cbv zeta in Hm.
  - exfalso.
    assert (Hcur : current_status m' = "Multiple Persons Detected").
    { rewrite Hm. destruct (negb _); cbn [speak current_status set_spoken];
        rewrite handle_keeps_status;
        destruct (update_status_fields m "Multiple Persons Detected" (now_update f))
          as [U _]; exact U. }
    congruence.
  - assert (Hs : status = "Active").
    { rewrite Hm in Hactive.
      match type of Hactive with
      | current_status (update_status ?x ?s ?n) = _ =>
        destruct (update_status_fields x s n) as [U _]; congruence
      end. }
    subst status. rewrite handle_active in Hm.
    set (x := set_face_presence_detector detector m) in *.
    match type of Hm with
    | _ = update_status (if ?b then _ else _) _ _ =>
      destruct (return_rows x t0 (now_reset f) (now_update f) b Hopen Hshown)
        as [R1 [R2 [R3 R4]]]
    end.
    cbv zeta in R1, R2, R3, R4. rewrite <- Hm in R1, R2, R3, R4.
    rewrite R3, R4. split; [exact R1 | exact R2].
  - destruct (single_face_form norm m f)
      as [eye [ear [yawn [mar [m3 [status [_ [Hdet Hform]]]]]]]].
    rewrite Hform in Hm.
    assert (Hs : status = "Active").
    { rewrite Hm in Hactive.
      match type of Hactive with
      | current_status (update_status ?x ?s ?n) = _ =>
        destruct (update_status_fields x s n) as [U _]; congruence
      end. }
    subst status. rewrite handle_active in Hm.
    match type of Hdet with
    | determine_status_simple ?x _ _ = _ =>
      pose proof (determine_status_fields x ear mar) as D
    end.
    rewrite Hdet in D. cbv zeta in D. cbn [fst] in D.
    destruct D as [D1 [_ [_ [_ [D5 [D6 _]]]]]].
    assert (Hopen3 : inactive_start_time m3 = Some t0) by (rewrite D1; exact Hopen).
    assert (Hshown3 : String.eqb (current_status m3) "Active" = false)
      by (rewrite D5; exact Hshown).
    destruct (return_rows m3 t0 (now_reset f) (now_update f) false Hopen3 Hshown3)
      as [R1 [R2 [R3 R4]]].
    cbv zeta in R1, R2, R3, R4. rewrite <- Hm in R1, R2, R3, R4.
    rewrite R3, R4. rewrite D5, D6 in R1. split; [exact R1 | exact R2].
Qed.

End ReturnRows.

Section SessionFacts.

Import Monitor.

Variable norm : point -> point -> Q.

Lemma handle_flag_needs_window m status t r :
  emergency_triggered (handle_inactivity_tracking m status t r) = true ->
  inactive_start_time (handle_inactivity_tracking m status t r) <> None.
Proof.
  destruct (String.eqb_spec status "Active") as [->|Hne].
  - rewrite handle_active. destruct (reset_closes m r) as [_ [Hflag _]].
    rewrite Hflag. discriminate.
  - apply String.eqb_neq in Hne. intros _.
    destruct (inactive_start_time m) as [t0|] eqn:E.
    + rewrite (handle_open m t0 status t r E Hne).
      destruct (_ && _); cbn; congruence.
    + rewrite (handle_closed m status t r E Hne).
      rewrite (handle_open (set_inactive_start_time (Some t) m) t status t r
                           eq_refl Hne).
      destruct (_ && _); cbn; congruence.
Qed.

Lemma maybe_speak_keeps_counters (b : bool) text x :
  drowsy_counter (if b then speak text x else x) = drowsy_counter x /\
  yawn_counter (if b then speak text x else x) = yawn_counter x.
Proof. destruct b; split; reflexivity. Qed.

Lemma frame_counters m f m' :
  process_frame norm m f = Some m' ->
  (drowsy_counter m = 0%nat \/ yawn_counter m = 0%nat) ->
  drowsy_counter m' = 0%nat \/ yawn_counter m' = 0%nat.
Proof.
  intros H IH. destruct (process_frame_paths norm m f m' H)
    as [[_ Hm] | [[_ [detector [status [Hp Hm]]]] | [_ Hm]]]; cbv zeta in Hm.
  - rewrite Hm.
    match goal with
    | |- drowsy_counter (if ?b then speak ?t ?x else _) = _ \/ _ =>
      destruct (maybe_speak_keeps_counters b t x) as [-> ->]
    end.
    destruct (handle_keeps_detectors
                (update_status m "Multiple Persons Detected" (now_update f))
                "Multiple Faces" (current_time f) (now_reset f)) as [_ [-> ->]].
    destruct (update_status_keeps_detectors m "Multiple Persons Detected"
                                            (now_update f)) as [_ [-> ->]].
    exact IH.
  - rewrite Hm.
    match goal with
    | |- drowsy_counter (update_status ?x ?s ?n) = _ \/ _ =>
      destruct (update_status_keeps_detectors x s n) as [_ [-> ->]]
    end.
    match goal with
    | |- drowsy_counter (if ?b then speak ?t ?x else _) = _ \/ _ =>
      destruct (maybe_speak_keeps_counters b t x) as [-> ->]
    end.
    match goal with
    | |- drowsy_counter (handle_inactivity_tracking ?x ?s ?t ?r) = _ \/ _ =>
      destruct (handle_keeps_detectors x s t r) as [_ [-> ->]]
    end.
    exact IH.
  - destruct (single_face_form norm m f)
      as [eye [ear [yawn [mar [m3 [status [_ [Hdet Hform]]]]]]]].
    rewrite Hm, Hform.
    match goal with
    | |- drowsy_counter (update_status ?x ?s ?n) = _ \/ _ =>
      destruct (update_status_keeps_detectors x s n) as [_ [-> ->]]
    end.
    destruct (handle_keeps_detectors m3 status (current_time f) (now_reset f))
      as [_ [-> ->]].
    match type of Hdet with
    | determine_status_simple ?x _ _ = _ =>
      pose proof (determine_status_exclusive x ear mar) as D
    end.
    rewrite Hdet in D. exact D.
Qed.

(** What holds in every state the monitor can reach. *)
Lemma reachable_invariants m :
  reachable norm m ->
  In (current_status m)
     ["Inactive"; "Active"; "Drowsy"; "Yawning"; "Inactive (Face Missing)";
      "Not Awake"; "Multiple Persons Detected"] /\
  (emergency_triggered m = true -> inactive_start_time m <> None) /\
  (drowsy_counter m = 0%nat \/ yawn_counter m = 0%nat).
Proof.
  induction 1 as [pygame_ok tts_ok now now_presence
                 | m camera_ok Hm IH | m Hm IH
                 | m camera_ok now now_presence Hm IH
                 | m now Hm IH
                 | m f m' Hm IH Hcam Hdet Hframe].
  - cbn. repeat split; auto. discriminate.
  - unfold open_camera. destruct camera_ok; exact IH.
  - unfold close_camera. destruct (cap m); exact IH.
  - unfold start_detection. destruct IH as [I1 [I2 I3]].
    destruct (camera_open m); [|destruct camera_ok];
      cbn; repeat split; auto; discriminate.
  - unfold stop_detection. destruct IH as [I1 [I2 I3]].
    match goal with
    | |- In (current_status (update_status ?x ?s ?n)) _ /\ _ =>
      destruct (update_status_fields x s n) as [U1 [_ [U3 _]]];
        destruct (update_status_keeps_detectors x s n) as [_ [K1 K2]];
        rewrite U1, U3, K1, K2
    end.
    cbn. repeat split; auto. discriminate.
  - destruct IH as [I1 [I2 I3]]. split; [|split].
    + pose proof (process_frame_status norm m f m' Hframe) as Hs.
      cbn in Hs |- *. tauto.
    + destruct (process_frame_shape norm m f m' Hframe) as [m_in [status Hshape]].
      unfold frame_shape in Hshape. cbv zeta in Hshape.
      destruct Hshape as [_ [[O1 [O2 _]] _]]. rewrite O1, O2.
      apply handle_flag_needs_window.
    + exact (frame_counters m f m' Hframe I3).
Qed.

End SessionFacts.

(** X1.  In every state the monitor can reach, an open inactivity window
    means that the displayed status is not "Active": the second half of the
    guard in [reset_inactivity_tracking] never holds back the return event. *)
Theorem X1_open_window_not_shown_active :
  forall (norm : point -> point -> Q) (m : Monitor.AttentivenessMonitor),
    Monitor.reachable norm m ->
    Monitor.inactive_start_time m <> None ->
    Monitor.current_status m <> "Active".
Proof.
  intros norm m Hreach Hopen. apply String.eqb_neq.
  exact (window_open_not_active norm m Hreach Hopen).
Qed.

(** X2.  The escalation rule holds for frames through [process_frame]: in a
    run of frames that all end with a status other than "Active", entered
    with the window closed and the flag clear, every frame leaves the window
    started at the time of the first frame, and the emergency is raised (one
    "Emergency" row, [trigger_emergency] on the escalator, flag set) by the
    first frame whose time has reached the threshold since then and by no
    other frame. *)
Theorem X2_frames_raise_emergency_once :
  forall (norm : point -> point -> Q) (m : Monitor.AttentivenessMonitor)
         (f0 : Monitor.frame) (rest pre : list Monitor.frame)
         (f : Monitor.frame) (post : list Monitor.frame),
    Monitor.inactive_start_time m = None ->
    Monitor.emergency_triggered m = false ->
    Monitor.inactive_run norm m (f0 :: rest) = true ->
    f0 :: rest = (pre ++ f :: post)%list ->
    exists before after,
      Monitor.run norm m pre = Some before /\
      Monitor.process_frame norm before f = Some after /\
      Monitor.inactive_start_time after = Some (Monitor.current_time f0) /\
      let first_crossing :=
        Monitor.inactivity_threshold m
        <= Monitor.current_time f - Monitor.current_time f0 /\
        Forall (fun g => Monitor.current_time g - Monitor.current_time f0
                         < Monitor.inactivity_threshold m) pre in
      (first_crossing ->
       Monitor.emergencies after = S (Monitor.emergencies before) /\
       Monitor.emergency_wakeup after
       = Emergency.trigger_emergency (Monitor.emergency_wakeup before) /\
       Monitor.emergency_triggered before = false /\
       Monitor.emergency_triggered after = true) /\
      (~ first_crossing ->
       Monitor.emergencies after = Monitor.emergencies before /\
       Monitor.emergency_wakeup after = Monitor.emergency_wakeup before /\
       Monitor.emergency_triggered after = Monitor.emergency_triggered before).
Proof.
  intros norm m f0 rest pre f post Hclosed Hflag Hrun Hsplit.
  exact (frames_trigger_once norm m f0 rest Hclosed Hflag Hrun pre f post Hsplit).
Qed.


(** X4.  In every state the monitor can reach, the displayed status is
    "Inactive" or one of the six frame statuses, [emergency_triggered] is set
    only while the inactivity window is open, and at most one of the drowsy
    and yawn counters is nonzero. *)
Theorem X4_session_invariants :
  forall (norm : point -> point -> Q) (m : Monitor.AttentivenessMonitor),
    Monitor.reachable norm m ->
    In (Monitor.current_status m)
       ["Inactive"; "Active"; "Drowsy"; "Yawning"; "Inactive (Face Missing)";
        "Not Awake"; "Multiple Persons Detected"] /\
    (Monitor.emergency_triggered m = true ->
     Monitor.inactive_start_time m <> None) /\
    (Monitor.drowsy_counter m = 0%nat \/ Monitor.yawn_counter m = 0%nat).
Proof.
  intros norm m Hreach. exact (reachable_invariants norm m Hreach).
Qed.

Section PresenceInPipeline.

Import Monitor.

Variable norm : point -> point -> Q.

Lemma maybe_speak_keeps_presence (b : bool) text x :
  face_presence_detector (if b then speak text x else x)
  = face_presence_detector x.
Proof. destruct b; reflexivity. Qed.

(** A frame in which the face mesh finds a face does not touch the presence
    detector. *)
Lemma mesh_face_keeps_presence m f m' :
  mesh_faces f <> 0%nat ->
  process_frame norm m f = Some m' ->
  face_presence_detector m' = face_presence_detector m.
Proof.
  intros Hface H. destruct (process_frame_paths norm m f m' H)
    as [[_ Hm] | [[Hz _] | [_ Hm]]]; [|contradiction|]; cbv zeta in Hm.
  - rewrite Hm, maybe_speak_keeps_presence.
    destruct (handle_keeps_detectors
                (update_status m "Multiple Persons Detected" (now_update f))
                "Multiple Faces" (current_time f) (now_reset f)) as [-> _].
    destruct (update_status_keeps_detectors m "Multiple Persons Detected"
                                            (now_update f)) as [-> _].
    reflexivity.
  - destruct (single_face_form norm m f)
      as [eye [ear [yawn [mar [m3 [status [_ [Hdet Hform]]]]]]]].
    rewrite Hm, Hform.
    match goal with
    | |- face_presence_detector (update_status ?x ?s ?n) = _ =>
      destruct (update_status_keeps_detectors x s n) as [-> _]
    end.
    destruct (handle_keeps_detectors m3 status (current_time f) (now_reset f))
      as [-> _].
    match type of Hdet with
    | determine_status_simple ?x _ _ = _ =>
      pose proof (determine_status_keeps_presence x ear mar) as D
    end.
    rewrite Hdet in D. exact D.
Qed.

(** The status of a frame in which neither the face mesh nor the face
    detection finds a face, when the absence timer already runs. *)
Lemma absent_frame_status m f m' t0 :
  FacePresence.face_lost_time (face_presence_detector m) = Some t0 ->
  mesh_faces f = 0%nat ->
  detections f = 0%nat ->
  process_frame norm m f = Some m' ->
  current_status m'
  = FacePresence.absence_code
      (FacePresence.short_absence_threshold (face_presence_detector m))
      (FacePresence.long_absence_threshold (face_presence_detector m))
      (now_no_face f - t0).
Proof.
  intros Htimer Hmesh Hdet H. destruct (process_frame_paths norm m f m' H)
    as [[Hmany _] | [[_ [detector [status [Hp Hm]]]] | [Hnz _]]];
    [lia| |contradiction].
  cbv zeta in Hm. rewrite Hm.
  match goal with
  | |- current_status (update_status ?x ?s ?n) = _ =>
    destruct (update_status_fields x s n) as [-> _]
  end.
  rewrite Hdet in Hp. cbn in Hp.
  rewrite (handle_no_face_running _ t0 _ Htimer) in Hp.
  injection Hp as _ <-. reflexivity.
Qed.

End PresenceInPipeline.

(** X5.  The monitor hands a frame to the presence detector only when the
    face mesh finds no face in it.  A frame with a face therefore leaves the
    detector, and with it a running absence timer, as it was; a following
    frame without a face is classified by the time since the earlier
    absence began. *)
Theorem X5_mesh_face_does_not_reset_absence_timer :
  forall (norm : point -> point -> Q) (m m1 m2 : Monitor.AttentivenessMonitor)
         (f1 f2 : Monitor.frame) (t0 : Q),
    FacePresence.face_lost_time (Monitor.face_presence_detector m) = Some t0 ->
    Monitor.mesh_faces f1 <> 0%nat ->
    Monitor.process_frame norm m f1 = Some m1 ->
    Monitor.mesh_faces f2 = 0%nat ->
    Monitor.detections f2 = 0%nat ->
    Monitor.process_frame norm m1 f2 = Some m2 ->
    Monitor.face_presence_detector m1 = Monitor.face_presence_detector m /\
    Monitor.current_status m2
    = FacePresence.absence_code
        (FacePresence.short_absence_threshold (Monitor.face_presence_detector m))
        (FacePresence.long_absence_threshold (Monitor.face_presence_detector m))
        (Monitor.now_no_face f2 - t0).
Proof.
  intros norm m m1 m2 f1 f2 t0 Htimer Hface H1 Hmesh Hdet H2.
  pose proof (mesh_face_keeps_presence norm m f1 m1 Hface H1) as Hkeep.
  split; [exact Hkeep|]. rewrite <- Hkeep.
  apply (absent_frame_status norm m1 f2 m2 t0); try assumption.
  rewrite Hkeep. exact Htimer.
Qed.

(** X6.  The frame that returns to "Active" while the window is open writes
    exactly two rows: the return row with the inactive duration, then the
    status change, whose duration column is the dash because
    [log_inactive_to_active_transition] has already reset the logger's own
    tracking.  The duration is logged once. *)
Theorem X6_return_duration_logged_once :
  forall (norm : point -> point -> Q) (m m' : Monitor.AttentivenessMonitor)
         (f : Monitor.frame) (t0 : Q),
    Monitor.reachable norm m ->
    Monitor.inactive_start_time m = Some t0 ->
    Monitor.process_frame norm m f = Some m' ->
    Monitor.current_status m' = "Active" ->
    Logger.rows (Monitor.activity_logger m')
    = (Logger.rows (Monitor.activity_logger m)
       ++ [Logger.mk_row "Active"
                         (Logger.ReturnedToActive (Monitor.now_reset f - t0)) 0
                         (Monitor.last_ear m') (Monitor.last_mar m')
                         (Some (Monitor.now_reset f - t0));
           Logger.mk_row "Active"
                         (Logger.StatusChanged (Monitor.current_status m) "Active")
                         0 (Monitor.last_ear m') (Monitor.last_mar m') None])%list /\
    Logger.last_inactive_start (Monitor.activity_logger m') = None.
Proof.
  intros norm m m' f t0 Hreach Hopen Hframe Hactive.
  exact (return_frame_rows norm m m' f t0 Hreach Hopen Hframe Hactive).
Qed.

(** X7.  [update_status] logs and speaks a status only when it differs from
    the one on display: a second call with the same status changes nothing,
    whatever the clock reads. *)
Theorem X7_repeated_status_is_silent :
  forall (m : Monitor.AttentivenessMonitor) (status : string) (now now' : Q),
    Monitor.update_status (Monitor.update_status m status now) status now'
    = Monitor.update_status m status now.
Proof.
  intros m status now now'.
  destruct (update_status_fields m status now) as [Hshown _].
  unfold Monitor.update_status at 1. rewrite Hshown, String.eqb_refl.
  reflexivity.
Qed.

Lemma fold_min_le (xs : list Z) : forall x,
  (fold_left Z.min xs x <= x)%Z /\
  (forall y, In y xs -> fold_left Z.min xs x <= y)%Z /\
  (fold_left Z.min xs x = x \/ In (fold_left Z.min xs x) xs).
Proof.
  induction xs as [|a xs IH]; intro x; cbn [fold_left].
  - repeat split; [lia | contradiction | auto].
  - destruct (IH (Z.min x a)) as [H1 [H2 H3]]. repeat split.
    + lia.
    + intros y [<-|Hy]; [lia | auto].
    + destruct H3 as [H3|H3]; [|right; right; exact H3].
      rewrite H3. destruct (Z.min_spec x a) as [[_ ->]|[_ ->]];
        [left; reflexivity | right; left; reflexivity].
Qed.

Lemma fold_max_ge (xs : list Z) : forall x,
  (x <= fold_left Z.max xs x)%Z /\
  (forall y, In y xs -> y <= fold_left Z.max xs x)%Z /\
  (fold_left Z.max xs x = x \/ In (fold_left Z.max xs x) xs).
Proof.
  induction xs as [|a xs IH]; intro x; cbn [fold_left].
  - repeat split; [lia | contradiction | auto].
  - destruct (IH (Z.max x a)) as [H1 [H2 H3]]. repeat split.
    + lia.
    + intros y [<-|Hy]; [lia | auto].
    + destruct H3 as [H3|H3]; [|right; right; exact H3].
      rewrite H3. destruct (Z.max_spec x a) as [[_ ->]|[_ ->]];
        [right; left; reflexivity | left; reflexivity].
Qed.

(** X8.  [get_face_bounding_box] raises exactly on an empty landmark list.
    Otherwise every landmark lies inside the box it returns, and each of the
    four sides passes through a landmark. *)
Theorem X8_bounding_box_is_tight :
  forall landmarks : list point,
    match Monitor.get_face_bounding_box landmarks with
    | None => landmarks = []
    | Some (x0, y0, x1, y1) =>
      landmarks <> [] /\
      (forall p, In p landmarks ->
                 (x0 <= fst p <= x1)%Z /\ (y0 <= snd p <= y1)%Z) /\
      In x0 (map fst landmarks) /\ In x1 (map fst landmarks) /\
      In y0 (map snd landmarks) /\ In y1 (map snd landmarks)
    end.
Proof.
  intros [|[x y] rest]; [reflexivity|].
  unfold Monitor.get_face_bounding_box. cbn [map fst snd Monitor.py_min Monitor.py_max].
  destruct (fold_min_le (map fst rest) x) as [A1 [A2 A3]].
  destruct (fold_min_le (map snd rest) y) as [B1 [B2 B3]].
  destruct (fold_max_ge (map fst rest) x) as [C1 [C2 C3]].
  destruct (fold_max_ge (map snd rest) y) as [D1 [D2 D3]].
  split; [discriminate|]. split.
  - intros p [<-|Hp]; cbn [fst snd].
    + lia.
    + pose proof (in_map fst _ _ Hp) as Hx. pose proof (in_map snd _ _ Hp) as Hy.
      pose proof (A2 _ Hx). pose proof (B2 _ Hy).
      pose proof (C2 _ Hx). pose proof (D2 _ Hy). lia.
  - repeat split; cbn [In];
      match goal with
      | H : ?v = ?c \/ In ?v ?l |- ?c = ?v \/ In ?v ?l =>
        destruct H as [H|H]; [left; symmetry; exact H | right; exact H]
      end.
Qed.

Lemma reachable_after_frame m f :
  Monitor.reachable pixel_norm m ->
  Monitor.camera_open m = true ->
  Monitor.detection_active m = true ->
  Monitor.reachable pixel_norm (after_frames m [f]).
Proof.
  intros Hreach Hcam Hdet. unfold after_frames. cbn [fold_left].
  destruct (Monitor.process_frame pixel_norm m f) as [m'|] eqn:E; [|exact Hreach].
  exact (Monitor.reach_frame pixel_norm m f m' Hreach Hcam Hdet E).
Defined.

Lemma started_reachable : Monitor.reachable pixel_norm started.
Proof. apply Monitor.reach_start. apply Monitor.reach_init. Defined.

Lemma X1_open_window_not_shown_active_witness :
  let crowded := after_frames started [sample_frame 2 6 8 10] in
  Monitor.reachable pixel_norm crowded /\
  Monitor.inactive_start_time crowded <> None /\
  Monitor.current_status crowded <> "Active".
Proof.
  intro crowded.
  assert (Hreach : Monitor.reachable pixel_norm crowded)
    by (apply reachable_after_frame; [exact started_reachable | reflexivity
                                      | reflexivity]).
  assert (Hopen : Monitor.inactive_start_time crowded <> None)
    by (vm_compute; discriminate).
  split; [exact Hreach|]. split; [exact Hopen|].
  exact (X1_open_window_not_shown_active pixel_norm crowded Hreach Hopen).
Defined.

Lemma X2_frames_raise_emergency_once_witness :
  let f0 := sample_frame 2 6 8 10 in
  let pre := [f0; sample_frame 2 6 8 13] in
  let f := sample_frame 2 6 8 15 in
  Monitor.inactive_start_time started = None /\
  Monitor.emergency_triggered started = false /\
  Monitor.inactive_run pixel_norm started (f0 :: [sample_frame 2 6 8 13; f]) = true /\
  Monitor.inactivity_threshold started
  <= Monitor.current_time f - Monitor.current_time f0 /\
  Forall (fun g => Monitor.current_time g - Monitor.current_time f0
                   < Monitor.inactivity_threshold started) pre /\
  exists before after,
    Monitor.run pixel_norm started pre = Some before /\
    Monitor.process_frame pixel_norm before f = Some after /\
    Monitor.inactive_start_time after = Some 10 /\
    Monitor.emergencies after = S (Monitor.emergencies before) /\
    Monitor.emergency_triggered after = true.
Proof.
  intros f0 pre f.
  assert (Hclosed : Monitor.inactive_start_time started = None) by reflexivity.
  assert (Hflag : Monitor.emergency_triggered started = false) by reflexivity.
  assert (Hrun : Monitor.inactive_run pixel_norm started
                   (f0 :: [sample_frame 2 6 8 13; f]) = true)
    by (vm_compute; reflexivity).
  assert (Hreach : Monitor.inactivity_threshold started
                   <= Monitor.current_time f - Monitor.current_time f0)
    by (apply Qle_bool_imp_le; reflexivity).
  assert (Hbelow : Forall (fun g => Monitor.current_time g - Monitor.current_time f0
                                    < Monitor.inactivity_threshold started) pre)
    by (repeat constructor).
  split; [exact Hclosed|]. split; [exact Hflag|]. split; [exact Hrun|].
  split; [exact Hreach|]. split; [exact Hbelow|].
  destruct (X2_frames_raise_emergency_once pixel_norm started f0
              [sample_frame 2 6 8 13; f] pre f [] Hclosed Hflag Hrun eq_refl)
    as [before [after [Hbefore [Hframe [Hstart [Hfirst _]]]]]].
  destruct (Hfirst (conj Hreach Hbelow)) as [Hlog [_ [_ Hset]]].
  exists before, after. repeat split; assumption.
Defined.

Lemma X4_session_invariants_witness :
  let crowded := after_frames started [sample_frame 2 6 8 10] in
  Monitor.reachable pixel_norm crowded /\
  (Monitor.emergency_triggered crowded = true ->
   Monitor.inactive_start_time crowded <> None) /\
  (Monitor.drowsy_counter crowded = 0%nat \/ Monitor.yawn_counter crowded = 0%nat).
Proof.
  intro crowded.
  assert (Hreach : Monitor.reachable pixel_norm crowded)
    by (apply reachable_after_frame; [exact started_reachable | reflexivity
                                      | reflexivity]).
  split; [exact Hreach|].
  exact (proj2 (X4_session_invariants pixel_norm crowded Hreach)).
Defined.

Lemma X5_mesh_face_does_not_reset_absence_timer_witness :
  let away := after_frames started [sample_frame 0 6 8 10] in
  let f1 := sample_frame 1 6 8 11 in
  let f2 := sample_frame 0 6 8 100 in
  let back := after_frames away [f1] in
  let gone := after_frames back [f2] in
  FacePresence.face_lost_time (Monitor.face_presence_detector away) = Some 10 /\
  Monitor.mesh_faces f1 <> 0%nat /\
  Monitor.process_frame pixel_norm away f1 = Some back /\
  Monitor.mesh_faces f2 = 0%nat /\
  Monitor.detections f2 = 0%nat /\
  Monitor.process_frame pixel_norm back f2 = Some gone /\
  Monitor.face_presence_detector back = Monitor.face_presence_detector away /\
  Monitor.current_status gone
  = FacePresence.absence_code
      (FacePresence.short_absence_threshold (Monitor.face_presence_detector away))
      (FacePresence.long_absence_threshold (Monitor.face_presence_detector away))
      (Monitor.now_no_face f2 - 10).
Proof.
  intros away f1 f2 back gone.
  assert (Htimer : FacePresence.face_lost_time (Monitor.face_presence_detector away)
                   = Some 10) by (vm_compute; reflexivity).
  assert (Hface : Monitor.mesh_faces f1 <> 0%nat) by discriminate.
  assert (H1 : Monitor.process_frame pixel_norm away f1 = Some back)
    by (vm_compute; reflexivity).
  assert (Hmesh : Monitor.mesh_faces f2 = 0%nat) by reflexivity.
  assert (Hdet : Monitor.detections f2 = 0%nat) by reflexivity.
  assert (H2 : Monitor.process_frame pixel_norm back f2 = Some gone)
    by (vm_compute; reflexivity).
  split; [exact Htimer|]. split; [exact Hface|]. split; [exact H1|].
  split; [exact Hmesh|]. split; [exact Hdet|]. split; [exact H2|].
  exact (X5_mesh_face_does_not_reset_absence_timer pixel_norm away back gone f1 f2 10
           Htimer Hface H1 Hmesh Hdet H2).
Defined.

Lemma X6_return_duration_logged_once_witness :
  let crowded := after_frames started [sample_frame 2 6 8 10] in
  let f := sample_frame 1 6 8 12 in
  let back := after_frames crowded [f] in
  Monitor.reachable pixel_norm crowded /\
  Monitor.inactive_start_time crowded = Some 10 /\
  Monitor.process_frame pixel_norm crowded f = Some back /\
  Monitor.current_status back = "Active" /\
  List.length (Logger.rows (Monitor.activity_logger back))
  = (List.length (Logger.rows (Monitor.activity_logger crowded)) + 2)%nat.
Proof.
  intros crowded f back.
  assert (Hreach : Monitor.reachable pixel_norm crowded)
    by (apply reachable_after_frame; [exact started_reachable | reflexivity
                                      | reflexivity]).
  assert (Hopen : Monitor.inactive_start_time crowded = Some 10)
    by (vm_compute; reflexivity).
  assert (Hframe : Monitor.process_frame pixel_norm crowded f = Some back)
    by (vm_compute; reflexivity).
  assert (Hactive : Monitor.current_status back = "Active")
    by (vm_compute; reflexivity).
  split; [exact Hreach|]. split; [exact Hopen|]. split; [exact Hframe|].
  split; [exact Hactive|].
  destruct (X6_return_duration_logged_once pixel_norm crowded back f 10
              Hreach Hopen Hframe Hactive) as [Hrows _].
  rewrite Hrows, length_app. reflexivity.
Defined.

(** ** The presence detector outside the pipeline *)

Lemma no_time_is_no_absence (short long t : Q) :
  0 < short -> 0 < long ->
  FacePresence.absence_code short long (t - t) = "Active".
Proof.
  intros Hs Hl. unfold FacePresence.absence_code.
  destruct (Qleb long (t - t)) eqn:El.
  - apply Qleb_true in El. exfalso. lra.
  - destruct (Qleb short (t - t)) eqn:Es; [|reflexivity].
    apply Qleb_true in Es. exfalso. lra.
Qed.

(** X9.  The module-level function [check_face_presence(image)] builds a new
    detector for each call, so it answers "Active" for every image, with or
    without a face, and for every reading of the clock: an absence is never
    reported through it. *)
Theorem X9_standalone_check_always_active
        (im : FacePresence.image) (now_init now now_handle : Q) :
  FacePresence.check_face_presence_standalone im now_init now now_handle
  = Some "Active".
Proof.
  unfold FacePresence.check_face_presence_standalone, FacePresence.default,
    FacePresence.init.
  destruct im as [|[|d]].
  - cbn [FacePresence.check_face_presence].
    rewrite handle_no_face_first by reflexivity.
    cbn [FacePresence.short_absence_threshold
           FacePresence.long_absence_threshold].
    rewrite no_time_is_no_absence by lra. reflexivity.
  - cbn [FacePresence.check_face_presence FacePresence.cvtColor Nat.ltb Nat.leb].
    rewrite handle_no_face_first by reflexivity.
    cbn [FacePresence.short_absence_threshold
           FacePresence.long_absence_threshold].
    rewrite no_time_is_no_absence by lra. reflexivity.
  - reflexivity.
Qed.

(** X10.  After every call of [check_face_presence] the detector agrees with
    its own getters: [get_status_info] shows a face exactly when
    [is_face_present] finds one on the image just checked; with a face the
    absence duration reads 0 at any time and the detection time is the
    call's clock reading; without one the status returned is the
    classification of [get_absence_duration] read at the clock of the
    call. *)
Theorem X10_getters_agree_with_check
        (self : FacePresence.FacePresenceDetector) (im : FacePresence.image)
        (now now_handle later later_absence : Q) :
  exists self' status,
    FacePresence.check_face_presence self im now now_handle
    = Some (self', status) /\
    FacePresence.face_present
      (FacePresence.get_status_info self' later later_absence)
    = FacePresence.is_face_present self im /\
    (FacePresence.is_face_present self im = true ->
     status = "Active" /\
     FacePresence.get_absence_duration self' later_absence == 0 /\
     FacePresence.get_time_since_last_detection self' later == later - now) /\
    (FacePresence.is_face_present self im = false ->
     status
     = FacePresence.absence_code
         (FacePresence.short_absence_threshold self)
         (FacePresence.long_absence_threshold self)
         (FacePresence.get_absence_duration self' now_handle) /\
     FacePresence.last_face_detected_time self'
     = FacePresence.last_face_detected_time self).
Proof.
  assert (Habsent :
            exists self' status,
              FacePresence._handle_no_face self now_handle = (self', status) /\
              FacePresence.face_lost_time self' <> None /\
              status
              = FacePresence.absence_code
                  (FacePresence.short_absence_threshold self)
                  (FacePresence.long_absence_threshold self)
                  (FacePresence.get_absence_duration self' now_handle) /\
              FacePresence.last_face_detected_time self'
              = FacePresence.last_face_detected_time self).
  { destruct (FacePresence.face_lost_time self) as [t0|] eqn:Hlost.
    - rewrite (handle_no_face_running self t0 now_handle Hlost).
      eexists _, _. split; [reflexivity|].
      unfold FacePresence.get_absence_duration. rewrite Hlost.
      repeat split. discriminate.
    - rewrite (handle_no_face_first self now_handle Hlost).
      eexists _, _. split; [reflexivity|].
      unfold FacePresence.get_absence_duration. cbn.
      repeat split. discriminate. }
  destruct Habsent as [self' [status [Hcall [Hlost [Hstatus Hlast]]]]].
  assert (Hshown : forall s : FacePresence.FacePresenceDetector,
             FacePresence.face_lost_time s <> None ->
             FacePresence.face_present
               (FacePresence.get_status_info s later later_absence) = false).
  { intros s Hs. unfold FacePresence.get_status_info. cbn.
    destruct (FacePresence.face_lost_time s); [reflexivity | contradiction]. }
  destruct im as [|[|d]].
  - exists self', status. cbn [FacePresence.check_face_presence].
    rewrite Hcall. split; [reflexivity|]. rewrite (Hshown self' Hlost).
    cbn [FacePresence.is_face_present]. repeat split; try discriminate; tauto.
  - exists self', status.
    cbn [FacePresence.check_face_presence FacePresence.cvtColor Nat.ltb Nat.leb].
    rewrite Hcall. split; [reflexivity|]. rewrite (Hshown self' Hlost).
    cbn. repeat split; try discriminate; tauto.
  - eexists _, _.
    cbn [FacePresence.check_face_presence FacePresence.cvtColor Nat.ltb Nat.leb].
    split; [reflexivity|]. cbn. repeat split; try discriminate; try lra.
Qed.

(** ** The escalator over sequences of calls *)

Section EscalatorFacts.

Import Emergency.

Lemma calls_snoc self cs c : calls self (cs ++ [c]) = step (calls self cs) c.
Proof. unfold calls. rewrite fold_left_app. reflexivity. Qed.

Lemma timer_starts_emit e self :
  timer_starts (emit e self)
  = (timer_starts self + if is_timer_start e then 1 else 0)%nat.
Proof.
  unfold timer_starts, emit. cbn [effects]. rewrite filter_app, length_app.
  cbn [filter]. destruct (is_timer_start e); reflexivity.
Qed.

Lemma timer_stops_emit e self :
  timer_stops (emit e self)
  = (timer_stops self + if is_timer_stop e then 1 else 0)%nat.
Proof.
  unfold timer_stops, emit. cbn [effects]. rewrite filter_app, length_app.
  cbn [filter]. destruct (is_timer_stop e); reflexivity.
Qed.

Lemma flashes_emit e self :
  flashes (emit e self)
  = (flashes self ++ match e with FlashSignal color => [color] | _ => [] end)%list.
Proof.
  unfold flashes, emit. cbn [effects]. rewrite flat_map_app. cbn [flat_map].
  rewrite app_nil_r. reflexivity.
Qed.

Ltac run_escalator :=
  cbv [trigger_emergency speak_wake_up_message start_screen_flash play_siren
       stop_emergency flash_screen emit is_emergency_active flash_timer
       flash_count siren_thread tts_thread pygame_initialized tts_engine
       effects negb].

Ltac count_timers :=
  repeat rewrite filter_app; repeat rewrite length_app;
  cbn [filter is_timer_start is_timer_stop List.length]; lia.

Lemma settled_step self c : settled self -> settled (step self c).
Proof.
  intros [Htimer [Hbalance Hcolor]].
  destruct self as [active timer count siren tts pygame engine trace].
  unfold settled, timer_starts, timer_stops, flashes in *.
  cbn [is_emergency_active flash_timer effects] in *.
  destruct c; cbn [step]; destruct active.
  - (* trigger_emergency while active *)
    run_escalator. tauto.
  - (* trigger_emergency while idle *)
    assert (Hnone : timer = None).
    { destruct timer; [|reflexivity].
      destruct Htimer as [_ H]. discriminate H. discriminate. }
    subst timer.
    destruct siren as [[|]|]; destruct tts as [[|]|]; run_escalator;
      (split; [split; [discriminate | reflexivity]|]);
      (split; [|discriminate]); count_timers.
  - (* stop_emergency while active *)
    destruct timer as [ms|];
      [|destruct Htimer as [H _]; exfalso; apply (H eq_refl); reflexivity].
    destruct pygame; destruct engine; run_escalator;
      (split; [split; [discriminate | intro H; contradiction]|]);
      (split;
       [count_timers
       |intros _; repeat rewrite flat_map_app; cbn [flat_map];
        repeat rewrite app_nil_r;
        repeat rewrite app_assoc; apply last_last]).
  - (* stop_emergency while idle *)
    run_escalator. tauto.
  - (* flash_screen while active *)
    run_escalator. split; [exact Htimer|]. split; [|discriminate].
    count_timers.
  - (* flash_screen while idle *)
    destruct timer as [ms|];
      [destruct Htimer as [_ H]; discriminate H; discriminate|].
    run_escalator. tauto.
Qed.

Lemma settled_calls cs : forall self, settled self -> settled (calls self cs).
Proof.
  induction cs as [|c cs IH]; intros self H; [exact H|].
  cbn [calls fold_left]. apply IH. apply settled_step. exact H.
Qed.

Lemma flash_run n : forall self,
  is_emergency_active self = true ->
  let self' := calls self (repeat Flash n) in
  flashes self'
  = (flashes self
     ++ map (fun i => if Nat.even (flash_count self + i) then "red" else "blue")
            (seq 0 n))%list /\
  flash_count self' = (flash_count self + n)%nat /\
  is_emergency_active self' = true /\
  flash_timer self' = flash_timer self.
Proof.
  induction n as [|n IH]; intros self Hactive.
  - cbn. rewrite app_nil_r, Nat.add_0_r. repeat split. exact Hactive.
  - cbn [repeat calls fold_left step]. fold (calls (flash_screen self) (repeat Flash n)).
    assert (Hstep : flash_screen self
                    = mk true (flash_timer self) (S (flash_count self))
                         (siren_thread self) (tts_thread self)
                         (pygame_initialized self) (tts_engine self)
                         (effects self
                          ++ [FlashSignal (if Nat.even (flash_count self)
                                           then "red" else "blue")])).
    { unfold flash_screen. rewrite Hactive. cbn. rewrite Hactive. reflexivity. }
    destruct (IH (flash_screen self)) as [Hf [Hc [Ha Ht]]];
      [rewrite Hstep; reflexivity|].
    cbv zeta. rewrite Hf, Hc, Ha, Ht. rewrite Hstep.
    cbn [flash_count flash_timer]. unfold flashes at 1. cbn [effects].
    rewrite flat_map_app. cbn [flat_map]. fold (flashes self).
    rewrite app_nil_r, <- app_assoc. cbn [app seq map].
    rewrite Nat.add_0_r, <- seq_shift, map_map.
    repeat split; try lia.
    f_equal. f_equal. apply map_ext. intro i.
    replace (S (flash_count self) + i)%nat with (flash_count self + S i)%nat by lia.
    reflexivity.
Qed.

Lemma trigger_starts_count self :
  is_emergency_active self = false ->
  let self' := trigger_emergency self in
  is_emergency_active self' = true /\
  flash_count self' = 0%nat /\
  flashes self' = flashes self.
Proof.
  intro Hidle.
  destruct self as [active timer count siren tts pygame engine trace].
  cbn [is_emergency_active] in Hidle. subst active. unfold flashes.
  destruct siren as [[|]|]; destruct tts as [[|]|]; destruct timer as [ms|];
    run_escalator;
    (split; [reflexivity|]); (split; [reflexivity|]);
    repeat rewrite flat_map_app;
    cbn [flat_map]; repeat rewrite app_nil_r; reflexivity.
Qed.

End EscalatorFacts.

(** X11.  Whatever sequence of [trigger_emergency], [stop_emergency] and
    [flash_screen] calls a new escalator receives, between the calls the
    flash timer exists exactly while the protocol is active, every timer
    started has been stopped except the one running while it is active, and
    once the protocol is idle the last colour sent to the screen, if any
    was sent, is "normal". *)
Theorem X11_escalator_timer_balance
        (pygame_ok tts_ok : bool) (cs : list Emergency.call) :
  let self := Emergency.calls (Emergency.init pygame_ok tts_ok) cs in
  (Emergency.is_emergency_active self = true
   <-> Emergency.flash_timer self <> None) /\
  Emergency.timer_starts self
  = (Emergency.timer_stops self
     + if Emergency.is_emergency_active self then 1 else 0)%nat /\
  (Emergency.is_emergency_active self = false ->
   last (Emergency.flashes self) "normal" = "normal").
Proof.
  apply settled_calls. unfold Emergency.settled, Emergency.init. cbn.
  repeat split; try discriminate; try reflexivity. intro H; contradiction.
Qed.

(** X12.  After [trigger_emergency] on an idle escalator, [n] timer ticks
    send [n] colours to the screen, alternately "red" and "blue" and
    starting with "red", whatever the flash count was before; the escalator
    stays active and keeps its timer. *)
Theorem X12_flashes_alternate_from_red
        (self : Emergency.EmergencyWakeup) (n : nat) :
  Emergency.is_emergency_active self = false ->
  let self' :=
    Emergency.calls (Emergency.trigger_emergency self)
                    (repeat Emergency.Flash n) in
  Emergency.flashes self'
  = (Emergency.flashes self
     ++ map (fun i => if Nat.even i then "red" else "blue") (seq 0 n))%list /\
  Emergency.flash_count self' = n /\
  Emergency.is_emergency_active self' = true.
Proof.
  intro Hidle.
  destruct (trigger_starts_count self Hidle) as [Hactive [Hcount Hflashes]].
  destruct (flash_run n (Emergency.trigger_emergency self) Hactive)
    as [Hf [Hc [Ha _]]].
  cbv zeta in *. rewrite Hf, Hc, Ha, Hcount, Hflashes. repeat split.
Qed.

Lemma X12_flashes_alternate_from_red_witness :
  let self := Emergency.stop_emergency
                (Emergency.calls (Emergency.init true true)
                   [Emergency.Trigger; Emergency.Flash]) in
  Emergency.is_emergency_active self = false /\
  Emergency.flashes
    (Emergency.calls (Emergency.trigger_emergency self)
                     (repeat Emergency.Flash 3))
  = ["red"; "normal"; "red"; "blue"; "red"].
Proof.
  intro self.
  assert (Hidle : Emergency.is_emergency_active self = false) by reflexivity.
  split; [exact Hidle|].
  exact (proj1 (X12_flashes_alternate_from_red self 3 Hidle)).
Defined.

(** ** The activity log over sequences of calls *)

Section LogFacts.

Import Logger.

Lemma step_rows self c :
  exists written,
    rows (step self c) = (rows self ++ written)%list /\
    List.length written = (if writes_row c then 1 else 0)%nat.
Proof.
  destruct c; cbn [step writes_row].
  - eexists. split; reflexivity.
  - destruct (log_status_change_rows self old_status new_status ear mar
                                     current_time) as [r [Hr _]].
    exists [r]. split; [exact Hr | reflexivity].
  - eexists. split; reflexivity.
  - unfold log_detection_session. case_branches; eexists; split; reflexivity.
  - eexists. split; reflexivity.
  - exists []. cbn. rewrite app_nil_r. split; reflexivity.
  - exists []. cbn. rewrite app_nil_r. split; reflexivity.
Qed.

Lemma inactive_is_not_active status :
  _is_inactive_status status = true -> String.eqb status "Active" = false.
Proof.
  intro H. destruct (String.eqb status "Active") eqn:E; [|reflexivity].
  apply String.eqb_eq in E. subst status. discriminate H.
Qed.

Lemma change_within_spell self old_status new_status ear mar current_time :
  _is_inactive_status old_status = true ->
  _is_inactive_status new_status = true ->
  log_status_change self old_status new_status ear mar current_time
  = mk (last_inactive_start self)
       (rows self ++ [mk_row new_status (StatusChanged old_status new_status)
                             0 ear mar None]).
Proof.
  intros Hold Hnew. unfold log_status_change.
  rewrite Hold, Hnew, (inactive_is_not_active new_status Hnew),
    (inactive_is_not_active old_status Hold).
  reflexivity.
Qed.

Lemma change_into_spell self new_status ear mar current_time :
  _is_inactive_status new_status = true ->
  log_status_change self "Active" new_status ear mar current_time
  = mk (Some current_time)
       (rows self ++ [mk_row new_status (StatusChanged "Active" new_status)
                             0 ear mar None]).
Proof.
  intro Hnew. unfold log_status_change.
  rewrite Hnew, (inactive_is_not_active new_status Hnew). reflexivity.
Qed.

Lemma change_out_of_spell self old_status ear mar current_time t0 :
  _is_inactive_status old_status = true ->
  last_inactive_start self = Some t0 ->
  log_status_change self old_status "Active" ear mar current_time
  = mk None
       (rows self ++ [mk_row "Active" (StatusChanged old_status "Active")
                             0 ear mar (Some (current_time - t0))]).
Proof.
  intros Hold Hstart. unfold log_status_change.
  rewrite Hold, Hstart. reflexivity.
Qed.

Lemma spell_rows spell : forall self old_status t1 t,
  _is_inactive_status old_status = true ->
  last_inactive_start self = Some t1 ->
  Forall (fun c : string * Q => _is_inactive_status (fst c) = true) spell ->
  let final := log_changes self old_status (spell ++ [("Active", t)]) in
  last_inactive_start final = None /\
  exists quiet last_row,
    rows final = (rows self ++ quiet ++ [last_row])%list /\
    List.length quiet = List.length spell /\
    Forall (fun r => inactive_duration r = None) quiet /\
    status last_row = "Active" /\
    inactive_duration last_row = Some (t - t1).
Proof.
  induction spell as [|[s ts] spell IH]; intros self old_status t1 t Hold Hstart Hall.
  - cbn [app log_changes].
    rewrite (change_out_of_spell self old_status 0.0 0.0 t t1 Hold Hstart).
    split; [reflexivity|]. eexists [], _. cbn [app rows].
    repeat split. constructor.
  - pose proof (Forall_inv Hall) as Hs. cbn [fst] in Hs.
    pose proof (Forall_inv_tail Hall) as Hrest.
    cbn [app log_changes].
    rewrite (change_within_spell self old_status s 0.0 0.0 ts Hold Hs).
    destruct (IH (mk (last_inactive_start self)
                     (rows self ++ [mk_row s (StatusChanged old_status s)
                                           0 0.0 0.0 None]))
                 s t1 t Hs Hstart Hrest)
      as [Hnone [quiet [last_row [Hrows [Hlen [Hquiet [Hst Hdur]]]]]]].
    split; [exact Hnone|].
    exists (mk_row s (StatusChanged old_status s) 0 0.0 0.0 None :: quiet), last_row.
    split; [|repeat split].
    + rewrite Hrows. cbn [rows]. rewrite <- app_assoc. reflexivity.
    + cbn [List.length]. rewrite Hlen. reflexivity.
    + constructor; [reflexivity | exact Hquiet].
    + exact Hst.
    + exact Hdur.
Qed.

End LogFacts.

(** X13.  The log is append-only.  Whatever sequence of logger calls is
    made, [clear_logs] included, the rows present before are still there,
    in order, and one row has been added for each call of [log_event],
    [log_status_change], [log_emergency], [log_detection_session] and
    [log_inactive_to_active_transition]: [clear_logs] and
    [reset_inactive_tracking] leave the rows alone. *)
Theorem X13_log_is_append_only
        (cs : list Logger.call) (self : Logger.ActivityLogger) :
  exists added,
    Logger.rows (Logger.calls self cs) = (Logger.rows self ++ added)%list /\
    List.length added = List.length (filter Logger.writes_row cs).
Proof.
  revert self. induction cs as [|c cs IH]; intro self.
  - exists []. cbn. rewrite app_nil_r. split; reflexivity.
  - cbn [Logger.calls fold_left]. fold (Logger.calls (Logger.step self c) cs).
    destruct (IH (Logger.step self c)) as [added [Hrows Hlen]].
    destruct (step_rows self c) as [written [Hstep Hwritten]].
    exists (written ++ added)%list. split.
    + rewrite Hrows, Hstep, app_assoc. reflexivity.
    + rewrite length_app, Hlen, Hwritten. cbn [filter].
      destruct (Logger.writes_row c); reflexivity.
Qed.

(** X14.  Over a run of status changes that leaves "Active" for an inactive
    status at [t1], passes through any number of further inactive statuses
    and returns to "Active" at [t], the logger writes one row per change;
    only the last row carries an inactive duration, and that duration is
    [t - t1], measured from the first change of the run whatever the
    tracker held before; the tracker is cleared afterwards. *)
Theorem X14_inactive_spell_duration
        (self : Logger.ActivityLogger) (s1 : string) (t1 : Q)
        (spell : list (string * Q)) (t : Q) :
  Logger._is_inactive_status s1 = true ->
  Forall (fun c : string * Q => Logger._is_inactive_status (fst c) = true) spell ->
  let final :=
    Logger.log_changes self "Active" ((s1, t1) :: spell ++ [("Active", t)]) in
  Logger.last_inactive_start final = None /\
  exists quiet last_row,
    Logger.rows final = (Logger.rows self ++ quiet ++ [last_row])%list /\
    List.length quiet = S (List.length spell) /\
    Forall (fun r => Logger.inactive_duration r = None) quiet /\
    Logger.status last_row = "Active" /\
    Logger.inactive_duration last_row = Some (t - t1).
Proof.
  intros Hs1 Hall. cbn [Logger.log_changes].
  rewrite (change_into_spell self s1 0.0 0.0 t1 Hs1).
  destruct (spell_rows spell
              (Logger.mk (Some t1)
                 (Logger.rows self
                  ++ [Logger.mk_row s1 (Logger.StatusChanged "Active" s1)
                                    0 0.0 0.0 None]))
              s1 t1 t Hs1 eq_refl Hall)
    as [Hnone [quiet [last_row [Hrows [Hlen [Hquiet [Hst Hdur]]]]]]].
  split; [exact Hnone|].
  exists (Logger.mk_row s1 (Logger.StatusChanged "Active" s1) 0 0.0 0.0 None
          :: quiet), last_row.
  split; [|repeat split].
  - rewrite Hrows. cbn [Logger.rows]. rewrite <- app_assoc. reflexivity.
  - cbn [List.length]. rewrite Hlen. reflexivity.
  - constructor; [reflexivity | exact Hquiet].
  - exact Hst.
  - exact Hdur.
Qed.

Lemma X14_inactive_spell_duration_witness :
  let self := Logger.mk (Some 1) [] in
  let spell := [("Yawning", 12); ("Drowsy", 15)] in
  Logger._is_inactive_status "Drowsy" = true /\
  Forall (fun c : string * Q => Logger._is_inactive_status (fst c) = true) spell /\
  exists quiet last_row,
    Logger.rows
      (Logger.log_changes self "Active"
         (("Drowsy", 10) :: spell ++ [("Active", 20)]))
    = (Logger.rows self ++ quiet ++ [last_row])%list /\
    Logger.inactive_duration last_row = Some (20 - 10).
Proof.
  intros self spell.
  assert (H1 : Logger._is_inactive_status "Drowsy" = true) by reflexivity.
  assert (H2 : Forall (fun c : string * Q =>
                         Logger._is_inactive_status (fst c) = true) spell)
    by (repeat constructor).
  split; [exact H1|]. split; [exact H2|].
  destruct (X14_inactive_spell_duration self "Drowsy" 10 spell 20 H1 H2)
    as [_ [quiet [last_row [Hrows [_ [_ [_ Hdur]]]]]]].
  exists quiet, last_row. split; [exact Hrows | exact Hdur].
Defined.

(** ** Minimum, mean and maximum *)

Lemma Qlist_min_le (rest : list Q) : forall x,
  Qlist_min x rest <= x /\ Forall (fun y => Qlist_min x rest <= y) rest.
Proof.
  unfold Qlist_min.
  induction rest as [|y rest IH]; intro x; cbn [fold_left].
  - split; [apply Qle_refl | constructor].
  - destruct (IH (Qmin x y)) as [Hhead Hrest]. split.
    + eapply Qle_trans; [exact Hhead | apply Q.le_min_l].
    + constructor; [eapply Qle_trans; [exact Hhead | apply Q.le_min_r]
                   | exact Hrest].
Qed.

Lemma Qlist_max_ge (rest : list Q) : forall x,
  x <= Qlist_max x rest /\ Forall (fun y => y <= Qlist_max x rest) rest.
Proof.
  unfold Qlist_max.
  induction rest as [|y rest IH]; intro x; cbn [fold_left].
  - split; [apply Qle_refl | constructor].
  - destruct (IH (Qmax x y)) as [Hhead Hrest]. split.
    + eapply Qle_trans; [apply Q.le_max_l | exact Hhead].
    + constructor; [eapply Qle_trans; [apply Q.le_max_r | exact Hhead]
                   | exact Hrest].
Qed.

Lemma Qmin_cases (x y : Q) : Qmin x y = x \/ Qmin x y = y.
Proof. unfold Qmin, GenericMinMax.gmin. destruct (x ?= y); auto. Qed.

Lemma Qmax_cases (x y : Q) : Qmax x y = x \/ Qmax x y = y.
Proof. unfold Qmax, GenericMinMax.gmax. destruct (x ?= y); auto. Qed.

Lemma Qlist_min_in (rest : list Q) : forall x,
  In (Qlist_min x rest) (x :: rest).
Proof.
  unfold Qlist_min.
  induction rest as [|y rest IH]; intro x; cbn [fold_left].
  - left. reflexivity.
  - specialize (IH (Qmin x y)).
    destruct (Qmin_cases x y) as [E|E]; rewrite E in IH |- *;
      destruct IH as [H|H];
      [left | right; right | right; left | right; right]; exact H.
Qed.

Lemma Qlist_max_in (rest : list Q) : forall x,
  In (Qlist_max x rest) (x :: rest).
Proof.
  unfold Qlist_max.
  induction rest as [|y rest IH]; intro x; cbn [fold_left].
  - left. reflexivity.
  - specialize (IH (Qmax x y)).
    destruct (Qmax_cases x y) as [E|E]; rewrite E in IH |- *;
      destruct IH as [H|H];
      [left | right; right | right; left | right; right]; exact H.
Qed.

(** [min] and [max] select values of the list, and every value lies
    between them; no rounding is involved. *)
Lemma Qlist_extremes (x : Q) (rest : list Q) :
  In (Qlist_min x rest) (x :: rest) /\
  In (Qlist_max x rest) (x :: rest) /\
  Forall (fun y => Qlist_min x rest <= y /\ y <= Qlist_max x rest) (x :: rest).
Proof.
  split; [apply Qlist_min_in|]. split; [apply Qlist_max_in|].
  destruct (Qlist_min_le rest x) as [Hmin Hmins].
  destruct (Qlist_max_ge rest x) as [Hmax Hmaxs].
  constructor; [split; assumption|].
  rewrite Forall_forall in *. intros y Hy.
  split; [apply Hmins | apply Hmaxs]; exact Hy.
Qed.

(** ** The log statistics *)

Section LogStatsFacts.

Import LogStats.

Variable one_decimal : Q -> Q.

Lemma count_get_set counts status v other :
  count_get (count_set counts status v) other
  = if String.eqb status other then v else count_get counts other.
Proof.
  induction counts as [|[k old] rest IH]; cbn [count_set count_get].
  - reflexivity.
  - destruct (String.eqb_spec k status) as [Hks|Hks].
    + subst k. cbn [count_get]. destruct (String.eqb status other); reflexivity.
    + cbn [count_get]. rewrite IH.
      destruct (String.eqb_spec k other) as [Hko|Hko]; [|reflexivity].
      subst k. destruct (String.eqb_spec status other) as [Hso|Hso];
        [symmetry in Hso; contradiction | reflexivity].
Qed.

Lemma count_set_sum counts status :
  list_sum (map snd (count_set counts status (count_get counts status + 1)))
  = S (list_sum (map snd counts)).
Proof.
  unfold list_sum.
  induction counts as [|[k old] rest IH]; cbn [count_set count_get].
  - reflexivity.
  - destruct (String.eqb k status); cbn [map snd fold_right]; [lia|].
    rewrite IH. cbn [map snd fold_right]. lia.
Qed.

Lemma tally_from rows : forall acc,
  let result := fold_left (tally_row one_decimal) rows acc in
  (forall status,
      count_get (fst result) status
      = (count_get (fst acc) status
         + List.length
             (filter (fun r => String.eqb (Logger.status r) status) rows))%nat) /\
  list_sum (map snd (fst result))
  = (list_sum (map snd (fst acc)) + List.length rows)%nat /\
  snd result
  = (snd acc
     ++ flat_map (fun r => match Logger.inactive_duration r with
                           | Some d => [one_decimal d]
                           | None => []
                           end) rows)%list.
Proof.
  induction rows as [|r rows IH]; intro acc; cbn [fold_left].
  - cbn. rewrite app_nil_r. repeat split; lia.
  - destruct (IH (tally_row one_decimal acc r)) as [Hcount [Hsum Hdur]]. cbv zeta.
    assert (Hfst : fst (tally_row one_decimal acc r)
                   = count_set (fst acc) (Logger.status r)
                               (count_get (fst acc) (Logger.status r) + 1)).
    { destruct acc as [c d]. unfold tally_row.
      destruct (Logger.inactive_duration r); reflexivity. }
    assert (Hsnd : snd (tally_row one_decimal acc r)
                   = (snd acc ++ match Logger.inactive_duration r with
                                 | Some d => [one_decimal d]
                                 | None => []
                                 end)%list).
    { destruct acc as [c d]. unfold tally_row.
      destruct (Logger.inactive_duration r); cbn [snd];
        [reflexivity | rewrite app_nil_r; reflexivity]. }
    split; [|split].
    + intro status. rewrite Hcount, Hfst, count_get_set. cbn [filter].
      destruct (String.eqb_spec (Logger.status r) status) as [E|E];
        [rewrite E|]; cbn [List.length]; lia.
    + rewrite Hsum, Hfst, count_set_sum. cbn [List.length]. lia.
    + rewrite Hdur, Hsnd, <- app_assoc. reflexivity.
Qed.

Lemma tally_counts rows :
  let result := tally one_decimal rows in
  (forall status,
      count_get (fst result) status
      = List.length
          (filter (fun r => String.eqb (Logger.status r) status) rows)) /\
  list_sum (map snd (fst result)) = List.length rows /\
  snd result
  = flat_map (fun r => match Logger.inactive_duration r with
                       | Some d => [one_decimal d]
                       | None => []
                       end) rows.
Proof.
  destruct (tally_from rows ([], [])) as [Hcount [Hsum Hdur]].
  fold (tally one_decimal rows) in Hcount, Hsum, Hdur.
  cbv zeta. repeat split.
  - intro status. rewrite Hcount. reflexivity.
  - rewrite Hsum. reflexivity.
  - rewrite Hdur. reflexivity.
Qed.

Lemma durations_of_rows (rows : list Logger.row) :
  let durations :=
    flat_map (fun r => match Logger.inactive_duration r with
                       | Some d => [one_decimal d]
                       | None => []
                       end) rows in
  List.length durations
  = List.length
      (filter (fun r => match Logger.inactive_duration r with
                        | Some _ => true
                        | None => false
                        end) rows) /\
  (durations = [] -> Forall (fun r => Logger.inactive_duration r = None) rows).
Proof.
  induction rows as [|r rows [IHlen IHnil]]; cbn [flat_map filter].
  - split; [reflexivity | constructor].
  - destruct (Logger.inactive_duration r) eqn:E; cbn [app List.length].
    + split; [rewrite IHlen; reflexivity | discriminate].
    + split; [exact IHlen|]. intro H. constructor; [exact E | exact (IHnil H)].
Qed.

End LogStatsFacts.

(** X15.  [get_log_stats] counts the rows of the log: it answers
    [{"total_events": 0}] exactly for a log without rows; otherwise
    [total_events] is the number of rows, [status_counts] gives for every
    status the number of rows that carry it (0 for a status that is not a
    key) and its values add up to [total_events], [latest_entry] is the
    last row, and the inactive statistics are absent exactly when no row
    carries a duration.  When present they count the rows that carry one,
    the minimum and the maximum are durations read from rows of the log,
    and the duration read from every row lies between them.  Nothing is
    claimed of the average, which is a quotient of rounded sums. *)
Theorem X15_log_stats_count_the_rows
        (one_decimal : Q -> Q) (float_mean : list Q -> Q)
        (self : Logger.ActivityLogger) :
  match LogStats.get_log_stats one_decimal float_mean self with
  | LogStats.NoEvents => Logger.rows self = []
  | LogStats.Stats total_events status_counts inactive latest_entry =>
    total_events = List.length (Logger.rows self) /\
    (0 < total_events)%nat /\
    (forall status,
        LogStats.count_get status_counts status
        = List.length
            (filter (fun r => String.eqb (Logger.status r) status)
                    (Logger.rows self))) /\
    list_sum (map snd status_counts) = total_events /\
    (exists before, Logger.rows self = (before ++ [latest_entry])%list) /\
    match inactive with
    | None =>
      Forall (fun r => Logger.inactive_duration r = None) (Logger.rows self)
    | Some stats =>
      let lowest := LogStats.min_inactive_duration stats in
      let highest := LogStats.max_inactive_duration stats in
      LogStats.total_inactive_periods stats
      = List.length
          (filter (fun r => match Logger.inactive_duration r with
                            | Some _ => true
                            | None => false
                            end) (Logger.rows self)) /\
      (0 < LogStats.total_inactive_periods stats)%nat /\
      (exists r d, In r (Logger.rows self) /\
                   Logger.inactive_duration r = Some d /\
                   one_decimal d = lowest) /\
      (exists r d, In r (Logger.rows self) /\
                   Logger.inactive_duration r = Some d /\
                   one_decimal d = highest) /\
      (forall r d, In r (Logger.rows self) ->
                   Logger.inactive_duration r = Some d ->
                   lowest <= one_decimal d /\ one_decimal d <= highest)
    end
  end.
Proof.
  unfold LogStats.get_log_stats.
  destruct (Logger.rows self) as [|first rows] eqn:Hrows; [reflexivity|].
  rewrite <- Hrows.
  destruct (tally_counts one_decimal (Logger.rows self)) as [Hcount [Hsum Hdur]].
  destruct (LogStats.tally one_decimal (Logger.rows self))
    as [status_counts inactive_durations].
  cbn [fst snd] in Hcount, Hsum, Hdur.
  destruct (durations_of_rows one_decimal (Logger.rows self)) as [Hlen Hnil].
  cbv zeta in Hlen, Hnil. rewrite <- Hdur in Hlen, Hnil.
  assert (Hread : forall x,
             In x inactive_durations <->
             exists r d, In r (Logger.rows self) /\
                         Logger.inactive_duration r = Some d /\
                         one_decimal d = x).
  { intro x. rewrite Hdur, in_flat_map. split.
    - intros [r [Hr Hx]]. destruct (Logger.inactive_duration r) as [d|] eqn:Hd;
        [|contradiction].
      destruct Hx as [Hx|[]]. exists r, d. repeat split; assumption.
    - intros [r [d [Hr [Hd Hx]]]]. exists r. split; [exact Hr|].
      rewrite Hd. left. exact Hx. }
  split; [reflexivity|]. split; [rewrite Hrows; cbn; lia|].
  split; [exact Hcount|]. split; [exact Hsum|]. split.
  - rewrite Hrows.
    exists (removelast (first :: rows)).
    apply app_removelast_last. discriminate.
  - destruct inactive_durations as [|d0 more]; [apply Hnil; reflexivity|].
    cbn [LogStats.total_inactive_periods LogStats.min_inactive_duration
         LogStats.average_inactive_duration LogStats.max_inactive_duration].
    cbv zeta.
    destruct (Qlist_extremes d0 more) as [Hlow [Hhigh Hall]].
    split; [exact Hlen|]. split; [cbn; lia|].
    split; [apply Hread; exact Hlow|]. split; [apply Hread; exact Hhigh|].
    intros r d Hr Hd. rewrite Forall_forall in Hall. apply Hall.
    apply Hread. exists r, d. repeat split; assumption.
Qed.

(** ** What the monitor says, and how the sink queues it *)

Section AnnouncementFacts.

Import Monitor.

Variable norm : point -> point -> Q.

Ltac listed := cbn [In announcements]; tauto.

Lemma announced_speak text m :
  In text announcements -> announced m -> announced (speak text m).
Proof.
  intros Htext Hm. unfold announced, speak. cbn [spoken set_spoken].
  apply Forall_app. split; [exact Hm | constructor; [exact Htext | constructor]].
Qed.

Lemma announced_maybe_speak (b : bool) text m :
  In text announcements -> announced m ->
  announced (if b then speak text m else m).
Proof.
  intros Htext Hm. destruct b; [apply announced_speak; assumption | exact Hm].
Qed.

Lemma announced_update_status m status now :
  In status announcements -> announced m ->
  announced (update_status m status now).
Proof.
  intros Hstatus Hm. unfold update_status.
  destruct (negb (String.eqb status (current_status m))); [|exact Hm].
  apply announced_speak; [exact Hstatus | exact Hm].
Qed.

Lemma announced_reset m now :
  announced m -> announced (reset_inactivity_tracking m now).
Proof.
  intro Hm.
  assert (Hsaid : announced
                    (speak "User Active Again"
                       (set_activity_logger
                          (Logger.log_inactive_to_active_transition
                             (activity_logger m) (now - 0) (last_ear m)
                             (last_mar m)) m)))
    by (apply announced_speak; [listed | exact Hm]).
  unfold announced in *. unfold reset_inactivity_tracking.
  case_branches; exact Hsaid || exact Hm.
Qed.

Lemma announced_handle m status t r :
  announced m -> announced (handle_inactivity_tracking m status t r).
Proof.
  intro Hm. unfold handle_inactivity_tracking.
  destruct (negb (String.eqb status "Active")); [|apply announced_reset; exact Hm].
  assert (Hescalated : forall x,
             spoken x = spoken m ->
             announced (speak "User Inactive Too Long"
                          (set_emergency_triggered true (trigger_emergency x)))).
  { intros x Hx. apply announced_speak; [listed|].
    unfold announced, trigger_emergency. cbn. rewrite Hx.
    apply Forall_app. split; [exact Hm | constructor; [listed | constructor]]. }
  destruct (inactive_start_time m) eqn:Hstart; cbv zeta;
    match goal with
    | |- announced (if ?b then _ else _) => destruct b
    end; try exact Hm; try (apply Hescalated; reflexivity).
Qed.

Lemma determine_status_keeps_spoken m ear mar :
  spoken (fst (determine_status_simple m ear mar)) = spoken m.
Proof. unfold determine_status_simple. case_branches; reflexivity. Qed.

Lemma announced_frame m f m' :
  process_frame norm m f = Some m' -> announced m -> announced m'.
Proof.
  intros H Hm. destruct (process_frame_paths norm m f m' H)
    as [[_ Hm'] | [[_ [detector [status [Hp Hm']]]] | [_ Hm']]];
    cbv zeta in Hm'; rewrite Hm'.
  - apply announced_maybe_speak; [listed|]. apply announced_handle.
    apply announced_update_status; [listed | exact Hm].
  - pose proof (check_face_presence_names _ _ _ _ _ _ Hp) as Hn.
    apply announced_update_status; [cbn [In] in Hn; listed|].
    apply announced_maybe_speak; [listed|]. apply announced_handle. exact Hm.
  - destruct (single_face_form norm m f)
      as [eye [ear [yawn [mar [m3 [status [_ [Hdet Hform]]]]]]]].
    rewrite Hform.
    match type of Hdet with
    | determine_status_simple ?x _ _ = _ =>
      pose proof (determine_status_names x ear mar) as Hn;
        pose proof (determine_status_keeps_spoken x ear mar) as Hs
    end.
    rewrite Hdet in Hn, Hs. cbn [fst snd] in Hn, Hs.
    apply announced_update_status; [cbn [In] in Hn; listed|].
    apply announced_handle. unfold announced. rewrite Hs. exact Hm.
Qed.

Lemma reachable_announced m : reachable norm m -> announced m.
Proof.
  induction 1 as [pygame_ok tts_ok now now_presence
                 | m camera_ok Hm IH | m Hm IH
                 | m camera_ok now now_presence Hm IH
                 | m now Hm IH
                 | m f m' Hm IH Hcam Hdet Hframe].
  - constructor.
  - unfold open_camera. destruct camera_ok; [|exact IH].
    apply announced_speak; [listed | exact IH].
  - unfold close_camera. destruct (cap m); [|exact IH].
    apply announced_speak; [listed | exact IH].
  - unfold start_detection.
    destruct (camera_open m); [|destruct camera_ok]; [| |exact IH].
    + apply announced_speak; [listed | exact IH].
    + apply announced_speak; [listed|].
      change (announced (speak "Detection Started" (speak "Camera Opened" m))).
      apply announced_speak; [listed|]. apply announced_speak; [listed | exact IH].
  - unfold stop_detection. apply announced_update_status; [listed|].
    change (announced (speak "Detection Stopped" m)).
    apply announced_speak; [listed | exact IH].
  - exact (announced_frame m f m' Hframe IH).
Qed.

End AnnouncementFacts.

(** X16.  Everything a monitor says between [__init__] and the closing of
    the application is one of fifteen texts, whatever buttons are pressed
    and whatever frames arrive.  The sink treats only "Drowsy" and
    "Not Awake" among them as critical: the announcement of an emergency
    ("Emergency Alert", "User Inactive Too Long") is queued with normal
    priority, and none of the monitor's own texts has an entry in the
    sink's table of messages except the status names. *)
Theorem X16_monitor_announcements :
  forall (norm : point -> point -> Q) (m : Monitor.AttentivenessMonitor),
    Monitor.reachable norm m ->
    Forall (fun text => In text Monitor.announcements) (Monitor.spoken m) /\
    Forall (fun text =>
              Feedback.priority_of text = "high" ->
              text = "Drowsy" \/ text = "Not Awake")
           (Monitor.spoken m) /\
    ~ In "Emergency" (Monitor.spoken m).
Proof.
  intros norm m Hreach.
  pose proof (reachable_announced norm m Hreach) as Hm.
  unfold Monitor.announced in Hm. split; [exact Hm|]. split.
  - eapply Forall_impl; [|exact Hm]. intros text Hin Hhigh.
    cbn [In Monitor.announcements] in Hin.
    repeat (destruct Hin as [Hin|Hin];
            [subst text; first [left; reflexivity | right; reflexivity
                                | discriminate Hhigh]|]).
    contradiction.
  - intro Hin. rewrite Forall_forall in Hm. specialize (Hm _ Hin).
    cbn [In Monitor.announcements] in Hm.
    repeat (destruct Hm as [Hm|Hm]; [discriminate Hm|]). contradiction.
Qed.

Lemma after_frames_cons m f frames :
  after_frames m (f :: frames) = after_frames (after_frames m [f]) frames.
Proof. reflexivity. Qed.

Lemma X16_monitor_announcements_witness :
  let crowded := after_frames started [sample_frame 2 6 8 10; sample_frame 2 6 8 16] in
  Monitor.reachable pixel_norm crowded /\
  In "Emergency Alert" (Monitor.spoken crowded) /\
  Forall (fun text =>
            Feedback.priority_of text = "high" ->
            text = "Drowsy" \/ text = "Not Awake")
         (Monitor.spoken crowded).
Proof.
  intro crowded.
  assert (Hreach : Monitor.reachable pixel_norm crowded).
  { unfold crowded. rewrite after_frames_cons.
    apply reachable_after_frame;
      [|vm_compute; reflexivity|vm_compute; reflexivity].
    apply reachable_after_frame;
      [exact started_reachable|reflexivity|reflexivity]. }
  split; [exact Hreach|]. split; [vm_compute; tauto|].
  exact (proj1 (proj2 (X16_monitor_announcements pixel_norm crowded Hreach))).
Defined.

Section SinkFacts.

Import Feedback.

Lemma get_not_nil (d : list (string * list string)) key default :
  Forall (fun kv => snd kv <> []) d -> default <> [] -> get d key default <> [].
Proof.
  intros Hd Hdefault. induction d as [|[k v] rest IH]; cbn [get]; [exact Hdefault|].
  destruct (String.eqb k key).
  - exact (Forall_inv Hd).
  - apply IH. exact (Forall_inv_tail Hd).
Qed.

Lemma status_messages_not_nil :
  Forall (fun kv : string * list string => snd kv <> []) status_messages.
Proof. unfold status_messages. repeat constructor; discriminate. Qed.

(** [random.choice], or [messages[0]], always lands inside [messages]. *)
Lemma chosen_message (messages : list string) pick :
  messages <> [] ->
  In (if (1 <? List.length messages)%nat
      then nth (pick mod List.length messages) messages ""
      else nth 0 messages "")
     messages.
Proof.
  intro Hne. destruct messages as [|first rest]; [contradiction|].
  destruct (1 <? List.length (first :: rest))%nat.
  - apply nth_In. apply Nat.mod_upper_bound. discriminate.
  - left. reflexivity.
Qed.

Lemma no_engine_step self c :
  tts_engine self = false /\ speech_queue self = [] /\ is_speaking self = false ->
  tts_engine (step self c) = false /\ speech_queue (step self c) = []
  /\ is_speaking (step self c) = false.
Proof.
  intros [Hengine [Hqueue Hspeaking]].
  destruct c; cbn [step];
    unfold speak_status, speak_custom_message, speak_head_pose_feedback,
      speak_custom_message, reset_speech_timing, _clear_speech_queue,
      worker_get, worker_done;
    rewrite ?Hengine, ?Hqueue; cbn [negb];
    try (destruct (Qltb attention_score 50));
    rewrite ?Hengine; cbn [negb tts_engine speech_queue is_speaking];
    repeat split; assumption.
Qed.

End SinkFacts.

(** X17.  [speak_status] either returns at one of its three guards and
    leaves the sink as it was, or queues one message: a message of the
    status's list in [status_messages] whatever [random.choice] draws, or
    "Status update: <status>" for a status without a list.  A critical
    status is queued with priority "high" on an emptied queue, so that it
    is the only request waiting; any other status is queued with priority
    "normal" behind the requests already there.  The status and the clock
    reading are remembered for the next call. *)
Theorem X17_accepted_status_is_queued
        (self : Feedback.AIFeedback) (status : string) (now : Q) (pick : nat) :
  let self' := Feedback.speak_status self status now pick in
  (Feedback.accepts self status now = false -> self' = self) /\
  (Feedback.accepts self status now = true ->
   exists message,
     In message
        (Feedback.get Feedback.status_messages status
                      [("Status update: " ++ status)%string]) /\
     Feedback.speech_queue self'
     = ((if Feedback.is_critical status then [] else Feedback.speech_queue self)
        ++ [(message, if Feedback.is_critical status then "high" else "normal")])%list /\
     (Feedback.is_critical status = true -> Feedback.get_queue_size self' = 1%nat) /\
     (Feedback.is_critical status = false ->
      Feedback.get_queue_size self' = S (Feedback.get_queue_size self)) /\
     Feedback.last_spoken_status self' = Some status /\
     Feedback.last_speech_time self' = now /\
     Feedback.is_speaking self' = Feedback.is_speaking self).
Proof.
  cbv zeta. unfold Feedback.accepts, Feedback.speak_status.
  destruct (Feedback.tts_engine self); cbn [negb andb];
    [|split; [reflexivity | discriminate]].
  destruct (Feedback.same_status (Feedback.last_spoken_status self) status
            && Qltb (now - Feedback.last_speech_time self)
                    (Feedback.min_speech_interval self)); cbn [negb andb];
    [split; [reflexivity | discriminate]|].
  destruct (Feedback.is_speaking self && negb (Feedback.is_critical status));
    cbn [negb]; [split; [reflexivity | discriminate]|].
  split; [discriminate|]. intros _.
  eexists. split.
  - apply chosen_message. apply get_not_nil;
      [exact status_messages_not_nil | discriminate].
  - unfold Feedback.priority_of, Feedback.get_queue_size.
    cbn [Feedback.speech_queue Feedback.last_spoken_status
         Feedback.last_speech_time Feedback.is_speaking].
    destruct (Feedback.is_critical status); cbn [String.eqb Ascii.eqb Bool.eqb];
      repeat split; try discriminate;
      intros _; rewrite ?length_app; cbn [List.length]; lia.
Qed.

(** X18.  When pyttsx3 fails to initialise, the sink stays inert: whatever
    is asked of it ([speak_status], [speak_custom_message],
    [speak_head_pose_feedback], resets, rounds of the worker), nothing is
    ever queued and nothing is ever being spoken. *)
Theorem X18_sink_without_engine_is_inert (cs : list Feedback.call) :
  let self := Feedback.calls (Feedback.init false) cs in
  Feedback.tts_engine self = false /\
  Feedback.get_queue_size self = 0%nat /\
  Feedback.is_currently_speaking self = false.
Proof.
  cbv zeta.
  assert (H : forall self : Feedback.AIFeedback,
             Feedback.tts_engine self = false /\ Feedback.speech_queue self = []
             /\ Feedback.is_speaking self = false ->
             Feedback.tts_engine (Feedback.calls self cs) = false
             /\ Feedback.speech_queue (Feedback.calls self cs) = []
             /\ Feedback.is_speaking (Feedback.calls self cs) = false).
  { induction cs as [|c cs IH]; intros self Hself; [exact Hself|].
    cbn [Feedback.calls fold_left]. apply IH. apply no_engine_step. exact Hself. }
  destruct (H (Feedback.init false)) as [He [Hq Hs]]; [repeat split|].
  unfold Feedback.get_queue_size, Feedback.is_currently_speaking.
  rewrite Hq. repeat split; assumption.
Qed.

(** ** The drowsiness test *)

Section EyeFacts.

Variable norm : point -> point -> Q.

Lemma length_push window history x :
  (List.length history <= window)%nat ->
  (List.length (push window history x) <= window)%nat.
Proof.
  intro H. unfold push.
  destruct (window <? List.length (history ++ [x]))%nat eqn:E.
  - destruct history as [|y rest]; cbn [app tl List.length] in *; [lia|].
    rewrite length_app. cbn [List.length]. lia.
  - apply Nat.ltb_ge in E. exact E.
Qed.

Lemma eye_steady_step self c : Eye.steady self -> Eye.steady (Eye.step norm self c).
Proof.
  intros [Ht [Hc [Hs [Hcount [Hlen Hmean]]]]].
  destruct c as [lm hp|ear turned|]; cbn [Eye.step].
  - unfold Eye.calculate_ear, calculate_ear. cbn [fst]. unfold Eye.steady, Eye.last_ear.
    cbn [Eye.tracker Eye.ear_threshold Eye.consecutive_frames
         Eye.stable_threshold Eye.drowsy_frame_count Eye.stable_drowsy_count
         ear_history eye_last_ear].
    repeat split; try assumption.
    apply length_push. exact Hlen.
  - unfold Eye.is_drowsy.
    destruct turned; [|destruct (Qltb _ _)]; cbn [fst];
      unfold Eye.steady, Eye.set_counts, Eye.last_ear in *;
      cbn [Eye.tracker Eye.ear_threshold Eye.consecutive_frames
           Eye.stable_threshold Eye.drowsy_frame_count Eye.stable_drowsy_count];
      repeat split; try assumption; rewrite Hcount; reflexivity.
  - unfold Eye.reset_state, Eye.steady, Eye.last_ear.
    cbn [Eye.tracker Eye.ear_threshold Eye.consecutive_frames
         Eye.stable_threshold Eye.drowsy_frame_count Eye.stable_drowsy_count
         ear_history eye_last_ear List.length].
    repeat split; try assumption; try lia. intro H. contradiction.
Qed.

Lemma eye_steady_calls cs : forall self,
  Eye.steady self -> Eye.steady (Eye.calls norm self cs).
Proof.
  induction cs as [|c cs IH]; intros self H; [exact H|].
  cbn [Eye.calls fold_left]. apply IH. apply eye_steady_step. exact H.
Qed.

Lemma eye_init_steady : Eye.steady Eye.init.
Proof.
  unfold Eye.steady, Eye.init, Eye.last_ear. cbn. repeat split; try lia.
  intro H. contradiction.
Qed.

Lemma is_drowsy_answer self ear turned :
  Eye.steady self ->
  snd (Eye.is_drowsy self ear turned)
  = negb turned && Qltb (Eye.or_last self ear) 0.22
    && (3 <=? Eye.drowsy_frame_count self)%nat.
Proof.
  intros [Ht [Hc [Hs [Hcount _]]]]. unfold Eye.is_drowsy.
  destruct turned; [reflexivity|]. rewrite Ht. cbn [negb andb].
  destruct (Qltb (Eye.or_last self ear) 0.22); cbn [snd andb];
    unfold Eye.set_counts;
    cbn [Eye.consecutive_frames Eye.stable_threshold Eye.drowsy_frame_count
         Eye.stable_drowsy_count];
    rewrite Hc, Hs, <- ?Hcount.
  - destruct (Eye.drowsy_frame_count self) as [|[|[|n]]]; try reflexivity.
    replace (S (S (S n)) + 1)%nat with (S (S (S (S n)))) by lia. reflexivity.
  - reflexivity.
Qed.

Lemma is_drowsy_run_low ears : forall self,
  Eye.steady self ->
  Forall (fun ear => ear < 0.22) ears ->
  let result := Eye.is_drowsy_run self ears in
  snd result
  = map (fun k => (4 <=? Eye.drowsy_frame_count self + k)%nat)
        (seq 1 (List.length ears)) /\
  Eye.drowsy_frame_count (fst result)
  = (Eye.drowsy_frame_count self + List.length ears)%nat /\
  Eye.steady (fst result).
Proof.
  induction ears as [|ear ears IH]; intros self Hself Hlow.
  - cbn. split; [reflexivity|]. split; [lia | exact Hself].
  - pose proof (Forall_inv Hlow) as Hear. cbv beta in Hear.
    pose proof (Forall_inv_tail Hlow) as Hrest.
    cbn [Eye.is_drowsy_run].
    pose proof (is_drowsy_answer self (Some ear) false Hself) as Hanswer.
    pose proof (eye_steady_step self (Eye.IsDrowsy (Some ear) false) Hself) as Hnext.
    cbn [Eye.step] in Hnext.
    assert (Hlt : Qltb ear 0.22 = true).
    { unfold Qltb. destruct (Qle_bool 0.22 ear) eqn:E; [|reflexivity].
      apply Qle_bool_iff in E. exfalso. lra. }
    assert (Hcount : Eye.drowsy_frame_count (fst (Eye.is_drowsy self (Some ear) false))
                     = S (Eye.drowsy_frame_count self)).
    { unfold Eye.is_drowsy. cbn [Eye.or_last]. destruct Hself as [Ht _].
      rewrite Ht, Hlt. cbn. lia. }
    destruct (Eye.is_drowsy self (Some ear) false) as [self1 answer].
    cbn [fst snd Eye.or_last] in *.
    destruct (IH self1 Hnext Hrest) as [Hanswers [Hfinal Hsteady]].
    destruct (Eye.is_drowsy_run self1 ears) as [self2 answers].
    cbn [fst snd] in *. cbv zeta. cbn [fst snd List.length seq map].
    split; [|split; [rewrite Hfinal, Hcount; lia | exact Hsteady]].
    rewrite Hanswer, Hlt, Hanswers, Hcount. cbn [negb andb]. f_equal.
    + destruct (Eye.drowsy_frame_count self) as [|[|[|n]]]; try reflexivity.
      replace (S (S (S n)) + 1)%nat with (S (S (S (S n)))) by lia. reflexivity.
    + rewrite <- (seq_shift (List.length ears) 1), map_map.
      apply map_ext. intro k.
      replace (S (Eye.drowsy_frame_count self) + k)%nat
        with (Eye.drowsy_frame_count self + S k)%nat by lia.
      reflexivity.
Qed.

End EyeFacts.

(** X19.  Whatever calls an [EyeTracker] has received ([calculate_ear],
    [is_drowsy], [reset_state], in any order and with any arguments), its
    two counters are equal, so the stability test of [is_drowsy] never
    decides; and the next [is_drowsy] answers True exactly when the head is
    not turned away, the EAR it tests is below 0.22 and the three
    [is_drowsy] calls before it were counted too: from the fourth
    consecutive low reading on. *)
Theorem X19_drowsy_answer_by_counter
        (norm : point -> point -> Q) (cs : list Eye.call)
        (ear : option Q) (head_turned_away : bool) :
  let self := Eye.calls norm Eye.init cs in
  Eye.drowsy_frame_count self = Eye.stable_drowsy_count self /\
  snd (Eye.is_drowsy self ear head_turned_away)
  = negb head_turned_away && Qltb (Eye.or_last self ear) 0.22
    && (3 <=? Eye.drowsy_frame_count self)%nat /\
  (Eye.drowsy_frame_count (fst (Eye.is_drowsy self ear head_turned_away))
   = if negb head_turned_away && Qltb (Eye.or_last self ear) 0.22
     then S (Eye.drowsy_frame_count self) else 0%nat).
Proof.
  cbv zeta.
  pose proof (eye_steady_calls norm cs Eye.init eye_init_steady) as Hself.
  split; [exact (proj1 (proj2 (proj2 (proj2 Hself))))|].
  split; [exact (is_drowsy_answer _ ear head_turned_away Hself)|].
  unfold Eye.is_drowsy. destruct Hself as [Ht _]. rewrite Ht.
  destruct head_turned_away; [reflexivity|]. cbn [negb andb].
  destruct (Qltb _ 0.22); cbn; lia.
Qed.

(** X20.  A run of [is_drowsy] calls with EAR below 0.22 and the head not
    turned, entered with the counter at [c] on a tracker with any history
    of calls, answers False until the counter reaches 4 and True from then
    on: from a counter of 0 the answers are False, False, False, True,
    True, ... *)
Theorem X20_drowsy_from_fourth_low_call
        (norm : point -> point -> Q) (cs : list Eye.call) (ears : list Q) :
  Forall (fun ear => ear < 0.22) ears ->
  let self := Eye.calls norm Eye.init cs in
  let result := Eye.is_drowsy_run self ears in
  snd result
  = map (fun k => (4 <=? Eye.drowsy_frame_count self + k)%nat)
        (seq 1 (List.length ears)) /\
  Eye.drowsy_frame_count (fst result)
  = (Eye.drowsy_frame_count self + List.length ears)%nat.
Proof.
  intros Hlow self result.
  destruct (is_drowsy_run_low norm ears self
              (eye_steady_calls norm cs Eye.init eye_init_steady) Hlow)
    as [Hanswers [Hcount _]].
  split; [exact Hanswers | exact Hcount].
Qed.

Lemma X20_drowsy_from_fourth_low_call_witness :
  let cs := [Eye.CalculateEar (face 6 8) None; Eye.IsDrowsy (Some 0.1) false;
             Eye.IsDrowsy None false] in
  let ears := [0.1; 0.2; 0.15; 0.21; 0.0] in
  Forall (fun ear => ear < 0.22) ears /\
  snd (Eye.is_drowsy_run (Eye.calls pixel_norm Eye.init cs) ears)
  = [false; false; false; true; true].
Proof.
  intros cs ears.
  assert (Hlow : Forall (fun ear => ear < 0.22) ears)
    by (repeat constructor; reflexivity).
  split; [exact Hlow|].
  exact (proj1 (X20_drowsy_from_fourth_low_call pixel_norm cs ears Hlow)).
Defined.

(** X21.  [get_drowsiness_level] is a scale: its values are 0, 20, 40, 60,
    80 and 100, a larger EAR never gives a higher level, and an EAR that
    [is_drowsy] counts as low (below 0.22) is at level 40 or more.
    [get_eye_status] names the bands of [last_ear]: "Eyes Closed" below
    0.16, "Very Drowsy" up to 0.20, "Moderately Drowsy" up to 0.24,
    "Slightly Drowsy" up to 0.28, "Normal" up to 0.35 and "Wide Awake" from
    there. *)
Theorem X21_drowsiness_scale (self : Eye.state) (ear1 ear2 : Q) :
  In (Eye.get_drowsiness_level self (Some ear1)) [0; 20; 40; 60; 80; 100]%nat /\
  (ear1 <= ear2 ->
   (Eye.get_drowsiness_level self (Some ear2)
    <= Eye.get_drowsiness_level self (Some ear1))%nat) /\
  (ear1 < 0.22 -> (40 <= Eye.get_drowsiness_level self (Some ear1))%nat) /\
  Eye.get_eye_status self
  = (if Qltb (Eye.last_ear self) 0.16 then "Eyes Closed"
     else if Qltb (Eye.last_ear self) 0.20 then "Very Drowsy"
     else if Qltb (Eye.last_ear self) 0.24 then "Moderately Drowsy"
     else if Qltb (Eye.last_ear self) 0.28 then "Slightly Drowsy"
     else if Qltb (Eye.last_ear self) 0.35 then "Normal"
     else "Wide Awake").
Proof.
  split; [|split; [|split]].
  - unfold Eye.get_drowsiness_level. cbn [Eye.or_last].
    case_branches; cbn [In]; tauto.
  - intro Hle. unfold Eye.get_drowsiness_level. cbn [Eye.or_last].
    destruct (Qleb 0.28 ear1) eqn:A1; destruct (Qleb 0.24 ear1) eqn:B1;
      destruct (Qleb 0.20 ear1) eqn:C1; destruct (Qleb 0.16 ear1) eqn:D1;
      destruct (Qleb 0.12 ear1) eqn:E1;
      destruct (Qleb 0.28 ear2) eqn:A2; destruct (Qleb 0.24 ear2) eqn:B2;
      destruct (Qleb 0.20 ear2) eqn:C2; destruct (Qleb 0.16 ear2) eqn:D2;
      destruct (Qleb 0.12 ear2) eqn:E2;
      try lia; exfalso; reflect_comparisons; lra.
  - intro Hlow. unfold Eye.get_drowsiness_level. cbn [Eye.or_last].
    destruct (Qleb 0.28 ear1) eqn:A1; destruct (Qleb 0.24 ear1) eqn:B1;
      destruct (Qleb 0.20 ear1) eqn:C1; destruct (Qleb 0.16 ear1) eqn:D1;
      destruct (Qleb 0.12 ear1) eqn:E1;
      try lia; exfalso; reflect_comparisons; lra.
  - unfold Eye.get_eye_status, Eye.get_drowsiness_level, Qltb, Qleb.
    cbn [Eye.or_last].
    destruct (Qle_bool 0.28 (Eye.last_ear self)) eqn:A1;
      destruct (Qle_bool 0.24 (Eye.last_ear self)) eqn:B1;
      destruct (Qle_bool 0.20 (Eye.last_ear self)) eqn:C1;
      destruct (Qle_bool 0.16 (Eye.last_ear self)) eqn:D1;
      destruct (Qle_bool 0.12 (Eye.last_ear self)) eqn:E1;
      destruct (Qle_bool 0.35 (Eye.last_ear self)) eqn:F1;
      cbn [Nat.leb negb]; try reflexivity; exfalso;
      repeat match goal with
             | E : Qle_bool _ _ = true |- _ => apply Qleb_true in E
             | E : Qle_bool _ _ = false |- _ => apply Qleb_false in E
             end; lra.
Qed.

(** X22.  Whatever calls an [EyeTracker] has received, [get_eye_statistics]
    reports at most 8 measurements, and the current EAR it reports is
    [last_ear].  With none, the average is 0.0, the level 0 and the
    extremes are absent; otherwise the minimum and the maximum are values
    of the window, every value of the window lies between them, and the
    level is that of the current EAR.  Nothing is claimed of the average,
    which is a quotient of rounded sums. *)
Theorem X22_eye_statistics
        (norm : point -> point -> Q) (float_mean : list Q -> Q)
        (cs : list Eye.call) :
  let self := Eye.calls norm Eye.init cs in
  let stats := Eye.get_eye_statistics float_mean self in
  let window := ear_history (Eye.tracker self) in
  (Eye.measurements_count stats <= 8)%nat /\
  Eye.measurements_count stats = List.length window /\
  Eye.current_ear stats = Eye.last_ear self /\
  match Eye.min_ear stats, Eye.max_ear stats with
  | Some lowest, Some highest =>
    (0 < Eye.measurements_count stats)%nat /\
    In lowest window /\ In highest window /\
    Forall (fun ear => lowest <= ear /\ ear <= highest) window /\
    Eye.drowsiness_level stats
    = Eye.get_drowsiness_level self (Some (Eye.current_ear stats))
  | None, None =>
    window = [] /\
    Eye.measurements_count stats = 0%nat /\
    Eye.average_ear stats = 0.0 /\
    Eye.drowsiness_level stats = 0%nat
  | _, _ => False
  end.
Proof.
  intros self stats window.
  destruct (eye_steady_calls norm cs Eye.init eye_init_steady)
    as [_ [_ [_ [_ [Hlen _]]]]].
  fold self in Hlen. fold window in Hlen.
  subst stats. unfold Eye.get_eye_statistics. fold window.
  destruct window as [|x rest] eqn:Hwindow.
  - cbn. repeat split; lia.
  - cbn [Eye.measurements_count Eye.min_ear Eye.max_ear Eye.current_ear
         Eye.average_ear Eye.drowsiness_level].
    destruct (Qlist_extremes x rest) as [Hlow [Hhigh Hall]].
    split; [exact Hlen|]. split; [reflexivity|]. split; [reflexivity|].
    split; [cbn; lia|]. split; [exact Hlow|]. split; [exact Hhigh|].
    split; [exact Hall | reflexivity].
Qed.

(** ** The yawn test *)

(** [nat_tests] splits the goal along the comparisons of natural numbers it
    contains, turning each into an inequality. *)
Ltac nat_tests :=
  repeat match goal with
         | |- context [(?a <=? ?b)%nat] =>
           let E := fresh "E" in
           destruct (a <=? b)%nat eqn:E;
           [apply Nat.leb_le in E | apply Nat.leb_gt in E]
         | |- context [(?a <? ?b)%nat] =>
           let E := fresh "E" in
           destruct (a <? b)%nat eqn:E;
           [apply Nat.ltb_lt in E | apply Nat.ltb_ge in E]
         end.

(** [yawn_fields] reads the fields of a detector that is written out. *)
Ltac yawn_fields :=
  cbn [fst snd Yawn.detector Yawn.mar_threshold Yawn.yawn_consecutive_frames
       Yawn.max_yawn_duration Yawn.stable_threshold Yawn.is_yawning
       Yawn.yawn_frame_count Yawn.stable_yawn_count Yawn.yawn_events
       Yawn.yawn_start_time].

Section YawnFacts.

Variable norm : point -> point -> Q.

Lemma set_last_duration_recorded events d :
  Forall Yawn.recorded events -> (4 <= d <= 45)%nat ->
  Forall Yawn.recorded (Yawn.set_last_duration events d).
Proof.
  intros Hall Hd. unfold Yawn.set_last_duration.
  destruct events as [|first rest]; [constructor|].
  assert (Hsplit : first :: rest
                   = (removelast (first :: rest) ++ [last (first :: rest) first])%list)
    by (apply app_removelast_last; discriminate).
  rewrite Hsplit in Hall. apply Forall_app in Hall. destruct Hall as [Hinit Hlast].
  apply Forall_app. split; [exact Hinit|].
  constructor; [|constructor].
  destruct (Forall_inv Hlast) as [Hmar _]. split; [exact Hmar | right; exact Hd].
Qed.

Lemma yawn_init_steady : Yawn.steady Yawn.init.
Proof. unfold Yawn.steady, Yawn.init. cbn. repeat split; try lia. constructor. Qed.

(** [detect_yawn] on a steady detector, by cases on the head, the MAR and
    the frame count. *)
Lemma detect_yawn_cases self mar turned :
  Yawn.steady self ->
  let count := Yawn.yawn_frame_count self in
  let frame := List.length (mar_history (Yawn.detector self)) in
  fst (Yawn.detect_yawn self mar turned)
  = (if turned then
       Yawn.with_test self 0 false (Yawn.yawn_start_time self)
                      (Yawn.yawn_events self) (Yawn.stable_yawn_count self)
     else if Qltb 0.65 (Yawn.or_last self mar) then
       if (count =? 3)%nat then
         Yawn.with_test self 4 true (Some frame)
           (Yawn.yawn_events self
            ++ [Yawn.mk_event frame (Yawn.or_last self mar) 0])
           (Yawn.stable_yawn_count self + 1)
       else if (count <? 45)%nat then
         Yawn.with_test self (count + 1) (4 <=? count)%nat
                        (Yawn.yawn_start_time self) (Yawn.yawn_events self)
                        (Yawn.stable_yawn_count self + 1)
       else
         Yawn.with_test self 0 false (Yawn.yawn_start_time self)
                        (Yawn.yawn_events self) 0
     else
       Yawn.with_test self 0 false (Yawn.yawn_start_time self)
         (if (4 <=? count)%nat
          then Yawn.set_last_duration (Yawn.yawn_events self) count
          else Yawn.yawn_events self) 0) /\
  snd (Yawn.detect_yawn self mar turned)
  = Yawn.is_yawning (fst (Yawn.detect_yawn self mar turned)).
Proof.
  intros [Ht [Hc [Hm [Hs [Hy [Hmax [Hstable Hevents]]]]]]].
  cbv zeta. unfold Yawn.detect_yawn. rewrite Ht, Hc, Hs.
  destruct turned.
  - yawn_fields. destruct (Yawn.is_yawning self); split; reflexivity.
  - destruct (Qltb 0.65 (Yawn.or_last self mar)) eqn:Hhigh; cbv zeta.
    + destruct (Yawn.yawn_frame_count self =? 3)%nat eqn:E3.
      * apply Nat.eqb_eq in E3.
        assert (Hcond : (4 <=? Yawn.yawn_frame_count self + 1)%nat
                        && (3 <=? Yawn.stable_yawn_count self + 1)%nat
                        && negb (Yawn.is_yawning self) = true).
        { rewrite Hy, E3.
          replace (3 <=? Yawn.stable_yawn_count self + 1)%nat with true
            by (symmetry; apply Nat.leb_le; lia).
          reflexivity. }
        rewrite Hcond. unfold Yawn.with_test. yawn_fields.
        rewrite Hm, E3. cbn [Nat.add Nat.ltb Nat.leb]. yawn_fields.
        split; reflexivity.
      * apply Nat.eqb_neq in E3.
        assert (Hcond : (4 <=? Yawn.yawn_frame_count self + 1)%nat
                        && (3 <=? Yawn.stable_yawn_count self + 1)%nat
                        && negb (Yawn.is_yawning self) = false).
        { rewrite Hy.
          destruct (4 <=? Yawn.yawn_frame_count self)%nat eqn:E4;
            [rewrite andb_false_r; reflexivity|].
          apply Nat.leb_gt in E4.
          assert (E5 : (4 <=? Yawn.yawn_frame_count self + 1)%nat = false)
            by (apply Nat.leb_gt; lia).
          rewrite E5. reflexivity. }
        rewrite Hcond. unfold Yawn.with_test. yawn_fields. rewrite Hm, Hy.
        destruct (Yawn.yawn_frame_count self <? 45)%nat eqn:E45.
        -- apply Nat.ltb_lt in E45.
           assert (E46 : (45 <? Yawn.yawn_frame_count self + 1)%nat = false)
             by (apply Nat.ltb_ge; lia).
           rewrite E46. yawn_fields. split; reflexivity.
        -- apply Nat.ltb_ge in E45.
           assert (E46 : (45 <? Yawn.yawn_frame_count self + 1)%nat = true)
             by (apply Nat.ltb_lt; lia).
           rewrite E46. yawn_fields. split; reflexivity.
    + rewrite Hy.
      destruct (4 <=? Yawn.yawn_frame_count self)%nat eqn:E4.
      * apply Nat.leb_le in E4.
        assert (E0 : (0 <? Yawn.yawn_frame_count self)%nat = true)
          by (apply Nat.ltb_lt; lia).
        rewrite E0. cbn [andb]. unfold Yawn.with_test. yawn_fields.
        rewrite Hm. cbn [Nat.ltb Nat.leb]. yawn_fields. split; reflexivity.
      * cbn [andb]. unfold Yawn.with_test. yawn_fields.
        rewrite Hm. cbn [Nat.ltb Nat.leb]. yawn_fields. split; reflexivity.
Qed.

Lemma detect_yawn_steady self mar turned :
  Yawn.steady self -> Yawn.steady (fst (Yawn.detect_yawn self mar turned)).
Proof.
  intro Hself. destruct (detect_yawn_cases self mar turned Hself) as [Hfst _].
  cbv zeta in Hfst. rewrite Hfst.
  destruct Hself as [Ht [Hc [Hm [Hs [Hy [Hmax [Hstable Hevents]]]]]]].
  assert (Hrest : forall events,
             Forall Yawn.recorded events ->
             Yawn.steady (Yawn.with_test self 0 false (Yawn.yawn_start_time self)
                                         events 0)).
  { intros events He. unfold Yawn.steady, Yawn.with_test. yawn_fields.
    repeat split; try assumption; lia. }
  destruct turned.
  - unfold Yawn.steady, Yawn.with_test. yawn_fields.
    repeat split; try assumption; lia.
  - destruct (Qltb 0.65 (Yawn.or_last self mar)) eqn:Hhigh.
    + apply Qltb_true in Hhigh.
      destruct (Yawn.yawn_frame_count self =? 3)%nat eqn:E3;
        [|destruct (Yawn.yawn_frame_count self <? 45)%nat eqn:E45].
      * apply Nat.eqb_eq in E3.
        unfold Yawn.steady, Yawn.with_test. yawn_fields.
        repeat split; try assumption; try lia.
        apply Forall_app. split; [exact Hevents|].
        constructor; [|constructor]. split; [exact Hhigh | left; reflexivity].
      * apply Nat.eqb_neq in E3. apply Nat.ltb_lt in E45.
        unfold Yawn.steady, Yawn.with_test. yawn_fields.
        repeat split; try assumption; try lia.
        destruct (4 <=? Yawn.yawn_frame_count self)%nat eqn:E4;
          symmetry; [apply Nat.leb_le; apply Nat.leb_le in E4; lia
                    |apply Nat.leb_gt; apply Nat.leb_gt in E4; lia].
      * apply Hrest. exact Hevents.
    + apply Hrest.
      destruct (4 <=? Yawn.yawn_frame_count self)%nat eqn:E4; [|exact Hevents].
      apply Nat.leb_le in E4.
      apply set_last_duration_recorded; [exact Hevents | lia].
Qed.

Lemma yawn_steady_step self c :
  Yawn.steady self -> Yawn.steady (Yawn.step norm self c).
Proof.
  intro Hself. destruct c as [lm|mar turned|]; cbn [Yawn.step].
  - unfold Yawn.calculate_mar.
    destruct (calculate_mar norm (Yawn.detector self) lm) as [detector' mar].
    exact Hself.
  - apply detect_yawn_steady. exact Hself.
  - destruct Hself as [Ht [Hc [Hm [Hs _]]]].
    unfold Yawn.steady, Yawn.reset_state. cbn.
    repeat split; try assumption; try lia. constructor.
Qed.

Lemma yawn_steady_calls cs : forall self,
  Yawn.steady self -> Yawn.steady (Yawn.calls norm self cs).
Proof.
  induction cs as [|c cs IH]; intros self H; [exact H|].
  cbn [Yawn.calls fold_left]. apply IH. apply yawn_steady_step. exact H.
Qed.

End YawnFacts.

Section YawnReadings.

Variable norm : point -> point -> Q.

Lemma intensity_above_threshold self mar :
  0.65 < mar ->
  In (Yawn.get_yawn_intensity self (Some mar)) [60; 80; 100]%nat.
Proof.
  intro Hhigh. unfold Yawn.get_yawn_intensity. cbn [Yawn.or_last].
  destruct (Qleb mar 0.25) eqn:A; destruct (Qleb mar 0.4) eqn:B;
    destruct (Qleb mar 0.55) eqn:C; destruct (Qleb mar 0.7) eqn:D;
    destruct (Qleb mar 0.9) eqn:E;
    cbn [In]; try tauto; exfalso; reflect_comparisons; lra.
Qed.

Lemma of_nat_between (lo hi n : nat) :
  (lo <= n <= hi)%nat ->
  Yawn.of_nat lo <= Yawn.of_nat n /\ Yawn.of_nat n <= Yawn.of_nat hi.
Proof.
  intro H. unfold Yawn.of_nat. rewrite <- !Zle_Qle. lia.
Qed.

Lemma detect_yawn_answer self mar turned :
  Yawn.steady self ->
  let count := Yawn.yawn_frame_count self in
  snd (Yawn.detect_yawn self mar turned)
  = negb turned && Qltb 0.65 (Yawn.or_last self mar)
    && (3 <=? count)%nat && (count <? 45)%nat /\
  Yawn.yawn_frame_count (fst (Yawn.detect_yawn self mar turned))
  = (if negb turned && Qltb 0.65 (Yawn.or_last self mar) && (count <? 45)%nat
     then S count else 0%nat).
Proof.
  intro Hself. cbv zeta.
  destruct (detect_yawn_cases self mar turned Hself) as [Hfst Hsnd].
  cbv zeta in Hfst. rewrite Hsnd, Hfst.
  destruct Hself as [_ [_ [_ [_ [_ [Hmax _]]]]]].
  destruct turned; [split; reflexivity|]. cbn [negb andb].
  destruct (Qltb 0.65 (Yawn.or_last self mar)); [|split; reflexivity].
  cbn [andb].
  destruct (Yawn.yawn_frame_count self =? 3)%nat eqn:E3.
  - apply Nat.eqb_eq in E3. rewrite E3. split; reflexivity.
  - apply Nat.eqb_neq in E3.
    destruct (Yawn.yawn_frame_count self <? 45)%nat eqn:E45;
      unfold Yawn.with_test; yawn_fields.
    + rewrite andb_true_r. split; [|lia].
      destruct (4 <=? Yawn.yawn_frame_count self)%nat eqn:E4;
        symmetry; [apply Nat.leb_le; apply Nat.leb_le in E4; lia
                  |apply Nat.leb_gt; apply Nat.leb_gt in E4; lia].
    + rewrite andb_false_r. split; reflexivity.
Qed.

Lemma detect_yawn_high self mar :
  Yawn.steady self ->
  0.65 < mar ->
  (Yawn.yawn_frame_count self < 45)%nat ->
  let self' := fst (Yawn.detect_yawn self (Some mar) false) in
  let frame := List.length (mar_history (Yawn.detector self)) in
  Yawn.yawn_frame_count self' = S (Yawn.yawn_frame_count self) /\
  Yawn.detector self' = Yawn.detector self /\
  Yawn.yawn_events self'
  = (Yawn.yawn_events self
     ++ if (Yawn.yawn_frame_count self =? 3)%nat
        then [Yawn.mk_event frame mar 0] else [])%list.
Proof.
  intros Hself Hhigh Hroom. cbv zeta.
  destruct (detect_yawn_cases self (Some mar) false Hself) as [Hfst _].
  cbv zeta in Hfst. rewrite Hfst. cbn [Yawn.or_last].
  apply Qltb_true in Hhigh. rewrite Hhigh.
  destruct (Yawn.yawn_frame_count self =? 3)%nat eqn:E3.
  - apply Nat.eqb_eq in E3. unfold Yawn.with_test. yawn_fields.
    rewrite E3. repeat split.
  - apply Nat.ltb_lt in Hroom. rewrite Hroom. unfold Yawn.with_test. yawn_fields.
    rewrite app_nil_r. repeat split. lia.
Qed.

Lemma detect_yawn_run_high mars : forall self,
  Yawn.steady self ->
  Forall (fun mar => 0.65 < mar) mars ->
  (Yawn.yawn_frame_count self + List.length mars <= 45)%nat ->
  let result := Yawn.detect_yawn_run self mars in
  let frame := List.length (mar_history (Yawn.detector self)) in
  snd result
  = map (fun k => (4 <=? Yawn.yawn_frame_count self + k)%nat)
        (seq 1 (List.length mars)) /\
  Yawn.yawn_frame_count (fst result)
  = (Yawn.yawn_frame_count self + List.length mars)%nat /\
  Yawn.yawn_events (fst result)
  = (Yawn.yawn_events self
     ++ match nth_error mars (3 - Yawn.yawn_frame_count self) with
        | Some mar =>
          if (Yawn.yawn_frame_count self <? 4)%nat
          then [Yawn.mk_event frame mar 0] else []
        | None => []
        end)%list.
Proof.
  induction mars as [|mar mars IH]; intros self Hself Hhigh Hroom.
  - cbv zeta. cbn [Yawn.detect_yawn_run fst snd List.length seq map].
    assert (Hnone : nth_error (@nil Q) (3 - Yawn.yawn_frame_count self) = None)
      by (destruct (3 - Yawn.yawn_frame_count self)%nat; reflexivity).
    rewrite Hnone, app_nil_r. repeat split; lia.
  - pose proof (Forall_inv Hhigh) as Hmar. cbv beta in Hmar.
    pose proof (Forall_inv_tail Hhigh) as Hrest.
    cbn [List.length] in Hroom.
    cbn [Yawn.detect_yawn_run].
    destruct (detect_yawn_high self mar Hself Hmar ltac:(lia))
      as [Hcount [Hdetector Hevents]].
    destruct (detect_yawn_answer self (Some mar) false Hself) as [Hanswer _].
    pose proof (detect_yawn_steady self (Some mar) false Hself) as Hnext.
    cbv zeta in Hcount, Hdetector, Hevents, Hanswer.
    cbn [Yawn.or_last negb andb] in Hanswer.
    destruct (Yawn.detect_yawn self (Some mar) false) as [self1 answer].
    cbn [fst snd] in *.
    destruct (IH self1 Hnext Hrest ltac:(lia)) as [Hanswers [Hfinal Hlater]].
    cbv zeta in Hanswers, Hfinal, Hlater.
    destruct (Yawn.detect_yawn_run self1 mars) as [self2 answers].
    cbn [fst snd] in *. cbv zeta. cbn [fst snd List.length seq map].
    split; [|split].
    + rewrite Hanswer, Hanswers, Hcount. f_equal.
      * apply Qltb_true in Hmar. rewrite Hmar. cbn [andb].
        assert (E45 : (Yawn.yawn_frame_count self <? 45)%nat = true)
          by (apply Nat.ltb_lt; lia).
        rewrite E45, andb_true_r.
        destruct (3 <=? Yawn.yawn_frame_count self)%nat eqn:E3;
          symmetry; [apply Nat.leb_le; apply Nat.leb_le in E3; lia
                    |apply Nat.leb_gt; apply Nat.leb_gt in E3; lia].
      * rewrite <- (seq_shift (List.length mars) 1), map_map.
        apply map_ext. intro k.
        replace (S (Yawn.yawn_frame_count self) + k)%nat
          with (Yawn.yawn_frame_count self + S k)%nat by lia.
        reflexivity.
    + rewrite Hfinal, Hcount. lia.
    + rewrite Hlater, Hevents, Hcount, Hdetector, <- app_assoc. f_equal.
      destruct (Yawn.yawn_frame_count self) as [|[|[|[|c]]]];
        cbn [Nat.eqb Nat.sub Nat.ltb Nat.leb nth_error app];
        try reflexivity.
      * destruct mars; reflexivity.
      * destruct mars; reflexivity.
Qed.

End YawnReadings.

(** X23.  [get_yawn_intensity] is a scale: its values are 0, 20, 40, 60, 80
    and 100 and a larger MAR never gives a lower intensity.
    [is_mouth_open] holds exactly from intensity 40 on, and a MAR that
    [detect_yawn] counts (above 0.65) has intensity 60 or more.
    [get_mouth_status] names a yawn by the bands of [last_mar]: "Strong
    Yawn" above 0.7, "Moderate Yawn" above 0.55, "Mild Yawn" otherwise. *)
Theorem X23_yawn_intensity_scale (self : Yawn.state) (mar1 mar2 : Q) :
  In (Yawn.get_yawn_intensity self (Some mar1)) [0; 20; 40; 60; 80; 100]%nat /\
  (mar1 <= mar2 ->
   (Yawn.get_yawn_intensity self (Some mar1)
    <= Yawn.get_yawn_intensity self (Some mar2))%nat) /\
  Yawn.is_mouth_open self (Some mar1)
  = (40 <=? Yawn.get_yawn_intensity self (Some mar1))%nat /\
  (0.65 < mar1 -> (60 <= Yawn.get_yawn_intensity self (Some mar1))%nat) /\
  (Yawn.is_yawning self = true ->
   Yawn.get_mouth_status self
   = (if Qltb 0.7 (Yawn.last_mar self) then "Strong Yawn"
      else if Qltb 0.55 (Yawn.last_mar self) then "Moderate Yawn"
      else "Mild Yawn")).
Proof.
  split; [|split; [|split; [|split]]].
  - unfold Yawn.get_yawn_intensity. cbn [Yawn.or_last].
    case_branches; cbn [In]; tauto.
  - intro Hle. unfold Yawn.get_yawn_intensity. cbn [Yawn.or_last].
    destruct (Qleb mar1 0.25) eqn:A1; destruct (Qleb mar1 0.4) eqn:B1;
      destruct (Qleb mar1 0.55) eqn:C1; destruct (Qleb mar1 0.7) eqn:D1;
      destruct (Qleb mar1 0.9) eqn:E1;
      destruct (Qleb mar2 0.25) eqn:A2; destruct (Qleb mar2 0.4) eqn:B2;
      destruct (Qleb mar2 0.55) eqn:C2; destruct (Qleb mar2 0.7) eqn:D2;
      destruct (Qleb mar2 0.9) eqn:E2;
      try lia; exfalso; reflect_comparisons; lra.
  - unfold Yawn.is_mouth_open, Yawn.get_yawn_intensity. cbn [Yawn.or_last].
    destruct (Qleb mar1 0.25) eqn:A1; destruct (Qleb mar1 0.4) eqn:B1;
      destruct (Qleb mar1 0.55) eqn:C1; destruct (Qleb mar1 0.7) eqn:D1;
      destruct (Qleb mar1 0.9) eqn:E1;
      destruct (Qltb 0.4 mar1) eqn:F1;
      cbn [Nat.leb]; try reflexivity; exfalso; reflect_comparisons; lra.
  - intro Hhigh. pose proof (intensity_above_threshold self mar1 Hhigh) as Hin.
    cbn [In] in Hin. lia.
  - intro Hyawning. unfold Yawn.get_mouth_status, Yawn.get_yawn_intensity, Qltb, Qleb.
    rewrite Hyawning. cbn [Yawn.or_last].
    destruct (Qle_bool (Yawn.last_mar self) 0.25) eqn:A1;
      destruct (Qle_bool (Yawn.last_mar self) 0.4) eqn:B1;
      destruct (Qle_bool (Yawn.last_mar self) 0.55) eqn:C1;
      destruct (Qle_bool (Yawn.last_mar self) 0.7) eqn:D1;
      destruct (Qle_bool (Yawn.last_mar self) 0.9) eqn:E1;
      cbn [Nat.leb negb]; try reflexivity; exfalso;
      repeat match goal with
             | E : Qle_bool _ _ = true |- _ => apply Qleb_true in E
             | E : Qle_bool _ _ = false |- _ => apply Qleb_false in E
             end; lra.
Qed.

(** X24.  Whatever calls a [YawnDetector] has received ([calculate_mar],
    [detect_yawn], [reset_state], in any order and with any arguments), a
    yawn is on exactly while the frame count is 4 or more, the frame count
    never exceeds 45 nor the stability count, and the next [detect_yawn]
    answers True exactly when the head is not turned away, the MAR it tests
    is above 0.65, the three calls before it were counted and the count has
    not reached 45: from the fourth consecutive frame of an open mouth up
    to the 45th; the 46th resets the detector.  It answers False whenever
    the MAR is at most 0.65 or the head is turned away. *)
Theorem X24_yawn_answer_by_counter
        (norm : point -> point -> Q) (cs : list Yawn.call)
        (mar : option Q) (head_turned_away : bool) :
  let self := Yawn.calls norm Yawn.init cs in
  let count := Yawn.yawn_frame_count self in
  Yawn.is_yawning self = (4 <=? count)%nat /\
  (count <= 45)%nat /\
  (count <= Yawn.stable_yawn_count self)%nat /\
  snd (Yawn.detect_yawn self mar head_turned_away)
  = negb head_turned_away && Qltb 0.65 (Yawn.or_last self mar)
    && (3 <=? count)%nat && (count <? 45)%nat /\
  Yawn.yawn_frame_count (fst (Yawn.detect_yawn self mar head_turned_away))
  = (if negb head_turned_away && Qltb 0.65 (Yawn.or_last self mar)
        && (count <? 45)%nat
     then S count else 0%nat).
Proof.
  cbv zeta.
  pose proof (yawn_steady_calls norm cs Yawn.init yawn_init_steady) as Hself.
  destruct (detect_yawn_answer (Yawn.calls norm Yawn.init cs) mar
                               head_turned_away Hself) as [Hanswer Hcount].
  destruct Hself as [_ [_ [_ [_ [Hy [Hmax [Hstable _]]]]]]].
  repeat split; assumption.
Qed.

(** X25.  Whatever calls a [YawnDetector] has received,
    [get_yawn_statistics] counts the events of [yawn_events].  Without
    events every entry is 0 and [recent_yawns] is absent.  Otherwise
    [recent_yawns] holds the last events, five at most; the largest
    [max_mar] is above 0.65 and the average intensity lies between 60 and
    100, because only a MAR above the threshold confirms a yawn; and the
    average duration is 0 (no yawn has ended by its MAR falling) or lies
    between 4 and 45 frames. *)
Theorem X25_yawn_statistics
        (norm : point -> point -> Q) (cs : list Yawn.call) :
  let self := Yawn.calls norm Yawn.init cs in
  let stats := Yawn.get_yawn_statistics self in
  Yawn.total_yawns stats = List.length (Yawn.yawn_events self) /\
  match Yawn.recent_yawns stats with
  | None =>
    Yawn.total_yawns stats = 0%nat /\ Yawn.average_duration stats = 0 /\
    Yawn.highest_mar stats = 0 /\ Yawn.average_intensity stats = 0
  | Some recent =>
    (0 < Yawn.total_yawns stats)%nat /\
    List.length recent = Nat.min (Yawn.total_yawns stats) 5 /\
    (exists earlier, Yawn.yawn_events self = (earlier ++ recent)%list) /\
    0.65 < Yawn.highest_mar stats /\
    60 <= Yawn.average_intensity stats /\
    Yawn.average_intensity stats <= 100 /\
    (Yawn.average_duration stats = 0 \/
     4 <= Yawn.average_duration stats /\ Yawn.average_duration stats <= 45)
  end.
Proof.
  intros self stats.
  destruct (yawn_steady_calls norm cs Yawn.init yawn_init_steady)
    as [_ [_ [_ [_ [_ [_ [_ Hevents]]]]]]].
  fold self in Hevents. subst stats. unfold Yawn.get_yawn_statistics.
  destruct (Yawn.yawn_events self) as [|first others] eqn:Hlist.
  - cbn. repeat split.
  - cbn [Yawn.total_yawns Yawn.recent_yawns Yawn.highest_mar
         Yawn.average_intensity Yawn.average_duration].
    split; [reflexivity|]. split; [cbn; lia|].
    split; [apply length_last_n|].
    split; [exists (firstn (List.length (first :: others) - 5) (first :: others));
            unfold last_n; symmetry; apply firstn_skipn|].
    split; [|split; [|split]].
    + destruct (Forall_inv Hevents) as [Hfirst _].
      eapply Qlt_le_trans; [exact Hfirst|].
      apply (Qlist_max_ge (map Yawn.max_mar others) (Yawn.max_mar first)).
    + apply (mean_lower 60); [discriminate|].
      rewrite Forall_map. eapply Forall_impl; [|exact Hevents].
      intros e [He _].
      pose proof (intensity_above_threshold self (Yawn.max_mar e) He) as Hin.
      change 60 with (Yawn.of_nat 60).
      apply (of_nat_between 60 100). cbn [In] in Hin. lia.
    + apply (mean_bounds 60 100); [discriminate|].
      rewrite Forall_map. eapply Forall_impl; [|exact Hevents].
      intros e [He _].
      pose proof (intensity_above_threshold self (Yawn.max_mar e) He) as Hin.
      change 60 with (Yawn.of_nat 60). change 100 with (Yawn.of_nat 100).
      apply (of_nat_between 60 100). cbn [In] in Hin. lia.
    + destruct (filter (fun d => (0 <? d)%nat)
                       (map Yawn.duration (first :: others)))
        as [|d durations] eqn:Hdurations; [left; reflexivity|].
      right. apply (mean_bounds 4 45); [discriminate|].
      rewrite Forall_map, <- Hdurations.
      rewrite Forall_forall. intros x Hx.
      apply filter_In in Hx. destruct Hx as [Hx Hpositive].
      apply Nat.ltb_lt in Hpositive.
      apply in_map_iff in Hx. destruct Hx as [e [Hd He]].
      rewrite Forall_forall in Hevents. destruct (Hevents e He) as [_ Hrange].
      change 4 with (Yawn.of_nat 4). change 45 with (Yawn.of_nat 45).
      apply (of_nat_between 4 45). lia.
Qed.

(** X26.  On a detector with any history of calls whose frame count stands
    at 0, a run of up to 45 [detect_yawn] calls with MAR above 0.65 and the
    head not turned answers False, False, False and then True; the fourth
    call appends the one event of the run, whose [max_mar] is the MAR of
    that fourth call (the larger MARs of later frames do not change it),
    whose [start_frame] is the length of the MAR window and whose duration
    is 0 until the yawn ends. *)
Theorem X26_yawn_confirmed_by_fourth_frame
        (norm : point -> point -> Q) (cs : list Yawn.call) (mars : list Q) :
  Forall (fun mar => 0.65 < mar) mars ->
  (List.length mars <= 45)%nat ->
  let self := Yawn.calls norm Yawn.init cs in
  Yawn.yawn_frame_count self = 0%nat ->
  let result := Yawn.detect_yawn_run self mars in
  snd result = map (fun k => (4 <=? k)%nat) (seq 1 (List.length mars)) /\
  Yawn.yawn_frame_count (fst result) = List.length mars /\
  Yawn.yawn_events (fst result)
  = (Yawn.yawn_events self
     ++ match nth_error mars 3 with
        | Some mar =>
          [Yawn.mk_event (List.length (mar_history (Yawn.detector self))) mar 0]
        | None => []
        end)%list.
Proof.
  intros Hhigh Hlen self Hcount result.
  destruct (detect_yawn_run_high mars self
              (yawn_steady_calls norm cs Yawn.init yawn_init_steady)
              Hhigh ltac:(lia)) as [Hanswers [Hfinal Hevents]].
  cbv zeta in Hanswers, Hfinal, Hevents. subst result.
  rewrite Hanswers, Hfinal, Hevents, Hcount. repeat split.
Qed.

Lemma X26_yawn_confirmed_by_fourth_frame_witness :
  let cs := [Yawn.CalculateMar (face 6 8); Yawn.DetectYawn (Some 0.9) false;
             Yawn.DetectYawn None false] in
  let mars := [0.7; 0.8; 0.9; 0.66; 1.2] in
  let self := Yawn.calls pixel_norm Yawn.init cs in
  Forall (fun mar => 0.65 < mar) mars /\
  (List.length mars <= 45)%nat /\
  Yawn.yawn_frame_count self = 0%nat /\
  snd (Yawn.detect_yawn_run self mars) = [false; false; false; true; true] /\
  Yawn.yawn_events (fst (Yawn.detect_yawn_run self mars))
  = [Yawn.mk_event 1 0.66 0].
Proof.
  intros cs mars self.
  assert (Hhigh : Forall (fun mar => 0.65 < mar) mars)
    by (repeat constructor; reflexivity).
  assert (Hlen : (List.length mars <= 45)%nat) by (cbn; lia).
  assert (Hcount : Yawn.yawn_frame_count self = 0%nat)
    by (vm_compute; reflexivity).
  split; [exact Hhigh|]. split; [exact Hlen|]. split; [exact Hcount|].
  destruct (X26_yawn_confirmed_by_fourth_frame pixel_norm cs mars Hhigh Hlen Hcount)
    as [Hanswers [_ Hevents]].
  split; [exact Hanswers|].
  refine (eq_trans Hevents _). vm_compute. reflexivity.
Defined.

(** X27.  The two reliability tests depend on the head pose only through
    the absolute values of pitch and yaw, and their limits nest: whenever
    [is_reliable_measurement] rejects an EAR (pitch beyond 30 or yaw beyond
    35 degrees), [is_false_positive_likely] flags the yawn; without
    head-pose data, or with a pose inside 25 and 30 degrees, the EAR is
    reliable and no false positive is suspected. *)
Theorem X27_head_pose_limits_nest
        (eye : Eye.state) (yawn : Yawn.state) (data : list (string * Q)) :
  (Eye.is_reliable_measurement eye (Some data) = false ->
   Yawn.is_false_positive_likely yawn (Some data) = true) /\
  (Yawn.is_false_positive_likely yawn (Some data) = false <->
   Qabs (pose_get data "pitch") <= 25 /\ Qabs (pose_get data "yaw") <= 30) /\
  (Eye.is_reliable_measurement eye (Some data) = true <->
   Qabs (pose_get data "pitch") <= 30 /\ Qabs (pose_get data "yaw") <= 35) /\
  Eye.is_reliable_measurement eye None = true /\
  Yawn.is_false_positive_likely yawn None = false.
Proof.
  unfold Eye.is_reliable_measurement, Yawn.is_false_positive_likely.
  destruct (Qltb 30 (Qabs (pose_get data "pitch"))) eqn:A;
    destruct (Qltb 35 (Qabs (pose_get data "yaw"))) eqn:B;
    destruct (Qltb 25 (Qabs (pose_get data "pitch"))) eqn:C;
    destruct (Qltb 30 (Qabs (pose_get data "yaw"))) eqn:D;
    cbn [orb]; reflect_comparisons;
    repeat split; intros; try reflexivity; try discriminate; try lra;
    exfalso;
    repeat match goal with
           | H : _ /\ _ |- _ => destruct H
           end; lra.
Qed.

(** ** Starting and stopping a session *)

(** [monitor_fields] reads the fields of a monitor that is written out. *)
Ltac monitor_fields :=
  cbn [Monitor.activity_logger Monitor.spoken Monitor.eye_tracker
       Monitor.yawn_detector Monitor.face_presence_detector
       Monitor.emergency_wakeup Monitor.cap Monitor.detection_active
       Monitor.current_status Monitor.last_active_time
       Monitor.inactive_start_time Monitor.emergency_triggered
       Monitor.inactivity_threshold Monitor.previous_status Monitor.last_ear
       Monitor.last_mar Monitor.drowsy_counter Monitor.yawn_counter
       Monitor.drowsy_threshold Monitor.yawn_threshold].

(** X28.  [stop_detection] always leaves detection off, the escalator idle,
    the emergency flag clear and the status "Inactive".  It writes the
    "stopped" row and, unless the status was "Inactive" already, the row of
    the status change.  It does not close the inactivity window, and when
    the status was "Active" the status change starts the logger's own
    inactive tracking at the reading of the clock. *)
Theorem X28_stop_detection_settles
        (m : Monitor.AttentivenessMonitor) (now : Q) :
  let m' := Monitor.stop_detection m now in
  Monitor.detection_active m' = false /\
  Emergency.is_emergency_active (Monitor.emergency_wakeup m') = false /\
  Monitor.emergency_triggered m' = false /\
  Monitor.current_status m' = "Inactive" /\
  Monitor.inactive_start_time m' = Monitor.inactive_start_time m /\
  Logger.rows (Monitor.activity_logger m')
  = (Logger.rows (Monitor.activity_logger m)
     ++ Logger.mk_row "System" (Logger.DetectionSession "stopped") 0 0.0 0.0 None
     :: if String.eqb (Monitor.current_status m) "Inactive" then []
        else [Logger.mk_row "Inactive"
                (Logger.StatusChanged (Monitor.current_status m) "Inactive")
                0 (Monitor.last_ear m) (Monitor.last_mar m) None])%list /\
  Logger.last_inactive_start (Monitor.activity_logger m')
  = (if String.eqb (Monitor.current_status m) "Active" then Some now else None).
Proof.
  destruct m as [logger said eye yawn presence escalator capture active
                 status active_time start flag threshold previous ear mar
                 drowsy yawns drowsy_limit yawn_limit].
  cbv [Monitor.stop_detection Monitor.update_status Monitor.speak
       Monitor.set_spoken Monitor.set_activity_logger
       Monitor.set_current_status Monitor.set_emergency_triggered
       Monitor.set_emergency_wakeup Monitor.set_detection_active
       Monitor.activity_logger Monitor.spoken Monitor.eye_tracker
       Monitor.yawn_detector Monitor.face_presence_detector
       Monitor.emergency_wakeup Monitor.cap Monitor.detection_active
       Monitor.current_status Monitor.last_active_time
       Monitor.inactive_start_time Monitor.emergency_triggered
       Monitor.inactivity_threshold Monitor.previous_status Monitor.last_ear
       Monitor.last_mar Monitor.drowsy_counter Monitor.yawn_counter
       Monitor.drowsy_threshold Monitor.yawn_threshold].
  rewrite (String.eqb_sym "Inactive" status).
  destruct (String.eqb status "Inactive") eqn:Einactive;
    cbn [negb]; monitor_fields; rewrite stop_emergency_idle.
  - apply String.eqb_eq in Einactive. rewrite Einactive.
    repeat split.
  - split; [reflexivity|]. split; [reflexivity|]. split; [reflexivity|].
    split; [reflexivity|]. split; [reflexivity|].
    unfold Logger.log_status_change, Logger.log_detection_session.
    cbn [String.eqb Ascii.eqb Bool.eqb andb Logger.log_event Logger.rows
         Logger.last_inactive_start].
    rewrite andb_false_r.
    change (Logger._is_inactive_status "Inactive") with true.
    rewrite !andb_true_r. cbn [negb andb].
    destruct (String.eqb status "Active") eqn:Eactive.
    + cbn [Logger.log_event Logger.rows Logger.last_inactive_start].
      rewrite <- app_assoc. split; reflexivity.
    + destruct (Logger._is_inactive_status status);
        cbn [negb andb Logger.log_event Logger.rows Logger.last_inactive_start];
        rewrite <- app_assoc; split; reflexivity.
Qed.

(** X29.  [start_detection] either fails to open the camera, and then
    changes nothing but the capture object (detection is not switched on
    and nothing is logged or reset), or it switches detection on with a
    closed inactivity window, a clear emergency flag, both counters at 0, a
    presence detector without absence timer and a logger that tracks no
    inactive period, after writing the one "started" row.  It leaves the
    escalator alone: an emergency that is running keeps running. *)
Theorem X29_start_detection_resets
        (m : Monitor.AttentivenessMonitor) (camera_ok : bool)
        (now now_presence : Q) :
  let m' := Monitor.start_detection m camera_ok now now_presence in
  if Monitor.camera_open m || camera_ok then
    Monitor.detection_active m' = true /\
    Monitor.camera_open m' = true /\
    Monitor.inactive_start_time m' = None /\
    Monitor.emergency_triggered m' = false /\
    Monitor.drowsy_counter m' = 0%nat /\ Monitor.yawn_counter m' = 0%nat /\
    Monitor.last_active_time m' = now /\
    FacePresence.face_lost_time (Monitor.face_presence_detector m') = None /\
    Logger.last_inactive_start (Monitor.activity_logger m') = None /\
    Logger.rows (Monitor.activity_logger m')
    = (Logger.rows (Monitor.activity_logger m)
       ++ [Logger.mk_row "System" (Logger.DetectionSession "started")
                         0 0.0 0.0 None])%list /\
    Monitor.emergency_wakeup m' = Monitor.emergency_wakeup m /\
    Monitor.current_status m' = Monitor.current_status m
  else m' = Monitor.set_cap (Some false) m.
Proof.
  cbv zeta. unfold Monitor.start_detection.
  destruct (Monitor.camera_open m) eqn:Hopen; cbn [orb].
  - unfold Monitor.camera_open in *. cbn. rewrite Hopen. repeat split.
  - destruct camera_ok; [|reflexivity]. cbn. repeat split.
Qed.

(** ** The two face detectors on one picture *)

(** X30.  [check_multiple_faces] never raises; it reports "Multiple Persons
    Detected" exactly for a picture with more than one detection.  On such
    a picture the presence detector agrees that a face is there:
    [is_face_present] holds and [check_face_presence] answers "Active",
    clears the absence timer and records the detection time. *)
Theorem X30_multiple_faces_are_present
        (self : FacePresence.FacePresenceDetector) (im : FacePresence.image)
        (now now_handle : Q) :
  match MultipleFaces.check_multiple_faces im with
  | Some status =>
    status = "Multiple Persons Detected" /\
    (exists detections,
        im = FacePresence.Picture detections /\ (1 < detections)%nat) /\
    FacePresence.is_face_present self im = true /\
    FacePresence.check_face_presence self im now now_handle
    = Some (FacePresence.mk (FacePresence.short_absence_threshold self)
                            (FacePresence.long_absence_threshold self)
                            None now,
            "Active")
  | None =>
    im = FacePresence.NoImage \/
    exists detections,
      im = FacePresence.Picture detections /\ (detections <= 1)%nat
  end.
Proof.
  destruct im as [|detections]; cbn [MultipleFaces.check_multiple_faces].
  - left. reflexivity.
  - destruct (1 <? detections)%nat eqn:Emany.
    + apply Nat.ltb_lt in Emany. split; [reflexivity|].
      split; [exists detections; split; [reflexivity | exact Emany]|].
      assert (Hsome : (0 <? detections)%nat = true) by (apply Nat.ltb_lt; lia).
      cbn [FacePresence.is_face_present FacePresence.check_face_presence
           FacePresence.cvtColor].
      rewrite Hsome. split; reflexivity.
    + apply Nat.ltb_ge in Emany. right. exists detections.
      split; [reflexivity | exact Emany].
Qed.
